(** * SMTP lab: mailbox delivery, address codec, composition and listing

    A shallow embedding of the mail-transfer core of the repository:
    - [smtp_server.py]: [CustomSMTPHandler.validate_email],
      [deliver_to_mailbox], [handle_DATA];
    - [smtp_client.py]: [SMTPClient.validate_email], [create_email],
      [_attach_file], [send_email];
    - [smtp_gui.py]: the recipient field and the attachment list of the
      compose tab ([send_email], [add_attachment], [remove_attachment]) and
      the mailbox tab ([refresh_mailbox], [load_emails], [view_email]).

    The file system is a finite map from paths, compared as they are
    written, to directories and files; the log file of the [logging]
    module is kept apart, as the list of logged records.

    A Python [bytes] value is modelled by the [string] of its bytes, a
    [str] value by the [string] of its UTF-8 bytes; the literals the code
    searches for and replaces are ASCII, which UTF-8 keeps apart from the
    bytes of every other character.
    Exceptions are explicit: a computation returns [Ok v] or [Raise e]. *)

From Stdlib Require Import String Ascii List Bool Arith NArith Lia.
From Stdlib Require Import Sorting.Sorted Sorting.Permutation.
From stdpp Require Import base option gmap strings list fin_maps pretty.

Import ListNotations.
Local Open Scope string_scope.
Local Open Scope list_scope.

(* Let [simpl] unfold string concatenation on a constructor. *)
#[local] Arguments String.append !s1 s2 : simpl nomatch.

(** ** Python exceptions *)

Inductive exn_class : Type :=
  | ValueError
  | IndexError
  | TypeError
  | OSError
  | SMTPException
  | OtherException
  | UnicodeEncodeError.

Record exn : Type := Exn { exn_cls : exn_class; exn_msg : string }.

Inductive result (A : Type) : Type :=
  | Ok (a : A)
  | Raise (e : exn).
Arguments Ok {A} a.
Arguments Raise {A} e.

Definition is_ok {A} (r : result A) : bool :=
  match r with Ok _ => true | Raise _ => false end.

(** The line feed, ['\n']. *)
Definition nl : string := String "010"%char EmptyString.

(** ** Python string operations used by the code *)

Module PyStr.

(** [s.startswith(p)] *)
Fixpoint startswith (p s : string) : bool :=
  match p, s with
  | EmptyString, _ => true
  | String _ _, EmptyString => false
  | String a p', String b s' => if Ascii.eqb a b then startswith p' s' else false
  end.

(** [s.endswith(p)] *)
Definition endswith (p s : string) : bool :=
  let n := String.length s in
  let k := String.length p in
  if Nat.leb k n then String.eqb (substring (n - k) k s) p else false.

(** [sub in s] *)
Fixpoint contains (sub s : string) : bool :=
  startswith sub s
  || match s with
     | EmptyString => false
     | String _ s' => contains sub s'
     end.

(** The scan of [s.replace(old, new)] for a non-empty [old]: leftmost
    matches, never overlapping.  [skip] counts the characters of a match
    still to be passed over. *)
Fixpoint replace_from (old new : string) (skip : nat) (s : string) : string :=
  match s with
  | EmptyString => EmptyString
  | String c s' =>
      match skip with
      | S k => replace_from old new k s'
      | O =>
          if startswith old s
          then new +:+ replace_from old new (String.length old - 1) s'
          else String c (replace_from old new 0 s')
      end
  end.

Fixpoint intersperse_all (new s : string) : string :=
  match s with
  | EmptyString => EmptyString
  | String c s' => String c (new +:+ intersperse_all new s')
  end.

(** [s.replace(old, new)].  With an empty [old] Python puts [new] before
    every character and at the end. *)
Definition replace (old new s : string) : string :=
  match old with
  | EmptyString => new +:+ intersperse_all new s
  | String _ _ => replace_from old new 0 s
  end.

(** The scan of [s.split(sep)] for a non-empty [sep]. *)
Fixpoint split_from (sep : string) (skip : nat) (s : string) : list string :=
  match s with
  | EmptyString => [EmptyString]
  | String c s' =>
      match skip with
      | S k => split_from sep k s'
      | O =>
          if startswith sep s
          then EmptyString :: split_from sep (String.length sep - 1) s'
          else match split_from sep 0 s' with
               | seg :: rest => String c seg :: rest
               | [] => [String c EmptyString]
               end
      end
  end.

(** [s.split(sep)]; an empty separator is a [ValueError] in Python. *)
Definition split (sep s : string) : result (list string) :=
  match sep with
  | EmptyString => Raise (Exn ValueError "empty separator")
  | String _ _ => Ok (split_from sep 0 s)
  end.

(** [sep.join(l)] *)
Fixpoint join (sep : string) (l : list string) : string :=
  match l with
  | [] => EmptyString
  | [x] => x
  | x :: rest => x +:+ sep +:+ join sep rest
  end.

(** Number of occurrences of the character [c]: [s.count(c)]. *)
Fixpoint count (c : ascii) (s : string) : nat :=
  match s with
  | EmptyString => 0
  | String a s' => (if Ascii.eqb a c then 1 else 0) + count c s'
  end.

(** The part of [s] after its last [c] (all of [s] when [c] is absent):
    [s[s.rfind(c) + 1:]]. *)
Fixpoint after_last (c : ascii) (s : string) : string :=
  match s with
  | EmptyString => EmptyString
  | String a s' =>
      if Nat.ltb 0 (count c s') then after_last c s'
      else if Ascii.eqb a c then s' else s
  end.

(** [s.rstrip(c)] for one character [c]. *)
Fixpoint rstrip_char (c : ascii) (s : string) : string :=
  match s with
  | EmptyString => EmptyString
  | String a s' =>
      match rstrip_char c s' with
      | EmptyString => if Ascii.eqb a c then EmptyString else String a EmptyString
      | r => String a r
      end
  end.

(** [s == c * len(s)] *)
Fixpoint all_char (c : ascii) (s : string) : bool :=
  match s with
  | EmptyString => true
  | String a s' => Ascii.eqb a c && all_char c s'
  end.

(** White space as [str.isspace] has it, on the UTF-8 bytes of the text.
    One byte: the ASCII characters 9 to 13 and 28 to 32. *)
Definition isspace (c : ascii) : bool :=
  let n := nat_of_ascii c in
  (Nat.leb 9 n && Nat.leb n 13) || (Nat.leb 28 n && Nat.leb n 32).

(** Two bytes: U+0085 and U+00A0. *)
Definition isspace2 (a b : ascii) : bool :=
  Nat.eqb (nat_of_ascii a) 194
  && (Nat.eqb (nat_of_ascii b) 133 || Nat.eqb (nat_of_ascii b) 160).

(** Three bytes: U+1680, U+2000 to U+200A, U+2028, U+2029, U+202F, U+205F
    and U+3000. *)
Definition isspace3 (a b c : ascii) : bool :=
  let x := nat_of_ascii a in
  let y := nat_of_ascii b in
  let z := nat_of_ascii c in
  (Nat.eqb x 225 && Nat.eqb y 154 && Nat.eqb z 128)
  || (Nat.eqb x 226 && Nat.eqb y 128
      && ((Nat.leb 128 z && Nat.leb z 138)
          || Nat.eqb z 168 || Nat.eqb z 169 || Nat.eqb z 175))
  || (Nat.eqb x 226 && Nat.eqb y 129 && Nat.eqb z 159)
  || (Nat.eqb x 227 && Nat.eqb y 128 && Nat.eqb z 128).

(** Dropping the white-space characters a text starts with; [sp2] and [sp3]
    recognise the characters of two and three bytes. *)
Fixpoint drop_space (sp2 : ascii -> ascii -> bool)
    (sp3 : ascii -> ascii -> ascii -> bool) (s : string) : string :=
  match s with
  | EmptyString => EmptyString
  | String a r =>
      if isspace a then drop_space sp2 sp3 r
      else match r with
           | EmptyString => s
           | String b r2 =>
               if sp2 a b then drop_space sp2 sp3 r2
               else match r2 with
                    | EmptyString => s
                    | String c r3 =>
                        if sp3 a b c then drop_space sp2 sp3 r3 else s
                    end
           end
  end.

(** The bytes of [s] in reverse order. *)
Fixpoint reverse (s : string) : string :=
  match s with
  | EmptyString => EmptyString
  | String c s' => reverse s' +:+ String c EmptyString
  end.

(** [s.lstrip()] *)
Definition lstrip (s : string) : string := drop_space isspace2 isspace3 s.

(** [s.rstrip()]: the same scan from the end; a character of several bytes
    ends the text exactly when its bytes do. *)
Definition rstrip (s : string) : string :=
  reverse (drop_space (fun a b => isspace2 b a) (fun a b c => isspace3 c b a)
             (reverse s)).

(** [s.strip()] *)
Definition strip (s : string) : string := rstrip (lstrip s).

End PyStr.

(** ** Address validation ([validate_email], identical in server and client) *)

(** [l[i]] on a Python list. *)
Definition py_index {A} (l : list A) (i : nat) : result A :=
  match nth_error l i with
  | Some x => Ok x
  | None => Raise (Exn IndexError "list index out of range")
  end.

Definition bind_result {A B} (r : result A) (k : A -> result B) : result B :=
  match r with
  | Ok a => k a
  | Raise e => Raise e
  end.

(** [if '@' in email and '.' in email.split('@')[1]: return True
     return False] *)
Definition validate_email (email : string) : result bool :=
  if PyStr.contains "@" email then
    bind_result (PyStr.split "@" email) (fun parts =>
    bind_result (py_index parts 1) (fun domain =>
    Ok (PyStr.contains "." domain)))
  else Ok false.

(** ** Address codec *)

(** [recipient.replace('@', '_at_').replace('.', '_')]
    ([deliver_to_mailbox], [load_emails], [view_email]). *)
Definition encode (address : string) : string :=
  PyStr.replace "." "_" (PyStr.replace "@" "_at_" address).

(** [d.replace('_at_', '@').replace('_', '.')] ([refresh_mailbox]). *)
Definition decode (d : string) : string :=
  PyStr.replace "_" "." (PyStr.replace "_at_" "@" d).

(** What one character of an address becomes. *)
Definition enc_char (c : ascii) : string :=
  if Ascii.eqb c "@" then "_at_"
  else if Ascii.eqb c "." then "_"
  else String c EmptyString.

(** The addresses on which the naive substitution is reversible. *)
Definition codec_safe (a : string) : Prop :=
  PyStr.count "_" a = 0 /\
  PyStr.contains ".at." a = false /\
  PyStr.contains ".at@" a = false.

(** ** The world the code runs in *)

(** A Python [dict] with string keys and values, in insertion order. *)
Definition dict : Type := list (string * string).

(** [d.get(key, default)] *)
Fixpoint dict_get (d : dict) (key default : string) : string :=
  match d with
  | [] => default
  | (k, v) :: d' => if String.eqb k key then v else dict_get d' key default
  end.

(** What a file holds.  A file written by [json.dump] is kept as the
    dictionary it encodes, which is what [json.load] gives back; any other
    file is raw bytes. *)
Inductive content : Type :=
  | Bytes (b : string)
  | Json (d : dict).

Inductive node : Type :=
  | Dir
  | File (c : content).

Inductive level : Type := INFO | WARNING | ERROR.

Record world : Type := World {
  fs : gmap string node;               (* path |-> directory or file; the log file apart *)
  denied : gset string;                (* paths the process may not create, read or write *)
  ticks : nat;                         (* reads of [datetime.now()] so far *)
  log : list (level * string);         (* the [logging] records, oldest first *)
  gui_log_queue : option (list string);(* [self.gui_log_queue] *)
  stdout : list string                 (* what [print] wrote *)
}.

Definition set_fs (f : gmap string node -> gmap string node) (w : world) : world :=
  World (f (fs w)) (denied w) (ticks w) (log w) (gui_log_queue w) (stdout w).

(** ** State and exception monad *)

Definition M (A : Type) : Type := world -> result A * world.

Definition ret {A} (a : A) : M A := fun w => (Ok a, w).

Definition raise {A} (e : exn) : M A := fun w => (Raise e, w).

Definition bind {A B} (m : M A) (k : A -> M B) : M B :=
  fun w =>
    match m w with
    | (Ok a, w') => k a w'
    | (Raise e, w') => (Raise e, w')
    end.

Definition lift {A} (r : result A) : M A := fun w => (r, w).

(** [try: m except Exception as e: h e] *)
Definition try_except {A} (m : M A) (h : exn -> M A) : M A :=
  fun w =>
    match m w with
    | (Ok a, w') => (Ok a, w')
    | (Raise e, w') => h e w'
    end.

Notation "x <- c1 ;; c2" := (bind c1 (fun x => c2))
  (at level 100, c1 at next level, right associativity).
Notation "c1 ;;; c2" := (bind c1 (fun _ => c2))
  (at level 100, right associativity).

(** [for x in l: body x] *)
Fixpoint for_each {A} (l : list A) (body : A -> M unit) : M unit :=
  match l with
  | [] => ret tt
  | x :: l' => body x ;;; for_each l' body
  end.

(** ** Operating-system and library primitives *)

(** [os.path.join(a, b)] (POSIX). *)
Definition path_join (a b : string) : string :=
  if PyStr.startswith "/" b then b
  else if String.eqb a "" || PyStr.endswith "/" a then a +:+ b
  else a +:+ "/" +:+ b.

(** [os.path.basename(p)] (POSIX). *)
Definition basename (p : string) : string := PyStr.after_last "/" p.

(** [os.path.exists(p)] *)
Definition path_exists (p : string) : M bool :=
  fun w => (Ok (bool_decide (is_Some (fs w !! p))), w).

(** [os.path.split(p)] (POSIX): the part up to the last ['/'], without its
    trailing ['/'] unless it is made of them, and the part after it. *)
Definition path_split (p : string) : string * string :=
  let tail := PyStr.after_last "/" p in
  let head := substring 0 (String.length p - String.length tail) p in
  (if PyStr.all_char "/" head then head else PyStr.rstrip_char "/" head, tail).

(** A path with a NUL byte: the system calls refuse it with a [ValueError]. *)
Definition has_nul (p : string) : bool := Nat.ltb 0 (PyStr.count "000" p).

(** The store keeps every file and directory under the path it was created
    with, as written.  The directory an entry [p] lies in is looked for
    under the two spellings [os.path.join] and [os.path.split] give it: [p]
    up to its last ['/'], with or without the ['/'] it ends with.  The
    current directory (nothing before the name) and the root are always
    there. *)
Definition lookup_dir (m : gmap string node) (p : string) : option node :=
  let name := PyStr.after_last "/" p in
  let h := substring 0 (String.length p - String.length name) p in
  if PyStr.all_char "/" h then Some Dir
  else match m !! h with
       | Some n => Some n
       | None => m !! PyStr.rstrip_char "/" h
       end.

(** [os.mkdir(p)] *)
Definition mkdir (p : string) : M unit :=
  fun w =>
    if has_nul p then (Raise (Exn ValueError "embedded null byte"), w)
    else if String.eqb p "" then
      (Raise (Exn OSError "[Errno 2] No such file or directory: "), w)
    else if PyStr.all_char "/" p || bool_decide (is_Some (fs w !! p)) then
      (Raise (Exn OSError ("[Errno 17] File exists: " +:+ p)), w)
    else match lookup_dir (fs w) (PyStr.rstrip_char "/" p) with
         | None =>
             (Raise (Exn OSError ("[Errno 2] No such file or directory: " +:+ p)), w)
         | Some (File _) =>
             (Raise (Exn OSError ("[Errno 20] Not a directory: " +:+ p)), w)
         | Some Dir =>
             if bool_decide (p ∈ denied w) then
               (Raise (Exn OSError ("[Errno 13] Permission denied: " +:+ p)), w)
             else (Ok tt, set_fs (insert p Dir) w)
         end.

(** [FileExistsError]: an [OSError] whose errno is [EEXIST]. *)
Definition is_FileExistsError (e : exn) : bool :=
  match exn_cls e with
  | OSError => PyStr.startswith "[Errno 17]" (exn_msg e)
  | _ => false
  end.

(** The first lines of [os.makedirs]: [name] split into what comes before
    its last component and that component, trailing ['/'] passed over. *)
Definition split_last (name : string) : string * string :=
  let ht := path_split name in
  if String.eqb (snd ht) "" then path_split (fst ht) else ht.

(** [os.makedirs(name)], with [exist_ok=False]:
    [[
    head, tail = path.split(name)
    if not tail:
        head, tail = path.split(head)
    if head and tail and not path.exists(head):
        try:
            makedirs(head, exist_ok=exist_ok)
        except FileExistsError:
            pass
        if tail == curdir:
            return
    mkdir(name, mode)
    ]]
    The recursion is on [head], which is shorter than [name]; [fuel] bounds
    its depth. *)
Fixpoint makedirs_rec (fuel : nat) (name : string) : M unit :=
  let head := fst (split_last name) in
  let tail := snd (split_last name) in
  fun w =>
    if negb (String.eqb head "") && negb (String.eqb tail "")
       && negb (bool_decide (is_Some (fs w !! head)))
    then
      match fuel with
      | O => mkdir name w
      | S fuel' =>
          (try_except (makedirs_rec fuel' head)
                      (fun e => if is_FileExistsError e then ret tt else raise e) ;;;
           if String.eqb tail "." then ret tt else mkdir name) w
      end
    else mkdir name w.

Definition makedirs (name : string) : M unit :=
  makedirs_rec (String.length name) name.


(** [m'] is [m] with directories added at paths that held nothing. *)
Definition dirs_added (m m' : gmap string node) : Prop :=
  forall p, m' !! p = m !! p \/ (m !! p = None /\ m' !! p = Some Dir).

(** Two worlds that differ in the store at most. *)
Definition same_but_fs (w w' : world) : Prop :=
  denied w' = denied w /\ ticks w' = ticks w /\ log w' = log w /\
  gui_log_queue w' = gui_log_queue w /\ stdout w' = stdout w.

(** [with open(p, 'w' or 'wb') as f: f.write(c)]: creates or truncates. *)
Definition write_file (p : string) (c : content) : M unit :=
  fun w =>
    if has_nul p then (Raise (Exn ValueError "embedded null byte"), w)
    else if String.eqb p "" then
      (Raise (Exn OSError "[Errno 2] No such file or directory: "), w)
    else match lookup_dir (fs w) p with
         | None =>
             (Raise (Exn OSError ("[Errno 2] No such file or directory: " +:+ p)), w)
         | Some (File _) =>
             (Raise (Exn OSError ("[Errno 20] Not a directory: " +:+ p)), w)
         | Some Dir =>
             if bool_decide (p ∈ denied w) then
               (Raise (Exn OSError ("[Errno 13] Permission denied: " +:+ p)), w)
             else match fs w !! p with
                  | Some Dir =>
                      (Raise (Exn OSError ("[Errno 21] Is a directory: " +:+ p)), w)
                  | _ =>
                      if PyStr.endswith "/" p then
                        (Raise (Exn OSError ("[Errno 21] Is a directory: " +:+ p)), w)
                      else (Ok tt, set_fs (insert p (File c)) w)
                  end
         end.

Definition log_at (lv : level) (msg : string) : M unit :=
  fun w => (Ok tt, World (fs w) (denied w) (ticks w) (log w ++ [(lv, msg)])
                         (gui_log_queue w) (stdout w)).

(** The encoding of [sys.stdout]: the texts it can encode, and the message
    of the [UnicodeEncodeError] it raises on one it cannot. *)
Record encoding : Type := Encoding {
  encodes : string -> bool;
  encode_error : string -> string
}.

(** [print(line)]: the text is encoded for [sys.stdout] as a whole, so a
    text that cannot be encoded raises before any of it is written. *)
Definition print (enc : encoding) (line : string) : M unit :=
  fun w =>
    if encodes enc line then
      (Ok tt, World (fs w) (denied w) (ticks w) (log w)
                    (gui_log_queue w) (stdout w ++ [line]))
    else (Raise (Exn UnicodeEncodeError (encode_error enc line)), w).

(** [with cm as server: body]: the block is left through [__exit__], whose
    outcome is [quit].  What [__exit__] raises replaces the exception of the
    block; it never swallows one. *)
Definition leaving {A} (quit : result unit) (body : M A) : M A :=
  fun w =>
    match body w with
    | (r, w') =>
        match quit with
        | Ok _ => (r, w')
        | Raise e => (Raise e, w')
        end
    end.

(** [_gui_log]: [if self.gui_log_queue: try: put(message) except: pass] *)
Definition _gui_log (message : string) : M unit :=
  fun w =>
    match gui_log_queue w with
    | Some q => (Ok tt, World (fs w) (denied w) (ticks w) (log w)
                              (Some (q ++ [message])) (stdout w))
    | None => (Ok tt, w)
    end.

(** [with open(p, 'rb') as f: f.read()] *)
Definition read_bytes (json_dumps : dict -> string) (p : string) : M string :=
  fun w =>
    if bool_decide (p ∈ denied w) then
      (Raise (Exn OSError ("[Errno 13] Permission denied: " +:+ p)), w)
    else match fs w !! p with
         | Some (File (Bytes b)) => (Ok b, w)
         | Some (File (Json d)) => (Ok (json_dumps d), w)
         | Some Dir => (Raise (Exn OSError ("[Errno 21] Is a directory: " +:+ p)), w)
         | None => (Raise (Exn OSError ("[Errno 2] No such file or directory: " +:+ p)), w)
         end.

(** [json.load] of an open file.  A file written by [json.dump] gives its
    dictionary back; on any other file the outcome is that of the JSON
    parser, [json_loads], on the text. *)
Definition json_load (json_loads : string -> result dict) (c : content) : result dict :=
  match c with
  | Json d => Ok d
  | Bytes b => json_loads b
  end.

(** ** Messages *)

(** An envelope as handed over by the SMTP engine. *)
Record envelope : Type := Envelope {
  mail_from : string;
  rcpt_tos : list string;
  env_content : string
}.

(** A part of an outbound MIME message, by the constructor that built it:
    the arguments of the constructor and, for [MIMEBase], the payload set
    and the headers added after construction, in order. *)
Inductive part : Type :=
  | MIMEText (body subtype : string)
  | MIMEBase (maintype subtype payload : string) (part_headers : list (string * string)).

Record mime : Type := Mime {
  headers : list (string * string);
  parts : list part
}.

(** [msg.attach(p)] *)
Definition attach (msg : mime) (p : part) : mime :=
  Mime (headers msg) (parts msg ++ [p]).

(** The [recipients] argument of the client: one string or a list. *)
Inductive recipients_arg : Type :=
  | RStr (r : string)
  | RList (l : list string).

(** [if isinstance(recipients, str): recipients = [recipients]] *)
Definition recipient_list (recipients : recipients_arg) : list string :=
  match recipients with
  | RStr r => [r]
  | RList l => l
  end.

(** A path the loop of [create_email] gets past: nothing is there, or a
    file that can be read. *)
Definition absent_or_readable (w : world) (p : string) : Prop :=
  fs w !! p = None \/ ((p ∉ denied w) /\ exists c, fs w !! p = Some (File c)).

Module Smtp.

Section Program.

(** The library behaviour the code relies on is left open. *)
Variable datetime : Type.
Variable clock : nat -> datetime.                 (* the successive values of [datetime.now()] *)
Variable strftime : string -> datetime -> string. (* [t.strftime(fmt)] *)
Variable isoformat : datetime -> string.          (* [t.isoformat()] *)
Variable message : Type.                          (* a parsed [email.message] *)
Variable decode_utf8 : string -> string.          (* [data.decode('utf-8', errors='replace')] *)
Variable parsestr : string -> result message.     (* [Parser(policy=policy.default).parsestr] *)
Variable msg_get : message -> string -> string -> result string. (* [msg.get(name, default)] *)
Variable str_of_list : list string -> string.     (* [str(l)] of a list of strings *)
Variable b64encode : string -> string.            (* the payload after [encoders.encode_base64] *)
Variable as_string : mime -> result string.       (* [msg.as_string()] *)
Variable json_dumps : dict -> string.             (* the text [json.dump] writes *)
(** [smtplib.SMTP(host, port)], which connects, and the entry of the
    [with] block *)
Variable smtp_connect : string -> nat -> result unit.
(** [server.sendmail(sender, recipients, text)] *)
Variable smtp_sendmail : string -> nat -> string -> list string -> string -> result unit.
(** [SMTP.__exit__]: QUIT and close *)
Variable smtp_quit : string -> nat -> result unit.
Variable stdout_encoding : encoding.              (* the encoding of [sys.stdout] *)

(** [datetime.now()] *)
Definition now : M datetime :=
  fun w => (Ok (clock (ticks w)),
            World (fs w) (denied w) (S (ticks w)) (log w) (gui_log_queue w) (stdout w)).

(** *** smtp_server.py *)

Section Handler.

Variable mailbox_dir : string.   (* [self.mailbox_dir] *)

Definition deliver_to_mailbox (recipient sender subject raw_data : string) : M unit :=
  try_except
    (let recipient_safe := encode recipient in
     let recipient_mailbox := path_join mailbox_dir recipient_safe in
     ex <- path_exists recipient_mailbox ;;
     (if negb ex then makedirs recipient_mailbox else ret tt) ;;;
     t <- now ;;
     let timestamp := strftime "%Y%m%d_%H%M%S_%f" t in
     let email_filename := "email_" +:+ timestamp +:+ ".eml" in
     let email_path := path_join recipient_mailbox email_filename in
     write_file email_path (Bytes raw_data) ;;;
     t' <- now ;;
     let metadata :=
       [("timestamp", isoformat t'); ("from", sender); ("to", recipient);
        ("subject", subject); ("filename", email_filename)] in
     let metadata_path :=
       path_join recipient_mailbox ("metadata_" +:+ timestamp +:+ ".json") in
     write_file metadata_path (Json metadata) ;;;
     log_at INFO ("Email saved to: " +:+ email_path))
    (fun e =>
       log_at ERROR ("Error delivering to mailbox: " +:+ exn_msg e) ;;;
       raise e).

(** The body of the [for recipient in rcpttos] loop. *)
Definition deliver_or_warn (mailfrom subject data recipient : string) : M unit :=
  valid <- lift (validate_email recipient) ;;
  if valid : bool then
    deliver_to_mailbox recipient mailfrom subject data ;;;
    log_at INFO ("Email delivered to " +:+ recipient) ;;;
    _gui_log ("✓ Email delivered to " +:+ recipient +:+ nl)
  else
    log_at WARNING ("Invalid recipient email address: " +:+ recipient) ;;;
    _gui_log ("✗ Invalid recipient: " +:+ recipient +:+ nl).

Definition accepted : string := "250 Message accepted for delivery".
Definition rejected : string := "550 Error processing message".

Definition handle_DATA (peer : string) (env : envelope) : M string :=
  try_except
    (let mailfrom := mail_from env in
     let rcpttos := rcpt_tos env in
     let data := env_content env in
     log_at INFO ("Receiving email from: " +:+ peer) ;;;
     log_at INFO ("Sender: " +:+ mailfrom) ;;;
     log_at INFO ("Recipients: " +:+ str_of_list rcpttos) ;;;
     _gui_log ("📨 Receiving email from " +:+ mailfrom +:+ nl) ;;;
     _gui_log ("   To: " +:+ PyStr.join ", " rcpttos +:+ nl) ;;;
     msg <- lift (parsestr (decode_utf8 data)) ;;
     subject <- lift (msg_get msg "Subject" "No Subject") ;;
     from_addr <- lift (msg_get msg "From" mailfrom) ;;
     to_addrs <- lift (msg_get msg "To" (PyStr.join ", " rcpttos)) ;;
     t <- now ;;
     date <- lift (msg_get msg "Date" (strftime "%a, %d %b %Y %H:%M:%S" t)) ;;
     log_at INFO ("Subject: " +:+ subject) ;;;
     _gui_log ("   Subject: " +:+ subject +:+ nl) ;;;
     for_each rcpttos (deliver_or_warn mailfrom subject data) ;;;
     log_at INFO ("Email processing completed successfully" +:+ nl) ;;;
     _gui_log nl ;;;
     ret accepted)
    (fun e =>
       log_at ERROR ("Error processing email: " +:+ exn_msg e) ;;;
       ret rejected).

(** What [handle_DATA] does before its loop: the logging, the parse and
    the reading of the headers; it hands on the subject. *)
Definition receive (peer : string) (env : envelope) : M string :=
  let mailfrom := mail_from env in
  let rcpttos := rcpt_tos env in
  let data := env_content env in
  log_at INFO ("Receiving email from: " +:+ peer) ;;;
  log_at INFO ("Sender: " +:+ mailfrom) ;;;
  log_at INFO ("Recipients: " +:+ str_of_list rcpttos) ;;;
  _gui_log ("📨 Receiving email from " +:+ mailfrom +:+ nl) ;;;
  _gui_log ("   To: " +:+ PyStr.join ", " rcpttos +:+ nl) ;;;
  msg <- lift (parsestr (decode_utf8 data)) ;;
  subject <- lift (msg_get msg "Subject" "No Subject") ;;
  from_addr <- lift (msg_get msg "From" mailfrom) ;;
  to_addrs <- lift (msg_get msg "To" (PyStr.join ", " rcpttos)) ;;
  t <- now ;;
  date <- lift (msg_get msg "Date" (strftime "%a, %d %b %Y %H:%M:%S" t)) ;;
  log_at INFO ("Subject: " +:+ subject) ;;;
  _gui_log ("   Subject: " +:+ subject +:+ nl) ;;;
  ret subject.

(** The loop of [handle_DATA]. *)
Definition deliver_all (env : envelope) (subject : string) : M unit :=
  for_each (rcpt_tos env) (deliver_or_warn (mail_from env) subject (env_content env)).

End Handler.

(** *** smtp_client.py *)

Definition _attach_file (msg : mime) (file_path : string) : M mime :=
  try_except
    (data <- read_bytes json_dumps file_path ;;
     let filename := basename file_path in
     let p :=
       MIMEBase "application" "octet-stream" (b64encode data)
         [("Content-Transfer-Encoding", "base64");
          ("Content-Disposition", "attachment; filename=" +:+ filename)] in
     log_at INFO ("Attached file: " +:+ filename) ;;;
     ret (attach msg p))
    (fun e =>
       log_at ERROR ("Error attaching file " +:+ file_path +:+ ": " +:+ exn_msg e) ;;;
       raise e).

(** [for file_path in attachments: ...], the message being updated in place. *)
Fixpoint attach_all (msg : mime) (attachments : list string) : M mime :=
  match attachments with
  | [] => ret msg
  | file_path :: rest =>
      ex <- path_exists file_path ;;
      msg' <- (if ex : bool then _attach_file msg file_path
               else log_at WARNING ("Attachment file not found: " +:+ file_path) ;;;
                    ret msg) ;;
      attach_all msg' rest
  end.

Definition str_of_recipients (recipients : recipients_arg) : string :=
  match recipients with
  | RStr r => r
  | RList l => str_of_list l
  end.

Definition create_email (sender : string) (recipients : recipients_arg)
    (subject body : string) (attachments : option (list string)) : M mime :=
  try_except
    (let to :=
       match recipients with
       | RList l => PyStr.join ", " l
       | RStr r => r
       end in
     t <- now ;;
     let msg :=
       Mime [("Content-Type", "multipart/mixed"); ("MIME-Version", "1.0");
             ("From", sender); ("To", to); ("Subject", subject);
             ("Date", strftime "%a, %d %b %Y %H:%M:%S %z" t)]
            [MIMEText body "plain"] in
     msg' <- match attachments with
             | Some ((_ :: _) as l) => attach_all msg l
             | _ => ret msg
             end ;;
     log_at INFO ("Email created - From: " +:+ sender +:+ ", To: "
                  +:+ str_of_recipients recipients +:+ ", Subject: " +:+ subject) ;;;
     ret msg')
    (fun e =>
       log_at ERROR ("Error creating email: " +:+ exn_msg e) ;;;
       raise e).

(** The part [_attach_file] builds for the file at [file_path], if there
    is one, and the log record the loop of [create_email] leaves for a
    path. *)
Definition attachment_of (w : world) (file_path : string) : option part :=
  match fs w !! file_path with
  | Some (File c) =>
      let data := match c with Bytes b => b | Json d => json_dumps d end in
      Some (MIMEBase "application" "octet-stream" (b64encode data)
              [("Content-Transfer-Encoding", "base64");
               ("Content-Disposition",
                "attachment; filename=" +:+ basename file_path)])
  | _ => None
  end.

Definition attachment_record (w : world) (file_path : string) : level * string :=
  match fs w !! file_path with
  | Some _ => (INFO, "Attached file: " +:+ basename file_path)
  | None => (WARNING, "Attachment file not found: " +:+ file_path)
  end.

Section Client.

Variable server_host : string.  (* [self.server_host] *)
Variable server_port : nat.     (* [self.server_port] *)

Definition check_recipient (recipient : string) : M unit :=
  valid <- lift (validate_email recipient) ;;
  if valid : bool then ret tt
  else raise (Exn ValueError ("Invalid recipient email address: " +:+ recipient)).

Definition send_email (sender : string) (recipients : recipients_arg)
    (subject body : string) (attachments : option (list string)) : M bool :=
  try_except
    (let recipients := recipient_list recipients in
     valid <- lift (validate_email sender) ;;
     (if valid : bool then ret tt
      else raise (Exn ValueError ("Invalid sender email address: " +:+ sender))) ;;;
     for_each recipients check_recipient ;;;
     msg <- create_email sender (RList recipients) subject body attachments ;;
     log_at INFO ("Connecting to SMTP server at " +:+ server_host +:+ ":"
                  +:+ pretty server_port) ;;;
     lift (smtp_connect server_host server_port) ;;;
     leaving (smtp_quit server_host server_port)
       (text <- lift (as_string msg) ;;
        lift (smtp_sendmail server_host server_port sender recipients text)) ;;;
     log_at INFO ("Email sent successfully to " +:+ str_of_list recipients) ;;;
     print stdout_encoding (nl +:+ "✓ Email sent successfully!") ;;;
     print stdout_encoding ("  From: " +:+ sender) ;;;
     print stdout_encoding ("  To: " +:+ PyStr.join ", " recipients) ;;;
     print stdout_encoding ("  Subject: " +:+ subject +:+ nl) ;;;
     ret true)
    (fun e =>
       match exn_cls e with
       | SMTPException =>
           log_at ERROR ("SMTP error: " +:+ exn_msg e) ;;;
           print stdout_encoding (nl +:+ "✗ SMTP Error: " +:+ exn_msg e +:+ nl) ;;;
           ret false
       | _ =>
           log_at ERROR ("Error sending email: " +:+ exn_msg e) ;;;
           print stdout_encoding (nl +:+ "✗ Error: " +:+ exn_msg e +:+ nl) ;;;
           ret false
       end).

End Client.

End Program.

End Smtp.

Import Smtp.

(** *** smtp_gui.py *)

(** [l.sort(key=key, reverse=True)]: Python's sort is stable, also when
    reversed, so among equal keys the earlier element stays first.
    Insertion from the right: [x] passes exactly the elements whose key is
    strictly greater. *)
Fixpoint insert_desc {A} (key : A -> string) (x : A) (l : list A) : list A :=
  match l with
  | [] => [x]
  | y :: l' =>
      if String.ltb (key x) (key y) then y :: insert_desc key x l'
      else x :: y :: l'
  end.

Fixpoint sort_reverse {A} (key : A -> string) (l : list A) : list A :=
  match l with
  | [] => []
  | x :: l' => insert_desc key x (sort_reverse key l')
  end.

(** [lambda x: x.get('timestamp', '')] *)
Definition timestamp_key (x : dict) : string := dict_get x "timestamp" "".

(** The loop of [load_emails] over [os.listdir(mailbox_path)]: the
    directory is given as the list of its entries in the order the
    operating system enumerates them. *)
Fixpoint read_metadata (json_loads : string -> result dict)
    (entries : list (string * node)) : result (list dict) :=
  match entries with
  | [] => Ok []
  | (file, n) :: rest =>
      if PyStr.endswith ".json" file then
        bind_result
          (match n with
           | File c => json_load json_loads c
           | Dir => Raise (Exn OSError ("[Errno 21] Is a directory: " +:+ file))
           end)
          (fun metadata =>
             bind_result (read_metadata json_loads rest)
                         (fun emails => Ok (metadata :: emails)))
      else read_metadata json_loads rest
  end.

(** The records [load_emails] shows, in display order. *)
Definition load_emails (json_loads : string -> result dict)
    (entries : list (string * node)) : result (list dict) :=
  bind_result (read_metadata json_loads entries) (fun emails =>
  Ok (sort_reverse timestamp_key emails)).

(** The order [load_emails] displays in: [a] may stand before [b] when its
    timestamp is not smaller. *)
Definition newer_first (a b : dict) : Prop :=
  String.leb (timestamp_key b) (timestamp_key a) = true.

(** [x.get('timestamp', '') == t] *)
Definition stamped (t : string) (x : dict) : bool :=
  String.eqb (timestamp_key x) t.

(** The records a listing holds, in the order of the listing: what the
    files named [*.json] load to. *)
Definition listed_records (json_loads : string -> result dict)
    (entries : list (string * node)) : list dict :=
  omap (fun e : string * node =>
          if PyStr.endswith ".json" (fst e)
          then match snd e with
               | File c => match json_load json_loads c with
                           | Ok d => Some d
                           | Raise _ => None
                           end
               | Dir => None
               end
          else None) entries.

(** ** The address contract of the specification *)

(** Follows the specification's words: exactly one ['@'], and the part after
    the last ['@'] contains a ['.']. *)
Definition email_contract (s : string) : bool :=
  Nat.eqb (PyStr.count "@" s) 1 && PyStr.contains "." (PyStr.after_last "@" s).

(** ** The rest of the handler *)

(** [CustomSMTPHandler.__init__] *)
Definition CustomSMTPHandler_init (mailbox_dir : string) : M unit :=
  (fun w => (Ok tt, World (fs w) (denied w) (ticks w) (log w) None (stdout w))) ;;;
  ex <- path_exists mailbox_dir ;;
  if negb ex then
    makedirs mailbox_dir ;;;
    log_at INFO ("Created mailbox directory: " +:+ mailbox_dir) ;;;
    _gui_log ("Created mailbox directory: " +:+ mailbox_dir +:+ nl)
  else ret tt.

(** ** The rest of [smtp_gui.py]: the data behind the widgets *)

Module Gui.

(** The attachment list of the compose form and the listbox that shows it. *)
Record form : Type := Form {
  attachments : list string;          (* [self.attachments] *)
  attachment_listbox : list string    (* the rows of [self.attachment_listbox] *)
}.

(** The body of the loop of [add_attachment]. *)
Definition add_file (f : form) (file : string) : form :=
  if bool_decide (file ∈ attachments f) then f
  else Form (attachments f ++ [file]) (attachment_listbox f ++ [basename file]).

(** [add_attachment], [files] being what the file dialog returned. *)
Definition add_attachment (files : list string) (f : form) : form :=
  fold_left add_file files f.

(** [remove_attachment], [selection] being [curselection()].  Deleting a
    listbox row that is not there does nothing; [list.pop] raises. *)
Definition remove_attachment (selection : list nat) (f : form) : result form :=
  match selection with
  | [] => Ok f
  | index :: _ =>
      let rows := delete index (attachment_listbox f) in
      if Nat.ltb index (length (attachments f))
      then Ok (Form (delete index (attachments f)) rows)
      else Raise (Exn IndexError "pop index out of range")
  end.

(** The attachment part of [clear_form]. *)
Definition clear_form (f : form) : form := Form [] [].

(** The listbox shows the attachment list, row by row. *)
Definition in_sync (f : form) : Prop :=
  attachment_listbox f = map basename (attachments f).

(** [[r.strip() for r in to.split(',')]] ([send_email] of the GUI and
    [interactive_mode] of the client). *)
Definition parse_recipients (to : string) : result (list string) :=
  bind_result (PyStr.split "," to) (fun fields => Ok (map PyStr.strip fields)).

(** What [send_email] of the GUI decides before it starts the sending
    thread. *)
Inductive send_step : Type :=
  | WarnMissing
  | AskStartServer
  | StartThread (host : string) (port : nat) (sender : string)
      (recipients : list string) (subject body : string)
      (files : option (list string)).

(** [send_email] of the GUI up to the start of the thread; [client_port] is
    the outcome of [int(self.client_port.get())]. *)
Definition send_email (server_running : bool) (client_host : string)
    (client_port : result nat) (email_from email_to email_subject email_body : string)
    (f : form) : result send_step :=
  let host := client_host in
  bind_result client_port (fun port =>
  let sender := email_from in
  bind_result (parse_recipients email_to) (fun recipients =>
  let subject := email_subject in
  let body := PyStr.strip email_body in
  if String.eqb sender "" || match recipients with [] => true | _ => false end
     || String.eqb subject ""
  then Ok WarnMissing
  else if negb server_running
          && (String.eqb host "127.0.0.1" || String.eqb host "localhost")
  then Ok AskStartServer
  else Ok (StartThread host port sender recipients subject body
             match attachments f with [] => None | l => Some l end))).

(** The mailbox tab: the values of the combo box, the selected mailbox and
    the rows of the tree (one record per row). *)
Record mailbox_tab : Type := MailboxTab {
  combo_values : list string;
  mailbox_var : string;
  email_tree : list dict
}.

Section Mailbox.

(** The order in which the operating system enumerates the store. *)
Variable enumerate : gmap string node -> list (string * node).
Variable json_dumps : dict -> string.
Variable json_loads : string -> result dict.  (* [json.loads] *)
Variable message : Type.                      (* a parsed [email.message] *)
(** [Parser(policy=policy.default).parsestr] *)
Variable parsestr : string -> result message.
(** The text [view_email] puts into [email_content] for a parsed message:
    the four header lines, the body and the names of the attachments. *)
Variable render : message -> result string.

(** The name under which [p] is an entry of [dir], if it is one. *)
Definition entry_name (dir p : string) : option string :=
  let name := basename p in
  if negb (String.eqb name "") && String.eqb (path_join dir name) p
  then Some name else None.

(** [os.listdir(dir)] *)
Definition listdir (dir : string) : M (list string) :=
  fun w =>
    if bool_decide (dir ∈ denied w) then
      (Raise (Exn OSError ("[Errno 13] Permission denied: " +:+ dir)), w)
    else match fs w !! dir with
         | Some Dir =>
             (Ok (omap (fun e : string * node => entry_name dir (fst e))
                       (enumerate (fs w))), w)
         | Some (File _) =>
             (Raise (Exn OSError ("[Errno 20] Not a directory: " +:+ dir)), w)
         | None =>
             (Raise (Exn OSError ("[Errno 2] No such file or directory: " +:+ dir)), w)
         end.

(** [os.path.isdir(p)] *)
Definition isdir (w : world) (p : string) : bool :=
  match fs w !! p with
  | Some Dir => true
  | _ => false
  end.

(** [with open(p, 'r') as f: json.load(f)] *)
Definition read_json (p : string) : M dict :=
  fun w =>
    if bool_decide (p ∈ denied w) then
      (Raise (Exn OSError ("[Errno 13] Permission denied: " +:+ p)), w)
    else match fs w !! p with
         | Some (File c) => (json_load json_loads c, w)
         | Some Dir => (Raise (Exn OSError ("[Errno 21] Is a directory: " +:+ p)), w)
         | None => (Raise (Exn OSError ("[Errno 2] No such file or directory: " +:+ p)), w)
         end.

(** The loop of [load_emails] over the names [os.listdir] returned. *)
Fixpoint read_metadata_files (mailbox_path : string) (names : list string)
    : M (list dict) :=
  match names with
  | [] => ret []
  | file :: rest =>
      if PyStr.endswith ".json" file then
        metadata <- read_json (path_join mailbox_path file) ;;
        emails <- read_metadata_files mailbox_path rest ;;
        ret (metadata :: emails)
      else read_metadata_files mailbox_path rest
  end.

(** [load_emails]: the tree is cleared, then filled with the records of
    the selected mailbox, newest first. *)
Definition load_emails (tab : mailbox_tab) : M mailbox_tab :=
  let cleared := MailboxTab (combo_values tab) (mailbox_var tab) [] in
  let mailbox := mailbox_var tab in
  if String.eqb mailbox "" then ret cleared
  else
    let mailbox_safe := encode mailbox in
    let mailbox_path := path_join "mailboxes" mailbox_safe in
    ex <- path_exists mailbox_path ;;
    if negb ex then ret cleared
    else
      names <- listdir mailbox_path ;;
      emails <- read_metadata_files mailbox_path names ;;
      ret (MailboxTab (combo_values tab) (mailbox_var tab)
             (sort_reverse timestamp_key emails)).

(** [refresh_mailbox] *)
Definition refresh_mailbox (tab : mailbox_tab) : M mailbox_tab :=
  let mailbox_dir := "mailboxes" in
  ex <- path_exists mailbox_dir ;;
  if ex : bool then
    names <- listdir mailbox_dir ;;
    mailboxes <- (fun w =>
      (Ok (map decode
             (List.filter (fun d => isdir w (path_join mailbox_dir d)) names)), w)) ;;
    match mailboxes with
    | [] => ret (MailboxTab mailboxes (mailbox_var tab) (email_tree tab))
    | first :: _ => load_emails (MailboxTab mailboxes first (email_tree tab))
    end
  else ret (MailboxTab [] (mailbox_var tab) (email_tree tab)).

(** [Parser(policy=policy.default).parse(f)] on a file opened ['rb'].  The
    parser reads [f] in chunks and feeds each one to its text parser, which
    raises [TypeError] on bytes; a file without bytes has no chunk and
    parses as the empty text. *)
Definition parse_binary (raw : string) : result message :=
  if String.eqb raw "" then parsestr ""
  else Raise (Exn TypeError "string argument expected, got 'bytes'").

(** [view_email].  [tag] is the tag of the selected row, the record's
    filename.  The outcome is [None] when [email_content] is left as it was,
    [Some (Ok text)] when it shows the message, and [Some (Raise e)] when it
    shows ["Error reading email: "] and the text of [e]. *)
Definition view_email (tab : mailbox_tab) (tag : option string)
    : M (option (result string)) :=
  match tag with
  | None => ret None
  | Some eml_filename =>
      if String.eqb eml_filename "" then ret None
      else
        let mailbox := mailbox_var tab in
        let mailbox_safe := encode mailbox in
        let eml_path := path_join (path_join "mailboxes" mailbox_safe) eml_filename in
        ex <- path_exists eml_path ;;
        if ex : bool then
          try_except
            (raw <- read_bytes json_dumps eml_path ;;
             msg <- lift (parse_binary raw) ;;
             text <- lift (render msg) ;;
             ret (Some (Ok text)))
            (fun e => ret (Some (Raise e)))
        else ret None
  end.

End Mailbox.

End Gui.

(** ** Concrete library behaviour for the examples *)

Module Sample.

(** Times are counted in microseconds; both formats print the count. *)
Definition strftime (fmt : string) (t : nat) : string := pretty t.
Definition isoformat (t : nat) : string := pretty t.

(** A JSON parser that knows the empty object only. *)
Definition json_loads (text : string) : result dict :=
  if String.eqb text "{}" then Ok []
  else Raise (Exn ValueError "Expecting value: line 1 column 1 (char 0)").

(** A parsed message is its header list. *)
Definition parsestr (text : string) : result dict := Ok [("Subject", text)].
Definition msg_get (msg : dict) (name default : string) : result string :=
  Ok (dict_get msg name default).
(** A message whose [From] header cannot be read. *)
Definition msg_get_strict (msg : dict) (name default : string) : result string :=
  if String.eqb name "From"
  then Raise (Exn IndexError "string index out of range")
  else Ok (dict_get msg name default).
Definition str_of_list (l : list string) : string :=
  "[" +:+ PyStr.join ", " l +:+ "]".
Definition unparsable (text : string) : result dict :=
  Raise (Exn OtherException "parse error").

(** A clock that advances by one at every read, and one that stands still. *)
Definition ticking (n : nat) : nat := n.
Definition frozen (n : nat) : nat := 0.

Definition empty_world : world := World ∅ ∅ 0 [] None [].

Definition deliver (clock : nat -> nat) :=
  deliver_to_mailbox nat clock strftime isoformat "mailboxes".

Definition handle (clock : nat -> nat) :=
  handle_DATA nat clock strftime isoformat dict (fun b => b) parsestr msg_get
              str_of_list "mailboxes".

Definition receive (clock : nat -> nat) :=
  receive nat clock strftime dict (fun b => b) parsestr msg_get str_of_list.

Definition deliver_or_warn (clock : nat -> nat) :=
  deliver_or_warn nat clock strftime isoformat "mailboxes".

(** A fresh store in which the given paths cannot be created or opened. *)
Definition denying (paths : list string) : world :=
  World ∅ (list_to_set paths) 0 [] None [].

(** A store that holds a note, a directory and a file that may not be read. *)
Definition desk : world :=
  World {[ "/home/u/note.txt" := File (Bytes "note");
           "/home/u/reports" := Dir;
           "/home/u/secret.txt" := File (Bytes "secret") ]}
        {[ "/home/u/secret.txt" ]} 0 [] None [].

(** Two records delivered at one instant, and a later one. *)
Definition record_a : dict :=
  [("timestamp", "2024-05-01T10:00:00.000500"); ("filename", "email_a.eml")].
Definition record_b : dict :=
  [("timestamp", "2024-05-01T10:00:00.000500"); ("filename", "email_b.eml")].
Definition record_c : dict :=
  [("timestamp", "2024-05-02T08:30:00.000000"); ("filename", "email_c.eml")].

Definition listing : list (string * node) :=
  [("metadata_b.json", File (Json record_b));
   ("email_b.eml", File (Bytes "raw b"));
   ("metadata_a.json", File (Json record_a));
   ("metadata_c.json", File (Json record_c))].

(** The store after the handler started and delivered one message to an
    address with an underscore. *)
Definition served : world :=
  snd (deliver ticking "a_b@x.com" "s@x.com" "Hi" "raw"
         (snd (CustomSMTPHandler_init "mailboxes" empty_world))).

(** The mailbox tab with the name the GUI shows for that address selected. *)
Definition tab : Gui.mailbox_tab := Gui.MailboxTab [] "a.b@x.com" [].

Definition loaded (t : Gui.mailbox_tab) (r : result Gui.mailbox_tab * world)
    : Gui.mailbox_tab :=
  match fst r with
  | Ok t' => t'
  | Raise _ => t
  end.

Definition transport_ok (host : string) (port : nat) (sender : string)
    (rcpts : list string) (text : string) : result unit := Ok tt.
Definition transport_refused (host : string) (port : nat) (sender : string)
    (rcpts : list string) (text : string) : result unit :=
  Raise (Exn OSError "[Errno 111] Connection refused").

Definition compose :=
  create_email nat ticking strftime str_of_list (fun b => b) (fun d => "").

(** A terminal that takes every text, and one that takes ASCII only. *)
Definition utf8 : encoding := Encoding (fun _ => true) (fun _ => "").
Definition is_ascii (s : string) : bool :=
  forallb (fun c => Nat.ltb (nat_of_ascii c) 128) (list_ascii_of_string s).
Definition ascii_only : encoding :=
  Encoding is_ascii (fun _ => "'ascii' codec can't encode character").
(** A terminal that takes every text without one of the two marks. *)
Definition no_marks : encoding :=
  Encoding (fun s => negb (PyStr.contains "✓" s || PyStr.contains "✗" s))
           (fun _ => "character maps to <undefined>").

(** A message serialises to the text of its subject. *)
Definition as_string (m : mime) : result string :=
  Ok (dict_get (headers m) "Subject" "").

(** Sending to a server that can be reached and takes its leave properly;
    [transport] is what it does with the message. *)
Definition send_on (enc : encoding)
    (transport : string -> nat -> string -> list string -> string -> result unit) :=
  send_email nat ticking strftime str_of_list (fun b => b) as_string
             (fun d => "") (fun _ _ => Ok tt) transport (fun _ _ => Ok tt) enc
             "127.0.0.1" 1025.

Definition send := send_on utf8.

End Sample.

(** * Properties *)

(** ** Strings *)

Section StringFacts.

Lemma startswith_char (c : ascii) (s : string) :
  PyStr.startswith (String c EmptyString) s = true <-> exists s', s = String c s'.
Proof.
  destruct s as [|b s']; simpl.
  - split; [discriminate | intros [? ?]; discriminate].
  - destruct (Ascii.eqb_spec c b) as [->|Hne].
    + split; eauto.
    + split; [discriminate | intros [? [= <- _]]; congruence].
Qed.

Lemma contains_char_count (c : ascii) (s : string) :
  PyStr.contains (String c EmptyString) s = negb (Nat.eqb (PyStr.count c s) 0).
Proof.
  induction s as [|b s IH]; [reflexivity|].
  cbn [PyStr.contains PyStr.startswith PyStr.count].
  rewrite Ascii.eqb_sym.
  destruct (Ascii.eqb b c); simpl; [reflexivity | exact IH].
Qed.

Lemma append_assoc (s t u : string) : s +:+ (t +:+ u) = (s +:+ t) +:+ u.
Proof. induction s; simpl; congruence. Qed.

Lemma append_empty (s : string) : s +:+ EmptyString = s.
Proof. induction s; simpl; congruence. Qed.

Lemma count_app (c : ascii) (s t : string) :
  PyStr.count c (s +:+ t) = PyStr.count c s + PyStr.count c t.
Proof. induction s as [|b s IH]; simpl; [reflexivity | rewrite IH; lia]. Qed.

(** Every string splits at the first occurrence of [c]. *)
Lemma cut_at_first (c : ascii) (s : string) :
  exists l r, s = l +:+ r /\ PyStr.count c l = 0 /\
              (r = EmptyString \/ exists r', r = String c r').
Proof.
  induction s as [|b s (l & r & -> & Hl & Hr)].
  - exists EmptyString, EmptyString; auto.
  - destruct (Ascii.eqb_spec b c) as [->|Hne].
    + exists EmptyString, (String c (l +:+ r)); simpl; eauto.
    + exists (String b l), r; simpl.
      apply Ascii.eqb_neq in Hne; rewrite Hne; auto.
Qed.

(** Splitting on a one-character separator: a piece free of the separator
    that ends the string or is followed by the separator is the first
    field. *)
Lemma split_from_field (c : ascii) (m r : string) :
  PyStr.count c m = 0 ->
  PyStr.split_from (String c EmptyString) 0 (m +:+ String c r)
  = m :: PyStr.split_from (String c EmptyString) 0 r.
Proof.
  induction m as [|b m IH]; simpl; intros Hm.
  - rewrite Ascii.eqb_refl; reflexivity.
  - destruct (Ascii.eqb_spec b c) as [->|Hne]; [discriminate|].
    rewrite Ascii.eqb_sym. apply Ascii.eqb_neq in Hne; rewrite Hne.
    rewrite IH by exact Hm. reflexivity.
Qed.

Lemma split_from_last (c : ascii) (m : string) :
  PyStr.count c m = 0 ->
  PyStr.split_from (String c EmptyString) 0 m = [m].
Proof.
  induction m as [|b m IH]; simpl; intros Hm; [reflexivity|].
  destruct (Ascii.eqb_spec b c) as [->|Hne]; [discriminate|].
  rewrite Ascii.eqb_sym. apply Ascii.eqb_neq in Hne; rewrite Hne.
  rewrite IH by exact Hm. reflexivity.
Qed.

(** The second field of [s.split(c)] when [s] has a separator: what lies
    between the first separator and the next one (or the end). *)
Lemma split_second_field (c : ascii) (l m r : string) :
  PyStr.count c l = 0 -> PyStr.count c m = 0 ->
  (r = EmptyString \/ exists r', r = String c r') ->
  nth_error (PyStr.split_from (String c EmptyString) 0 (l +:+ String c (m +:+ r))) 1
  = Some m.
Proof.
  intros Hl Hm Hr. rewrite split_from_field by exact Hl.
  destruct Hr as [->|[r' ->]].
  - replace (m +:+ EmptyString) with m.
    + rewrite split_from_last by exact Hm. reflexivity.
    + clear. induction m; simpl; congruence.
  - rewrite split_from_field by exact Hm. reflexivity.
Qed.

Lemma after_last_single (c : ascii) (l m : string) :
  PyStr.count c l = 0 -> PyStr.count c m = 0 ->
  PyStr.after_last c (l +:+ String c m) = m.
Proof.
  intros Hl Hm. induction l as [|b l IH]; simpl in *.
  - rewrite Hm. simpl. rewrite Ascii.eqb_refl. reflexivity.
  - destruct (Ascii.eqb_spec b c) as [->|Hne]; [discriminate|].
    rewrite count_app. simpl. rewrite Ascii.eqb_refl.
    replace (Nat.ltb 0 (PyStr.count c l + (1 + PyStr.count c m))) with true
      by (symmetry; apply Nat.ltb_lt; lia).
    apply IH, Hl.
Qed.

End StringFacts.

(** ** Validation *)

Example validate_plain : validate_email "b@y.com" = Ok true.
Proof. reflexivity. Qed.

Example validate_no_at : validate_email "not-an-address" = Ok false.
Proof. reflexivity. Qed.

Example validate_two_ats : validate_email "a@b.c@d" = Ok true.
Proof. reflexivity. Qed.

Example encode_sub : encode "bob.smith@mail.example.com" = "bob_smith_at_mail_example_com".
Proof. reflexivity. Qed.

Example decode_sub : decode "bob_smith_at_mail_example_com" = "bob.smith@mail.example.com".
Proof. reflexivity. Qed.


(** X21: [validate_email] never raises: the index [1] is guarded by the
    membership test. *)
Lemma validate_email_total (s : string) : exists b, validate_email s = Ok b.
Proof.
  unfold validate_email.
  destruct (PyStr.contains "@" s) eqn:Hc; [|eauto].
  rewrite contains_char_count in Hc.
  destruct (cut_at_first "@" s) as (l & r & -> & Hl & [->|[r' ->]]).
  - rewrite count_app, Hl in Hc. discriminate.
  - destruct (cut_at_first "@" r') as (m & r & -> & Hm & Hr).
    simpl. unfold py_index. rewrite split_second_field by assumption.
    simpl. eauto.
Qed.

(** On a string cut at its first two ['@'], the verdict is whether the
    middle piece has a dot. *)
Lemma validate_email_cut (l m r : string) :
  PyStr.count "@" l = 0 -> PyStr.count "@" m = 0 ->
  (r = EmptyString \/ exists r', r = String "@" r') ->
  validate_email (l +:+ String "@" (m +:+ r)) = Ok (PyStr.contains "." m).
Proof.
  intros Hl Hm Hr. unfold validate_email.
  rewrite contains_char_count, count_app, Hl. simpl.
  unfold py_index. rewrite split_second_field by assumption. reflexivity.
Qed.

Lemma validate_email_no_at (s : string) :
  PyStr.count "@" s = 0 -> validate_email s = Ok false.
Proof.
  intros H. unfold validate_email. rewrite contains_char_count, H. reflexivity.
Qed.

(** C3, as the code has it: [validate_email] answers [True] exactly for the
    strings that have an ['@'] and a ['.'] between the first ['@'] and the
    next one (or the end of the string).  The number of ['@'] is not
    checked. *)
Theorem validate_email_first_domain (s : string) :
  validate_email s = Ok true <->
  exists l m r,
    s = l +:+ String "@" (m +:+ r) /\
    PyStr.count "@" l = 0 /\ PyStr.count "@" m = 0 /\
    (r = EmptyString \/ exists r', r = String "@" r') /\
    PyStr.contains "." m = true.
Proof.
  split.
  - intros Hv.
    destruct (cut_at_first "@" s) as (l & r0 & -> & Hl & [->|[r' ->]]).
    + rewrite validate_email_no_at in Hv; [discriminate|].
      rewrite count_app, Hl. reflexivity.
    + destruct (cut_at_first "@" r') as (m & r & -> & Hm & Hr).
      rewrite validate_email_cut in Hv by assumption.
      exists l, m, r. repeat split; try assumption. congruence.
  - intros (l & m & r & -> & Hl & Hm & Hr & Hdot).
    rewrite validate_email_cut by assumption. congruence.
Qed.

(** On strings with exactly one ['@'] the code and the contract agree. *)
Lemma validate_email_one_at (s : string) :
  PyStr.count "@" s = 1 -> validate_email s = Ok (email_contract s).
Proof.
  intros H1.
  destruct (cut_at_first "@" s) as (l & r0 & -> & Hl & [->|[r' ->]]).
  - rewrite count_app, Hl in H1. discriminate.
  - assert (Hr : PyStr.count "@" r' = 0).
    { rewrite count_app, Hl in H1. simpl in H1. lia. }
    replace r' with (r' +:+ EmptyString) at 1
      by (clear; induction r'; simpl; congruence).
    rewrite validate_email_cut by auto.
    unfold email_contract. rewrite H1, after_last_single by assumption.
    reflexivity.
Qed.

(** C3, as stated, fails: a string with two ['@'] is accepted. *)
Lemma validate_email_accepts_two_ats :
  ~ (forall s, validate_email s = Ok true <-> email_contract s = true).
Proof.
  intros H. destruct (H "a@b.c@d") as [H1 _].
  specialize (H1 eq_refl). vm_compute in H1. discriminate.
Qed.

(** ** Address codec *)

Section Codec.

Lemma replace_char_cons (o : ascii) (new : string) (c : ascii) (s : string) :
  PyStr.replace (String o EmptyString) new (String c s)
  = (if Ascii.eqb o c then new else String c EmptyString)
    +:+ PyStr.replace (String o EmptyString) new s.
Proof.
  unfold PyStr.replace. simpl.
  destruct (Ascii.eqb o c); reflexivity.
Qed.

Lemma replace_char_app (o : ascii) (new s t : string) :
  PyStr.replace (String o EmptyString) new (s +:+ t)
  = PyStr.replace (String o EmptyString) new s
    +:+ PyStr.replace (String o EmptyString) new t.
Proof.
  induction s as [|c s IH]; [reflexivity|].
  simpl String.append at 1. rewrite !replace_char_cons, IH.
  destruct (Ascii.eqb o c); [apply append_assoc | reflexivity].
Qed.

Lemma encode_cons (c : ascii) (s : string) :
  encode (String c s) = enc_char c +:+ encode s.
Proof.
  unfold encode. rewrite replace_char_cons, replace_char_app.
  f_equal. unfold enc_char. rewrite (Ascii.eqb_sym c "@").
  destruct (Ascii.eqb_spec "@" c) as [<-|Hne]; [reflexivity|].
  rewrite replace_char_cons. rewrite (Ascii.eqb_sym c ".").
  destruct (Ascii.eqb "." c); reflexivity.
Qed.

Lemma codec_safe_tail (c : ascii) (s : string) :
  codec_safe (String c s) -> codec_safe s.
Proof.
  intros (Hu & Hd & Ha). repeat split.
  - simpl in Hu. lia.
  - cbn [PyStr.contains] in Hd. apply orb_false_elim in Hd. tauto.
  - cbn [PyStr.contains] in Ha. apply orb_false_elim in Ha. tauto.
Qed.

(** An encoded string starts with ['_'] only below one of three characters. *)
Lemma encode_starts_underscore (p s : string) :
  PyStr.startswith (String "_" p) (encode s) = true ->
  exists c s', s = String c s' /\ (c = "@" \/ c = "." \/ c = "_")%char.
Proof.
  destruct s as [|c s']; [discriminate|]. intros H.
  exists c, s'. split; [reflexivity|].
  rewrite encode_cons in H. unfold enc_char in H.
  destruct (Ascii.eqb_spec c "@"); [auto|].
  destruct (Ascii.eqb_spec c "."); [auto|].
  cbn [PyStr.startswith String.append] in H. destruct (Ascii.eqb_spec "_" c) as [<-|]; [auto | discriminate].
Qed.

(** A character the encoding leaves alone is matched in the source. *)
Lemma encode_starts_plain (x : ascii) (p s : string) :
  x <> "@"%char -> x <> "."%char -> x <> "_"%char ->
  PyStr.startswith (String x p) (encode s) = true ->
  exists s', s = String x s' /\ PyStr.startswith p (encode s') = true.
Proof.
  intros Hat Hdot Hus. destruct s as [|c s']; [discriminate|]. intros H.
  rewrite encode_cons in H. unfold enc_char in H.
  destruct (Ascii.eqb_spec c "@") as [->|_].
  { cbn [PyStr.startswith String.append] in H. destruct (Ascii.eqb_spec x "_"); [contradiction | discriminate]. }
  destruct (Ascii.eqb_spec c ".") as [->|_].
  { cbn [PyStr.startswith String.append] in H. destruct (Ascii.eqb_spec x "_"); [contradiction | discriminate]. }
  cbn [PyStr.startswith String.append] in H. destruct (Ascii.eqb_spec x c) as [->|_]; [eauto | discriminate].
Qed.

(** After a dot of a safe address the encoding never continues with the
    text of the ['@'] token. *)
Lemma no_token_after_dot (s : string) :
  codec_safe (String "." s) ->
  PyStr.startswith "at_" (encode s) = false.
Proof.
  intros (Hu & Hd & Ha).
  destruct (PyStr.startswith "at_" (encode s)) eqn:Hs; [exfalso | reflexivity].
  apply encode_starts_plain in Hs as (s1 & -> & Hs); [|discriminate..].
  apply encode_starts_plain in Hs as (s2 & -> & Hs); [|discriminate..].
  apply encode_starts_underscore in Hs as (c & s3 & -> & [->|[->| ->]]).
  - vm_compute in Ha. discriminate.
  - vm_compute in Hd. discriminate.
  - simpl in Hu. discriminate.
Qed.

(** The first stage of [decode] finds the ['@'] tokens and nothing else. *)
Lemma replace_from_miss (old new : string) (c : ascii) (s : string) :
  PyStr.startswith old (String c s) = false ->
  PyStr.replace_from old new 0 (String c s)
  = String c (PyStr.replace_from old new 0 s).
Proof. intros H. cbn [PyStr.replace_from]. rewrite H. reflexivity. Qed.

Lemma decode_tokens (a : string) :
  codec_safe a ->
  PyStr.replace "_at_" "@" (encode a) = PyStr.replace "." "_" a.
Proof.
  induction a as [|c s IH]; [reflexivity|]. intros Hsafe.
  specialize (IH (codec_safe_tail _ _ Hsafe)).
  rewrite encode_cons, replace_char_cons. unfold enc_char.
  destruct (Ascii.eqb_spec c "@") as [->|Hat].
  { unfold PyStr.replace in *. simpl. rewrite IH. reflexivity. }
  destruct (Ascii.eqb_spec c ".") as [->|Hdot].
  { pose proof (no_token_after_dot s Hsafe) as Hno.
    unfold PyStr.replace in *. cbn [String.append Ascii.eqb Bool.eqb].
    rewrite replace_from_miss, IH; [reflexivity | exact Hno]. }
  rewrite (Ascii.eqb_sym "." c). apply Ascii.eqb_neq in Hdot. rewrite Hdot.
  destruct Hsafe as (Hu & _). cbn [PyStr.count] in Hu.
  destruct (Ascii.eqb_spec c "_") as [->|Hus]; [discriminate|].
  unfold PyStr.replace in *. cbn [String.append].
  rewrite replace_from_miss, IH; [reflexivity|].
  cbn [PyStr.startswith]. rewrite (Ascii.eqb_sym "_" c).
  apply Ascii.eqb_neq in Hus. rewrite Hus. reflexivity.
Qed.

(** The second stage of [decode] undoes the dots. *)
Lemma decode_dots (a : string) :
  PyStr.count "_" a = 0 ->
  PyStr.replace "_" "." (PyStr.replace "." "_" a) = a.
Proof.
  induction a as [|c s IH]; [reflexivity|]. cbn [PyStr.count]. intros Hu.
  destruct (Ascii.eqb_spec c "_") as [->|Hus]; [discriminate|].
  rewrite replace_char_cons, replace_char_app, IH by exact Hu.
  destruct (Ascii.eqb_spec "." c) as [<-|Hdot]; [reflexivity|].
  rewrite replace_char_cons. rewrite (Ascii.eqb_sym "_" c).
  apply Ascii.eqb_neq in Hus. rewrite Hus. reflexivity.
Qed.

End Codec.

(** C1, as the code has it: decoding gives the address back when the
    address has no ['_'] and no [".at"] that is followed by ['.'] or ['@']. *)
Theorem decode_encode (a : string) :
  PyStr.count "_" a = 0 ->
  PyStr.contains ".at." a = false ->
  PyStr.contains ".at@" a = false ->
  decode (encode a) = a.
Proof.
  intros Hu Hd Ha. unfold decode.
  rewrite decode_tokens by (repeat split; assumption).
  apply decode_dots, Hu.
Qed.

Lemma decode_encode_witness :
  email_contract "bob.smith@mail.example.com" = true /\
  decode (encode "bob.smith@mail.example.com") = "bob.smith@mail.example.com".
Proof.
  split; [reflexivity|].
  apply (decode_encode "bob.smith@mail.example.com"); reflexivity.
Defined.

(** C1, as stated, fails: an address with an underscore satisfies the
    contract and does not come back. *)
Lemma decode_encode_underscore :
  email_contract "a_b@x.com" = true /\
  decode (encode "a_b@x.com") <> "a_b@x.com".
Proof. split; [reflexivity | vm_compute; discriminate]. Qed.

(** Nor does one whose local part ends in [".at"]. *)
Lemma decode_encode_dot_at :
  email_contract "x.at@y.com" = true /\
  decode (encode "x.at@y.com") = "x@at.y.com".
Proof. split; reflexivity. Qed.

(** X22: a decoded mailbox name never contains ['_']: an underscore of the
    directory name never survives, so the condition on ['_'] is necessary. *)
Lemma decode_has_no_underscore (d : string) :
  PyStr.count "_" (decode d) = 0.
Proof.
  unfold decode. generalize (PyStr.replace "_at_" "@" d). intros s.
  induction s as [|c s IH]; [reflexivity|].
  rewrite replace_char_cons, count_app, IH.
  destruct (Ascii.eqb_spec "_" c) as [<-|Hne]; [reflexivity|].
  simpl. apply not_eq_sym, Ascii.eqb_neq in Hne. rewrite Hne. reflexivity.
Qed.

(** ** The delivery engine *)

Section Delivery.

Variable datetime : Type.
Variable clock : nat -> datetime.
Variable strftime : string -> datetime -> string.
Variable isoformat : datetime -> string.
Variable message : Type.
Variable decode_utf8 : string -> string.
Variable parsestr : string -> result message.
Variable msg_get : message -> string -> string -> result string.
Variable str_of_list : list string -> string.
Variable mailbox_dir : string.

Let deliver_to_mailbox := Smtp.deliver_to_mailbox datetime clock strftime isoformat mailbox_dir.
Let deliver_or_warn := Smtp.deliver_or_warn datetime clock strftime isoformat mailbox_dir.
Let deliver_all := Smtp.deliver_all datetime clock strftime isoformat mailbox_dir.
Let receive :=
  Smtp.receive datetime clock strftime message decode_utf8 parsestr msg_get str_of_list.
Let handle_DATA :=
  Smtp.handle_DATA datetime clock strftime isoformat message decode_utf8 parsestr msg_get
              str_of_list mailbox_dir.

(** [handle_DATA] is its preamble, then its loop, then the verdict. *)
Lemma handle_DATA_steps (peer : string) (env : envelope) (w : world) :
  handle_DATA peer env w =
  match receive peer env w with
  | (Ok subject, w0) =>
      match deliver_all env subject w0 with
      | (Ok _, w1) =>
          (log_at INFO ("Email processing completed successfully" +:+ nl) ;;;
           _gui_log nl ;;; ret accepted) w1
      | (Raise e, w1) =>
          (log_at ERROR ("Error processing email: " +:+ exn_msg e) ;;; ret rejected) w1
      end
  | (Raise e, w0) =>
      (log_at ERROR ("Error processing email: " +:+ exn_msg e) ;;; ret rejected) w0
  end.
Proof.
  unfold handle_DATA, Smtp.handle_DATA, receive, Smtp.receive,
    deliver_all, Smtp.deliver_all, try_except, bind, lift, log_at, _gui_log,
    now, ret.
  simpl.
  destruct (gui_log_queue w); simpl;
    destruct (parsestr (decode_utf8 (env_content env))) as [msg|e]; simpl;
    try reflexivity;
    destruct (msg_get msg "Subject" "No Subject"); simpl; try reflexivity;
    destruct (msg_get msg "From" (mail_from env)); simpl; try reflexivity;
    destruct (msg_get msg "To" (PyStr.join ", " (rcpt_tos env))); simpl;
    try reflexivity;
    destruct (msg_get msg "Date" _); simpl; try reflexivity;
    match goal with
    | |- context [for_each ?l ?f ?w0] => destruct (for_each l f w0) as [[[]|e] w1]
    end; simpl; destruct (gui_log_queue w1); reflexivity.
Qed.

(** The preamble leaves the store alone, whatever its outcome. *)
Lemma receive_frame (peer : string) (env : envelope) (w : world) :
  fs (snd (receive peer env w)) = fs w /\
  denied (snd (receive peer env w)) = denied w.
Proof.
  unfold receive, Smtp.receive, bind, lift, log_at, _gui_log, now, ret.
  simpl. destruct (gui_log_queue w); simpl;
    destruct (parsestr (decode_utf8 (env_content env))) as [msg|e]; simpl; auto;
    destruct (msg_get msg "Subject" "No Subject"); simpl; auto;
    destruct (msg_get msg "From" (mail_from env)); simpl; auto;
    destruct (msg_get msg "To" (PyStr.join ", " (rcpt_tos env))); simpl; auto;
    destruct (msg_get msg "Date" _); simpl; auto.
Qed.

(** The preamble returns exactly when the content parses and the four
    headers can be read, in the order the code reads them; the default of
    [Date] is the time read just before. *)
Lemma receive_ok_iff (peer : string) (env : envelope) (w : world) :
  is_ok (fst (receive peer env w))
  = is_ok (bind_result (parsestr (decode_utf8 (env_content env))) (fun msg =>
           bind_result (msg_get msg "Subject" "No Subject") (fun _ =>
           bind_result (msg_get msg "From" (mail_from env)) (fun _ =>
           bind_result (msg_get msg "To" (PyStr.join ", " (rcpt_tos env))) (fun _ =>
           msg_get msg "Date" (strftime "%a, %d %b %Y %H:%M:%S" (clock (ticks w)))))))).
Proof.
  unfold receive, Smtp.receive, bind, lift, log_at, _gui_log, now, ret.
  simpl. destruct (gui_log_queue w); simpl;
    destruct (parsestr (decode_utf8 (env_content env))) as [msg|e]; simpl;
    try reflexivity;
    destruct (msg_get msg "Subject" "No Subject"); simpl; try reflexivity;
    destruct (msg_get msg "From" (mail_from env)); simpl; try reflexivity;
    destruct (msg_get msg "To" (PyStr.join ", " (rcpt_tos env))); simpl;
    try reflexivity;
    destruct (msg_get msg "Date" _); reflexivity.
Qed.

Lemma deliver_or_warn_invalid (mailfrom subject data r : string) (w : world) :
  validate_email r = Ok false ->
  exists w', deliver_or_warn mailfrom subject data r w = (Ok tt, w') /\
             fs w' = fs w.
Proof.
  intros Hv. unfold deliver_or_warn, Smtp.deliver_or_warn, bind, lift.
  rewrite Hv. unfold log_at, _gui_log. simpl.
  destruct (gui_log_queue w); eauto.
Qed.

Lemma deliver_or_warn_valid (mailfrom subject data r : string) (w : world) :
  validate_email r = Ok true ->
  deliver_or_warn mailfrom subject data r w =
  match deliver_to_mailbox r mailfrom subject data w with
  | (Ok _, w') =>
      (log_at INFO ("Email delivered to " +:+ r) ;;;
       _gui_log ("✓ Email delivered to " +:+ r +:+ nl)) w'
  | (Raise e, w') => (Raise e, w')
  end.
Proof.
  intros Hv. unfold deliver_or_warn, Smtp.deliver_or_warn, bind, lift.
  rewrite Hv. fold deliver_to_mailbox.
  destruct (deliver_to_mailbox r mailfrom subject data w) as [[[]|e] w']; reflexivity.
Qed.

Lemma for_each_invalid (mailfrom subject data : string) (l : list string) (w : world) :
  Forall (fun r => validate_email r = Ok false) l ->
  exists w', for_each l (deliver_or_warn mailfrom subject data) w = (Ok tt, w') /\
             fs w' = fs w.
Proof.
  intros Hall. revert w. induction Hall as [|r l Hr _ IH]; intros w.
  - exists w. split; reflexivity.
  - destruct (deliver_or_warn_invalid mailfrom subject data r w Hr) as (w1 & E1 & F1).
    destruct (IH w1) as (w2 & E2 & F2).
    exists w2. cbn [for_each]. unfold bind at 1. rewrite E1, E2.
    split; [reflexivity | congruence].
Qed.

(** The loop stops at the first body that raises. *)
Lemma for_each_stops {A} (body : A -> M unit) (before : list A) (x : A)
    (after : list A) (w w1 w2 : world) (e : exn) :
  for_each before body w = (Ok tt, w1) ->
  body x w1 = (Raise e, w2) ->
  for_each (before ++ x :: after) body w = (Raise e, w2).
Proof.
  revert w. induction before as [|y before IH]; intros w Hb Hx.
  - injection Hb as <-. cbn [for_each app]. unfold bind. rewrite Hx. reflexivity.
  - cbn [for_each app] in *. unfold bind in *.
    destruct (body y w) as [[[]|e'] w']; [|discriminate].
    apply IH; assumption.
Qed.

(** C2, as the code has it: when no recipient is valid nothing is written,
    and the answer is the acceptance line whenever the preamble returns,
    that is when the content parses and its four headers can be read; it is
    the error line when the parse or a header read raises.  There is no
    outcome for a message without valid recipients. *)
Theorem handle_DATA_no_valid_recipient (peer : string) (env : envelope) (w : world) :
  Forall (fun r => validate_email r = Ok false) (rcpt_tos env) ->
  exists w',
    handle_DATA peer env w =
    (Ok (if is_ok (fst (receive peer env w)) then accepted else rejected), w') /\
    fs w' = fs w.
Proof.
  intros Hall. rewrite handle_DATA_steps.
  pose proof (receive_frame peer env w) as [Hfs _].
  destruct (receive peer env w) as [[subject|e] w0]; simpl in *.
  - unfold deliver_all, Smtp.deliver_all.
    destruct (for_each_invalid (mail_from env) subject (env_content env) _ w0 Hall)
      as (w1 & E1 & F1).
    fold deliver_or_warn. rewrite E1.
    unfold bind, log_at, _gui_log, ret. simpl.
    destruct (gui_log_queue w1); eexists; (split; [reflexivity|]); simpl; congruence.
  - unfold bind, log_at, ret. simpl. eexists; split; [reflexivity|]. exact Hfs.
Qed.

(** C4, as the code has it: a delivery that raises ends the loop.  The
    answer is the error line and the store stays as the failing delivery
    left it: the recipients that follow get nothing. *)
Theorem handle_DATA_stops_at_failure (peer : string) (env : envelope)
    (before : list string) (r : string) (after : list string)
    (subject : string) (e : exn) (w w0 w1 w2 : world) :
  rcpt_tos env = before ++ r :: after ->
  receive peer env w = (Ok subject, w0) ->
  for_each before (deliver_or_warn (mail_from env) subject (env_content env)) w0
    = (Ok tt, w1) ->
  validate_email r = Ok true ->
  deliver_to_mailbox r (mail_from env) subject (env_content env) w1 = (Raise e, w2) ->
  exists w',
    handle_DATA peer env w = (Ok rejected, w') /\ fs w' = fs w2.
Proof.
  intros Hsplit Hrecv Hbefore Hvalid Hfail.
  rewrite handle_DATA_steps, Hrecv.
  unfold deliver_all, Smtp.deliver_all. fold deliver_or_warn.
  rewrite Hsplit.
  rewrite (for_each_stops _ before r after w0 w1 w2 e Hbefore).
  - unfold bind, log_at, ret. simpl. eexists; split; reflexivity.
  - rewrite deliver_or_warn_valid by exact Hvalid. rewrite Hfail. reflexivity.
Qed.

End Delivery.

(** ** The delivery engine on concrete envelopes *)

Lemma handle_DATA_no_valid_recipient_witness :
  exists w',
    Sample.handle Sample.ticking "peer"
      (Envelope "a@x.com" ["not-an-address"] "hello") Sample.empty_world
    = (Ok accepted, w') /\ fs w' = fs Sample.empty_world.
Proof.
  apply (handle_DATA_no_valid_recipient nat Sample.ticking Sample.strftime
           Sample.isoformat dict (fun b => b) Sample.parsestr Sample.msg_get
           Sample.str_of_list "mailboxes" "peer"
           (Envelope "a@x.com" ["not-an-address"] "hello") Sample.empty_world).
  simpl. repeat constructor.
Defined.

(** C2, as stated, fails: with no valid recipient the answer is still the
    acceptance line, not a rejection. *)
Lemma handle_DATA_accepts_without_recipient :
  Forall (fun r => validate_email r = Ok false) ["not-an-address"] /\
  fst (Sample.handle Sample.ticking "peer"
         (Envelope "a@x.com" ["not-an-address"] "hello") Sample.empty_world)
  = Ok accepted /\
  accepted <> rejected.
Proof.
  split; [repeat constructor|]. split; [vm_compute; reflexivity | discriminate].
Qed.

Lemma handle_DATA_stops_at_failure_witness :
  exists w',
    Sample.handle Sample.ticking "peer"
      (Envelope "s@x.com" ["a@x.com"; "b@y.com"; "c@z.com"] "hello")
      (Sample.denying ["mailboxes/b_at_y_com"])
    = (Ok rejected, w') /\
    fs w' !! "mailboxes/a_at_x_com/email_1.eml" = Some (File (Bytes "hello")) /\
    fs w' !! "mailboxes/c_at_z_com" = None.
Proof.
  pose (env := Envelope "s@x.com" ["a@x.com"; "b@y.com"; "c@z.com"] "hello").
  pose (w := Sample.denying ["mailboxes/b_at_y_com"]).
  pose (w0 := snd (Sample.receive Sample.ticking "peer" env w)).
  pose (w1 := snd (Sample.deliver_or_warn Sample.ticking "s@x.com" "hello" "hello"
                     "a@x.com" w0)).
  pose (w2 := snd (Sample.deliver Sample.ticking "b@y.com" "s@x.com" "hello" "hello" w1)).
  destruct (handle_DATA_stops_at_failure nat Sample.ticking Sample.strftime
              Sample.isoformat dict (fun b => b) Sample.parsestr Sample.msg_get
              Sample.str_of_list "mailboxes" "peer" env
              ["a@x.com"] "b@y.com" ["c@z.com"] "hello"
              (Exn OSError "[Errno 13] Permission denied: mailboxes/b_at_y_com")
              w w0 w1 w2) as (w' & Hres & Hfs).
  - reflexivity.
  - vm_compute; reflexivity.
  - vm_compute; reflexivity.
  - reflexivity.
  - vm_compute; reflexivity.
  - exists w'. split; [exact Hres|]. rewrite Hfs. split; vm_compute; reflexivity.
Defined.

(** Content that does not parse: the error line, and nothing written. *)
Example handle_DATA_unparsable :
  let out := Smtp.handle_DATA nat Sample.ticking Sample.strftime Sample.isoformat dict
               (fun b => b) Sample.unparsable Sample.msg_get Sample.str_of_list
               "mailboxes" "peer"
               (Envelope "s@x.com" ["a@x.com"] "hello") Sample.empty_world in
  fst out = Ok rejected /\ fs (snd out) = ∅.
Proof. split; vm_compute; reflexivity. Qed.

(** A header that cannot be read: the content parses, the read of [From]
    raises, and the answer is the error line; nothing is delivered, although
    the recipient is valid. *)
Example handle_DATA_unreadable_header :
  let out := Smtp.handle_DATA nat Sample.ticking Sample.strftime Sample.isoformat dict
               (fun b => b) Sample.parsestr Sample.msg_get_strict Sample.str_of_list
               "mailboxes" "peer"
               (Envelope "s@x.com" ["a@x.com"] "hello") Sample.empty_world in
  fst out = Ok rejected /\ fs (snd out) = ∅.
Proof. split; vm_compute; reflexivity. Qed.

(** C4, as stated, fails: the first of two valid recipients cannot be
    stored; the answer is the error line and the second gets nothing: the
    store holds the mailbox directory [os.makedirs] created on its way and
    nothing else. *)
Lemma handle_DATA_failure_cascades :
  validate_email "a@x.com" = Ok true /\
  validate_email "b@y.com" = Ok true /\
  let out := Sample.handle Sample.ticking "peer"
               (Envelope "s@x.com" ["a@x.com"; "b@y.com"] "hello")
               (Sample.denying ["mailboxes/a_at_x_com"]) in
  fst out = Ok rejected /\ fs (snd out) = {[ "mailboxes" := Dir ]}.
Proof. repeat split; vm_compute; reflexivity. Qed.

(** C5 on an envelope that names one recipient twice while the clock does
    not advance: both deliveries choose [email_0.eml], the second overwrites
    the first, and the mailbox holds one record instead of two. *)
Lemma handle_DATA_same_instant :
  let out := Sample.handle Sample.frozen "peer"
               (Envelope "s@x.com" ["a@x.com"; "a@x.com"] "hello")
               Sample.empty_world in
  fst out = Ok accepted /\
  fs (snd out) =
    {[ "mailboxes" := Dir;
       "mailboxes/a_at_x_com" := Dir;
       "mailboxes/a_at_x_com/email_0.eml" := File (Bytes "hello");
       "mailboxes/a_at_x_com/metadata_0.json" :=
         File (Json [("timestamp", "0"); ("from", "s@x.com"); ("to", "a@x.com");
                     ("subject", "hello"); ("filename", "email_0.eml")]) ]}.
Proof. split; vm_compute; reflexivity. Qed.

(** ** Creating directories *)

Section Makedirs.

Lemma dirs_added_refl (m : gmap string node) : dirs_added m m.
Proof. intros p. left. reflexivity. Qed.

Lemma dirs_added_trans (m1 m2 m3 : gmap string node) :
  dirs_added m1 m2 -> dirs_added m2 m3 -> dirs_added m1 m3.
Proof.
  intros H12 H23 p. destruct (H12 p) as [E|[N D]], (H23 p) as [E'|[N' D']].
  - left. congruence.
  - right. split; congruence.
  - right. split; congruence.
  - congruence.
Qed.

Lemma dirs_added_insert (m : gmap string node) (p : string) :
  m !! p = None -> dirs_added m (<[p := Dir]> m).
Proof.
  intros Hp q. destruct (decide (q = p)) as [->|Hne].
  - right. split; [exact Hp | apply lookup_insert_eq].
  - left. apply lookup_insert_ne. congruence.
Qed.

(** Directories are added, files stay as they are. *)
Lemma dirs_added_file (m m' : gmap string node) (p : string) (c : content) :
  dirs_added m m' -> m' !! p = Some (File c) <-> m !! p = Some (File c).
Proof.
  intros H. destruct (H p) as [E|[N D]]; [rewrite E; reflexivity|].
  rewrite N, D. split; discriminate.
Qed.

Lemma dirs_added_some (m m' : gmap string node) (p : string) (n : node) :
  dirs_added m m' -> m !! p = Some n -> m' !! p = Some n.
Proof. intros H Hp. destruct (H p) as [E|[N D]]; congruence. Qed.

Lemma same_but_fs_refl (w : world) : same_but_fs w w.
Proof. repeat split. Qed.

Lemma same_but_fs_trans (w1 w2 w3 : world) :
  same_but_fs w1 w2 -> same_but_fs w2 w3 -> same_but_fs w1 w3.
Proof.
  unfold same_but_fs. intros (A & B & C & D & E) (A' & B' & C' & D' & E').
  repeat split; congruence.
Qed.

Lemma mkdir_frame (p : string) (w w' : world) (r : result unit) :
  mkdir p w = (r, w') -> dirs_added (fs w) (fs w') /\ same_but_fs w w'.
Proof.
  unfold mkdir. intros H.
  repeat (case_match; simplify_eq/=);
    try (split; [apply dirs_added_refl | apply same_but_fs_refl]).
  split; [|repeat split].
  apply dirs_added_insert.
  match goal with
  | Hx : _ || bool_decide (is_Some _) = false |- _ =>
      apply orb_false_iff in Hx as [_ Hx];
      apply bool_decide_eq_false in Hx; apply eq_None_not_Some, Hx
  end.
Qed.

Lemma mkdir_ok (p : string) (w w' : world) :
  mkdir p w = (Ok tt, w') -> fs w' = <[p := Dir]> (fs w).
Proof.
  unfold mkdir. intros H. repeat (case_match; simplify_eq/=). reflexivity.
Qed.

(** [os.makedirs] adds directories and nothing else, whether it returns or
    raises. *)
Lemma makedirs_rec_frame (fuel : nat) (name : string) (w w' : world)
    (r : result unit) :
  makedirs_rec fuel name w = (r, w') ->
  dirs_added (fs w) (fs w') /\ same_but_fs w w'.
Proof.
  revert name w w' r. induction fuel as [|fuel IH]; intros name w w' r H;
    cbn [makedirs_rec] in H; cbv zeta in H.
  - destruct (_ && _); exact (mkdir_frame _ _ _ _ H).
  - destruct (_ && _); [|exact (mkdir_frame _ _ _ _ H)].
    unfold bind at 1, try_except at 1 in H.
    match type of H with
    | context [makedirs_rec fuel ?h w] =>
        destruct (makedirs_rec fuel h w) as [[[]|e] w1] eqn:Hrec;
        destruct (IH _ _ _ _ Hrec) as [Hd Hs]
    end.
    + destruct (String.eqb _ "."); [injection H as _ <-; auto|].
      destruct (mkdir_frame _ _ _ _ H) as [Hd' Hs'].
      split; [eapply dirs_added_trans | eapply same_but_fs_trans]; eassumption.
    + destruct (is_FileExistsError e); unfold ret, raise in H.
      * destruct (String.eqb _ "."); [injection H as _ <-; auto|].
        destruct (mkdir_frame _ _ _ _ H) as [Hd' Hs'].
        split; [eapply dirs_added_trans | eapply same_but_fs_trans]; eassumption.
      * injection H as _ <-. auto.
Qed.

Lemma count_after_last (c x : ascii) (s : string) :
  PyStr.count c (PyStr.after_last x s) <= PyStr.count c s.
Proof.
  induction s as [|a s IH]; [reflexivity|].
  cbn [PyStr.after_last PyStr.count].
  destruct (Nat.ltb 0 (PyStr.count x s)); [lia|].
  destruct (Ascii.eqb a x); cbn [PyStr.count]; lia.
Qed.

Lemma count_substring (c : ascii) (n : nat) (s : string) :
  PyStr.count c (substring 0 n s) <= PyStr.count c s.
Proof.
  revert n. induction s as [|a s IH]; intros [|n]; cbn [substring PyStr.count]; try lia.
  specialize (IH n). lia.
Qed.

Lemma count_rstrip_char (c x : ascii) (s : string) :
  PyStr.count c (PyStr.rstrip_char x s) <= PyStr.count c s.
Proof.
  induction s as [|a s IH]; [reflexivity|].
  cbn [PyStr.rstrip_char].
  destruct (PyStr.rstrip_char x s) as [|b r].
  - destruct (Ascii.eqb a x); cbn [PyStr.count] in *; lia.
  - cbn [PyStr.count] in *. lia.
Qed.

Lemma count_path_split (c : ascii) (p : string) :
  PyStr.count c (fst (path_split p)) <= PyStr.count c p /\
  PyStr.count c (snd (path_split p)) <= PyStr.count c p.
Proof.
  unfold path_split. cbn [fst snd]. split; [|apply count_after_last].
  destruct (PyStr.all_char "/" _).
  - apply count_substring.
  - etransitivity; [apply count_rstrip_char | apply count_substring].
Qed.

Lemma count_split_last (c : ascii) (p : string) :
  PyStr.count c (snd (split_last p)) <= PyStr.count c p.
Proof.
  unfold split_last. destruct (String.eqb (snd (path_split p)) "").
  - etransitivity; [apply count_path_split|apply count_path_split].
  - apply count_path_split.
Qed.

(** Unless the last component of the path is ["."], [os.makedirs] ends with
    [mkdir] on the path itself: when it returns, the directory is there. *)
Lemma makedirs_rec_ok (fuel : nat) (name : string) (w w' : world) :
  snd (split_last name) <> "." ->
  makedirs_rec fuel name w = (Ok tt, w') ->
  fs w' !! name = Some Dir.
Proof.
  intros Hdot H.
  assert (Hmk : forall w1, mkdir name w1 = (Ok tt, w') -> fs w' !! name = Some Dir).
  { intros w1 Hm. rewrite (mkdir_ok _ _ _ Hm). apply lookup_insert_eq. }
  destruct fuel as [|fuel]; cbn [makedirs_rec] in H; cbv zeta in H.
  - destruct (_ && _); eapply Hmk, H.
  - destruct (_ && _); [|eapply Hmk, H].
    unfold bind at 1 in H.
    match type of H with
    | context [try_except ?a ?h w] => destruct (try_except a h w) as [[[]|e] w1]
    end; [|discriminate].
    destruct (String.eqb_spec (snd (split_last name)) ".") as [Htail|_];
      [contradiction | eapply Hmk, H].
Qed.

Lemma length_after_last (x : ascii) (s : string) :
  String.length (PyStr.after_last x s) <= String.length s.
Proof.
  induction s as [|a s IH]; [reflexivity|].
  cbn [PyStr.after_last String.length].
  destruct (Nat.ltb 0 (PyStr.count x s)); [lia|].
  destruct (Ascii.eqb a x); cbn [String.length]; lia.
Qed.

Lemma length_substring_le (n : nat) (s : string) :
  String.length (substring 0 n s) <= n.
Proof.
  revert n. induction s as [|a s IH]; intros [|n]; cbn [substring String.length]; try lia.
  specialize (IH n). lia.
Qed.

Lemma length_rstrip_char (x : ascii) (s : string) :
  String.length (PyStr.rstrip_char x s) <= String.length s.
Proof.
  induction s as [|a s IH]; [reflexivity|].
  cbn [PyStr.rstrip_char].
  destruct (PyStr.rstrip_char x s) as [|b r].
  - destruct (Ascii.eqb a x); cbn [String.length] in *; lia.
  - cbn [String.length] in *. lia.
Qed.

Lemma length_path_split (p : string) :
  String.length (fst (path_split p)) + String.length (snd (path_split p))
  <= String.length p.
Proof.
  unfold path_split. cbn [fst snd].
  pose proof (length_after_last "/" p) as Ht.
  pose proof (length_substring_le
                (String.length p - String.length (PyStr.after_last "/" p)) p) as Hh.
  destruct (PyStr.all_char "/" _); [lia|].
  pose proof (length_rstrip_char "/"
                (substring 0 (String.length p - String.length (PyStr.after_last "/" p)) p)).
  lia.
Qed.

(** The recursion of [os.makedirs] goes to a shorter path. *)
Lemma split_last_shorter (name : string) :
  snd (split_last name) <> "" ->
  String.length (fst (split_last name)) < String.length name.
Proof.
  unfold split_last. intros Htail.
  pose proof (length_path_split name) as H1.
  destruct (String.eqb_spec (snd (path_split name)) "") as [He|Hne].
  - pose proof (length_path_split (fst (path_split name))) as H2.
    destruct (snd (path_split (fst (path_split name)))) as [|c t]; [congruence|].
    cbn [String.length] in H2. lia.
  - destruct (snd (path_split name)) as [|c t]; [congruence|].
    cbn [String.length] in H1. lia.
Qed.

(** The length of the path is fuel enough: more changes nothing. *)
Lemma makedirs_rec_fuel (fuel : nat) (name : string) (w : world) :
  String.length name <= fuel ->
  makedirs_rec fuel name w = makedirs name w.
Proof.
  unfold makedirs.
  assert (H : forall f1 f2 n v,
             String.length n <= f1 -> String.length n <= f2 ->
             makedirs_rec f1 n v = makedirs_rec f2 n v).
  { induction f1 as [|f1 IH]; intros f2 n v H1 H2.
    - destruct n as [|c n]; [|cbn [String.length] in H1; lia].
      destruct f2; reflexivity.
    - destruct f2 as [|f2].
      + destruct n as [|c n]; [reflexivity | cbn [String.length] in H2; lia].
      + cbn [makedirs_rec]. cbv zeta.
        destruct (negb (String.eqb (fst (split_last n)) "")) eqn:Eh; [|reflexivity].
        destruct (String.eqb_spec (snd (split_last n)) "") as [Et|Et];
          [rewrite Et; reflexivity|].
        cbn [negb andb].
        destruct (negb (bool_decide (is_Some (fs v !! fst (split_last n)))));
          [|reflexivity].
        pose proof (split_last_shorter n Et) as Hlt.
        unfold bind, try_except.
        rewrite (IH f2 (fst (split_last n)) v) by lia. reflexivity. }
  intros Hle. apply H; [exact Hle | lia].
Qed.

(** A path without a dot has no component ["."]. *)
Lemma no_dot_last (name : string) :
  PyStr.count "." name = 0 -> snd (split_last name) <> ".".
Proof.
  intros Hdot Htail. pose proof (count_split_last "." name) as Hle.
  rewrite Htail, Hdot in Hle. cbn in Hle. lia.
Qed.

End Makedirs.

(** ** The mailbox store *)

Section Store.

Variable datetime : Type.
Variable clock : nat -> datetime.
Variable strftime : string -> datetime -> string.
Variable isoformat : datetime -> string.
Variable mailbox_dir : string.

Let deliver_to_mailbox := Smtp.deliver_to_mailbox datetime clock strftime isoformat mailbox_dir.

Lemma append_inj_l (s a b : string) : s +:+ a = s +:+ b -> a = b.
Proof. induction s as [|c s IH]; simpl; [auto | intros [= H]; auto]. Qed.

(** Two names that do not start with ['/'] stay apart under one directory. *)
Lemma path_join_inj (d a b : string) :
  PyStr.startswith "/" a = false -> PyStr.startswith "/" b = false ->
  path_join d a = path_join d b -> a = b.
Proof.
  unfold path_join. intros -> ->.
  destruct (String.eqb d "" || PyStr.endswith "/" d); intros H.
  - eapply append_inj_l, H.
  - apply append_inj_l in H. simpl in H. congruence.
Qed.

(** What a delivery that returns has done to the store: directories may
    have been created, then the two files were written. *)
Lemma deliver_to_mailbox_ok (recipient sender subject raw : string) (w w' : world) :
  deliver_to_mailbox recipient sender subject raw w = (Ok tt, w') ->
  let d := path_join mailbox_dir (encode recipient) in
  let ts := strftime "%Y%m%d_%H%M%S_%f" (clock (ticks w)) in
  let email_filename := "email_" +:+ ts +:+ ".eml" in
  let metadata :=
    [("timestamp", isoformat (clock (S (ticks w)))); ("from", sender);
     ("to", recipient); ("subject", subject); ("filename", email_filename)] in
  exists base,
    dirs_added (fs w) base /\
    (is_Some (fs w !! d) \/ exists w1, makedirs d w = (Ok tt, w1) /\ fs w1 = base) /\
    denied w' = denied w /\
    (path_join d email_filename ∉ denied w) /\
    (path_join d ("metadata_" +:+ ts +:+ ".json") ∉ denied w) /\
    fs w' = <[path_join d ("metadata_" +:+ ts +:+ ".json") := File (Json metadata)]>
              (<[path_join d email_filename := File (Bytes raw)]> base).
Proof.
  intros H. cbv zeta.
  unfold deliver_to_mailbox, Smtp.deliver_to_mailbox, try_except in H.
  unfold bind at 1, path_exists at 1 in H. unfold bind at 1 in H.
  set (d := path_join mailbox_dir (encode recipient)) in *.
  assert (Hdir : exists w1,
             (if negb (bool_decide (is_Some (fs w !! d))) then makedirs d else ret tt) w
             = (Ok tt, w1) /\
             dirs_added (fs w) (fs w1) /\ same_but_fs w w1 /\
             (is_Some (fs w !! d) \/ makedirs d w = (Ok tt, w1))).
  { destruct (bool_decide (is_Some (fs w !! d))) eqn:Hex; cbn [negb] in *.
    - exists w. apply bool_decide_eq_true in Hex.
      repeat split; auto using dirs_added_refl.
    - destruct (makedirs d w) as [[[]|e] w1] eqn:Hmk.
      + exists w1. destruct (makedirs_rec_frame _ _ _ _ _ Hmk). auto.
      + unfold bind, log_at, raise in H. discriminate. }
  destruct Hdir as (w1 & Hstep & Hd & (Hden & Htick & Hlog & Hq & Hout) & Hwhy).
  rewrite Hstep in H.
  unfold bind, now, write_file, log_at, ret, raise, set_fs in H. simpl in H.
  rewrite Htick, Hden in H.
  repeat (case_match; simplify_eq/=).
  all: exists (fs w1); split; [exact Hd|]; split;
    [destruct Hwhy; eauto|]; split; [reflexivity|].
  all: repeat match goal with
         | Hx : bool_decide (_ ∈ _) = false |- _ => apply bool_decide_eq_false in Hx
         end.
  all: repeat split; assumption.
Qed.


(** The two files of a delivery have different paths. *)
Lemma email_not_metadata (d ts : string) :
  path_join d ("email_" +:+ ts +:+ ".eml") <> path_join d ("metadata_" +:+ ts +:+ ".json").
Proof. intros Heq. apply path_join_inj in Heq; [discriminate | reflexivity..]. Qed.

(** X9: two deliveries to one recipient whose filename timestamps read the same:
    the second returns, replaces the content file of the first, and adds no
    file to the store. *)
Lemma deliver_to_mailbox_collision (recipient : string)
    (sender1 subject1 raw1 sender2 subject2 raw2 : string) (w w1 w2 : world) :
  deliver_to_mailbox recipient sender1 subject1 raw1 w = (Ok tt, w1) ->
  deliver_to_mailbox recipient sender2 subject2 raw2 w1 = (Ok tt, w2) ->
  strftime "%Y%m%d_%H%M%S_%f" (clock (ticks w1))
    = strftime "%Y%m%d_%H%M%S_%f" (clock (ticks w)) ->
  let d := path_join mailbox_dir (encode recipient) in
  let ts := strftime "%Y%m%d_%H%M%S_%f" (clock (ticks w)) in
  let email_path := path_join d ("email_" +:+ ts +:+ ".eml") in
  fs w1 !! email_path = Some (File (Bytes raw1)) /\
  fs w2 !! email_path = Some (File (Bytes raw2)) /\
  forall p, (exists c, fs w2 !! p = Some (File c)) <-> (exists c, fs w1 !! p = Some (File c)).
Proof.
  intros H1 H2 Hts d ts email_path.
  apply deliver_to_mailbox_ok in H1, H2. cbv zeta in H1, H2.
  rewrite Hts in H2. fold d ts in H1, H2. fold email_path in H1, H2.
  set (metadata_path := path_join d ("metadata_" +:+ ts +:+ ".json")) in *.
  destruct H1 as (base1 & _ & _ & _ & _ & _ & Hfs1).
  destruct H2 as (base2 & Hbase2 & _ & _ & _ & _ & Hfs2).
  assert (Hne : email_path <> metadata_path) by apply email_not_metadata.
  split; [|split].
  - rewrite Hfs1, lookup_insert_ne by congruence. apply lookup_insert_eq.
  - rewrite Hfs2, lookup_insert_ne by congruence. apply lookup_insert_eq.
  - intros p. rewrite Hfs2.
    destruct (decide (p = metadata_path)) as [->|Hm].
    { rewrite lookup_insert_eq, Hfs1, lookup_insert_eq. split; eauto. }
    rewrite lookup_insert_ne by congruence.
    destruct (decide (p = email_path)) as [->|He].
    { rewrite lookup_insert_eq, Hfs1, lookup_insert_ne, lookup_insert_eq by congruence.
      split; eauto. }
    rewrite lookup_insert_ne by congruence.
    split; intros [c Hc]; exists c; apply (dirs_added_file _ _ p c Hbase2); exact Hc.
Qed.

End Store.

(** C10 on a recipient with a ['/']: the directory name the code builds
    replaces ['@'] and ['.'] and keeps ['/'], so a valid recipient can name
    a path below the directory of another mailbox, and the delivery puts
    its two files there. *)
Lemma deliver_to_mailbox_inside_other_mailbox :
  let w1 := snd (Sample.deliver Sample.ticking "a@x.com" "s@x.com" "hi" "raw"
                   Sample.empty_world) in
  let out := Sample.deliver Sample.ticking "a_at_x_com/q@y.z" "s@x.com" "hi" "raw" w1 in
  let p := "mailboxes/a_at_x_com/q_at_y_z/email_2.eml" in
  validate_email "a_at_x_com/q@y.z" = Ok true /\
  fst out = Ok tt /\
  fs w1 !! path_join "mailboxes" (encode "a@x.com") = Some Dir /\
  path_join "mailboxes" (encode "a_at_x_com/q@y.z")
    <> path_join "mailboxes" (encode "a@x.com") /\
  PyStr.startswith (path_join "mailboxes" (encode "a@x.com") +:+ "/") p = true /\
  fs w1 !! p = None /\
  fs (snd out) !! p = Some (File (Bytes "raw")).
Proof.
  repeat split; try (vm_compute; reflexivity). vm_compute. discriminate.
Qed.

(** A recipient that starts with ['/'] leaves the mailbox directory
    altogether: [os.path.join] drops [mailbox_dir] before an absolute
    name. *)
Example deliver_to_mailbox_outside_mailbox_dir :
  let out := Sample.deliver Sample.ticking "/tmp/evil@y.z" "s@x.com" "hi" "raw"
               Sample.empty_world in
  validate_email "/tmp/evil@y.z" = Ok true /\
  fst out = Ok tt /\
  fs (snd out) !! "/tmp/evil_at_y_z/email_0.eml" = Some (File (Bytes "raw")) /\
  fs (snd out) !! "mailboxes" = None.
Proof. repeat split; vm_compute; reflexivity. Qed.

(** The same claim on a clock that stands still: the second delivery to a
    mailbox returns and adds no file, it overwrites the two of the first. *)
Lemma deliver_to_mailbox_same_instant :
  let w1 := snd (Sample.deliver Sample.frozen "a@x.com" "s@x.com" "one" "first"
                   Sample.empty_world) in
  let out := Sample.deliver Sample.frozen "a@x.com" "s@x.com" "two" "second" w1 in
  fst out = Ok tt /\
  dom (fs (snd out)) = dom (fs w1) /\
  fs w1 !! "mailboxes/a_at_x_com/email_0.eml" = Some (File (Bytes "first")) /\
  fs (snd out) !! "mailboxes/a_at_x_com/email_0.eml" = Some (File (Bytes "second")).
Proof. repeat split; vm_compute; reflexivity. Qed.

(** The encoding leaves ['/'] alone: the mailbox of an address without
    ['/'] is a direct child of the mailbox directory. *)
Lemma encode_keeps_slashes (a : string) :
  PyStr.count "/" (encode a) = PyStr.count "/" a.
Proof.
  induction a as [|c s IH]; [reflexivity|].
  rewrite encode_cons, count_app, IH. unfold enc_char.
  destruct (Ascii.eqb_spec c "@") as [->|_]; [reflexivity|].
  destruct (Ascii.eqb_spec c ".") as [->|_]; [reflexivity|].
  cbn [PyStr.count]. lia.
Qed.

(** ** Composition *)

Section Compose.

Variable datetime : Type.
Variable clock : nat -> datetime.
Variable strftime : string -> datetime -> string.
Variable str_of_list : list string -> string.
Variable b64encode : string -> string.
Variable json_dumps : dict -> string.

Let _attach_file := Smtp._attach_file b64encode json_dumps.
Let attach_all := Smtp.attach_all b64encode json_dumps.
Let create_email := Smtp.create_email datetime clock strftime str_of_list b64encode json_dumps.
Let attachment_of := Smtp.attachment_of b64encode json_dumps.

Lemma attach_all_missing (msg : mime) (p : string) (l : list string) (w1 : world) :
  fs w1 !! p = None ->
  attach_all msg (p :: l) w1
  = attach_all msg l
      (snd (log_at WARNING ("Attachment file not found: " +:+ p) w1)).
Proof.
  intros Hnone. unfold attach_all. cbn [Smtp.attach_all].
  unfold bind at 1. unfold path_exists. rewrite Hnone. reflexivity.
Qed.

Lemma attach_all_file (msg : mime) (p : string) (c : content) (l : list string)
    (w1 : world) (pt : part) :
  fs w1 !! p = Some (File c) -> p ∉ denied w1 ->
  attachment_of w1 p = Some pt ->
  attach_all msg (p :: l) w1
  = attach_all (attach msg pt) l
      (snd (log_at INFO ("Attached file: " +:+ basename p) w1)).
Proof.
  intros Hfile Hperm Hpt. unfold attach_all. cbn [Smtp.attach_all].
  unfold attachment_of, Smtp.attachment_of in Hpt. rewrite Hfile in Hpt.
  injection Hpt as <-.
  unfold bind at 1. unfold path_exists. rewrite Hfile.
  replace (bool_decide (is_Some (Some (File c)))) with true
    by (symmetry; apply bool_decide_eq_true; eauto).
  unfold bind at 1, Smtp._attach_file, try_except, bind at 1, read_bytes.
  rewrite bool_decide_eq_false_2 by exact Hperm. rewrite Hfile.
  destruct c; reflexivity.
Qed.

Lemma attach_all_ok (w : world) (l : list string) :
  Forall (absent_or_readable w) l ->
  forall (msg : mime) (w1 : world),
    fs w1 = fs w -> denied w1 = denied w ->
    exists w2,
      attach_all msg l w1
      = (Ok (Mime (headers msg) (parts msg ++ omap (attachment_of w) l)), w2) /\
      fs w2 = fs w /\ denied w2 = denied w /\ ticks w2 = ticks w1 /\
      log w2 = log w1 ++ map (attachment_record w) l.
Proof.
  induction 1 as [|p l Hp _ IH]; intros msg w1 Hfs Hden.
  - exists w1. simpl. rewrite !app_nil_r. destruct msg; auto.
  - cbn [omap map list_omap].
    destruct Hp as [Hnone|(Hperm & c & Hfile)].
    + assert (Ha : attachment_of w p = None).
      { unfold attachment_of, Smtp.attachment_of. rewrite Hnone. reflexivity. }
      assert (Hr : attachment_record w p
                   = (WARNING, "Attachment file not found: " +:+ p)).
      { unfold attachment_record. rewrite Hnone. reflexivity. }
      rewrite Ha, Hr, attach_all_missing by congruence.
      edestruct IH as (w2 & E & F & D & T & L); [| |exists w2; rewrite E];
        [exact Hfs | exact Hden |].
      repeat split; auto. rewrite L. simpl. rewrite <- app_assoc. reflexivity.
    + destruct (attachment_of w p) as [pt|] eqn:Hpt.
      2:{ unfold attachment_of, Smtp.attachment_of in Hpt.
          rewrite Hfile in Hpt. discriminate. }
      assert (Hr : attachment_record w p
                   = (INFO, "Attached file: " +:+ basename p)).
      { unfold attachment_record. rewrite Hfile. reflexivity. }
      rewrite Hr, (attach_all_file msg p c l w1 pt); [|congruence|congruence|].
      2:{ unfold attachment_of, Smtp.attachment_of in *.
          rewrite Hfs. exact Hpt. }
      edestruct IH as (w2 & E & F & D & T & L); [| |exists w2; rewrite E];
        [exact Hfs | exact Hden |].
      simpl. rewrite <- app_assoc.
      repeat split; auto. rewrite L. simpl. rewrite <- app_assoc. reflexivity.
Qed.

(** C7, as the code has it: an attachment path at which nothing exists is
    skipped with a warning, and composing returns the message with the
    body followed by the files that are there, in order, as long as each
    path that exists is a file that can be read. *)
Theorem create_email_skips_missing (sender : string) (recipients : recipients_arg)
    (subject body : string) (attachments : list string) (w : world) :
  Forall (absent_or_readable w) attachments ->
  exists msg w',
    create_email sender recipients subject body (Some attachments) w = (Ok msg, w') /\
    parts msg = MIMEText body "plain" :: omap (attachment_of w) attachments /\
    log w' = log w ++ map (attachment_record w) attachments ++
             [(INFO, "Email created - From: " +:+ sender +:+ ", To: "
                     +:+ str_of_recipients str_of_list recipients
                     +:+ ", Subject: " +:+ subject)] /\
    fs w' = fs w.
Proof.
  intros Hall.
  unfold create_email, Smtp.create_email, try_except.
  unfold bind at 1. unfold now at 1.
  set (w1 := World (fs w) (denied w) (S (ticks w)) (log w) (gui_log_queue w) (stdout w)).
  set (msg0 := Mime _ _).
  destruct attachments as [|p l].
  - exists msg0, (snd (log_at INFO ("Email created - From: " +:+ sender +:+ ", To: "
                        +:+ str_of_recipients str_of_list recipients
                        +:+ ", Subject: " +:+ subject) w1)).
    repeat split.
  - destruct (attach_all_ok w (p :: l) Hall msg0 w1 eq_refl eq_refl)
      as (w2 & E & F & D & T & L).
    unfold bind at 1. cbv iota beta. fold attach_all. rewrite E.
    eexists _, _. split; [reflexivity|]. simpl. rewrite L.
    repeat split; auto. rewrite <- app_assoc. reflexivity.
Qed.

(** The message is the same whether the single recipient comes as a string
    or in a list; only the log line differs. *)
Lemma create_email_single (sender r subject body : string)
    (attachments : option (list string)) (w : world) :
  fst (create_email sender (RStr r) subject body attachments w)
  = fst (create_email sender (RList [r]) subject body attachments w).
Proof.
  unfold create_email, Smtp.create_email, try_except, bind, now.
  cbn [PyStr.join].
  destruct attachments as [[|p l]|]; try reflexivity.
  cbv iota beta.
  destruct (Smtp.attach_all b64encode json_dumps _ (p :: l) _) as [[m|e] w2];
    reflexivity.
Qed.

End Compose.

(** ** Sending *)

Section Send.

Variable datetime : Type.
Variable clock : nat -> datetime.
Variable strftime : string -> datetime -> string.
Variable str_of_list : list string -> string.
Variable b64encode : string -> string.
Variable as_string : mime -> result string.
Variable json_dumps : dict -> string.
Variable smtp_connect : string -> nat -> result unit.
Variable smtp_sendmail : string -> nat -> string -> list string -> string -> result unit.
Variable smtp_quit : string -> nat -> result unit.
Variable stdout_encoding : encoding.
Variable server_host : string.
Variable server_port : nat.

Let send_email :=
  Smtp.send_email datetime clock strftime str_of_list b64encode as_string json_dumps
             smtp_connect smtp_sendmail smtp_quit stdout_encoding server_host server_port.

(** The validation loop returns only when every recipient is valid. *)
Lemma check_recipients_ok (l : list string) (w w' : world) :
  for_each l check_recipient w = (Ok tt, w') ->
  Forall (fun r => validate_email r = Ok true) l.
Proof.
  revert w. induction l as [|r l IH]; intros w H; [constructor|].
  cbn [for_each] in H. unfold bind at 1 in H.
  destruct (check_recipient r w) as [[[]|e] w1] eqn:Hc; [|discriminate].
  constructor; [|eapply IH, H].
  unfold check_recipient, bind, lift in Hc.
  destruct (validate_email r) as [[|]|e]; try discriminate. reflexivity.
Qed.

(** C9: a single recipient given as a string is sent exactly as the
    one-element list holding it: same checks, same message, same result
    and the same effects. *)
Theorem send_email_single_string (sender r subject body : string)
    (attachments : option (list string)) (w : world) :
  send_email sender (RStr r) subject body attachments w
  = send_email sender (RList [r]) subject body attachments w /\
  fst (create_email datetime clock strftime str_of_list b64encode json_dumps
         sender (RStr r) subject body attachments w)
  = fst (create_email datetime clock strftime str_of_list b64encode json_dumps
           sender (RList [r]) subject body attachments w).
Proof.
  split; [reflexivity | apply create_email_single].
Qed.

End Send.

(** ** Composition and sending on concrete inputs *)

Lemma create_email_skips_missing_witness :
  exists msg w',
    Sample.compose "a@x.com" (RList ["b@y.com"]) "Hi" "body"
      (Some ["/missing/file.txt"]) Sample.desk = (Ok msg, w') /\
    parts msg = [MIMEText "body" "plain"] /\
    log w' = [(WARNING, "Attachment file not found: /missing/file.txt");
              (INFO, "Email created - From: a@x.com, To: [b@y.com], Subject: Hi")].
Proof.
  destruct (create_email_skips_missing nat Sample.ticking Sample.strftime
              Sample.str_of_list (fun b => b) (fun d => "")
              "a@x.com" (RList ["b@y.com"]) "Hi" "body"
              ["/missing/file.txt"] Sample.desk) as (msg & w' & Hrun & Hparts & Hlog & _).
  - constructor; [left; reflexivity | constructor].
  - exists msg, w'. split; [exact Hrun|]. split; [exact Hparts | exact Hlog].
Defined.

(** C7, as stated, fails: a path that exists and is not a readable file (a
    directory, or a file the process may not open) makes composing raise. *)
Lemma create_email_raises_on_directory :
  fst (Sample.compose "a@x.com" (RList ["b@y.com"]) "Hi" "body"
         (Some ["/home/u/reports"; "/home/u/note.txt"]) Sample.desk)
  = Raise (Exn OSError "[Errno 21] Is a directory: /home/u/reports").
Proof. vm_compute. reflexivity. Qed.

Lemma create_email_raises_on_unreadable :
  fst (Sample.compose "a@x.com" (RList ["b@y.com"]) "Hi" "body"
         (Some ["/home/u/secret.txt"]) Sample.desk)
  = Raise (Exn OSError "[Errno 13] Permission denied: /home/u/secret.txt").
Proof. vm_compute. reflexivity. Qed.

(** C8 on a terminal whose encoding is ASCII.  With an invalid sender the
    handler logs the error and prints its line, which starts with a cross
    mark, outside any [try]: the print raises and the exception leaves
    [send_email].  With valid addresses the message is sent, the print of
    the check mark raises inside the [try], and the handler's own print
    raises in its turn. *)
Lemma send_email_raises_on_ascii_stdout :
  fst (Sample.send_on Sample.ascii_only Sample.transport_ok "not-an-address"
         (RList ["b@y.com"]) "Hi" "body" None Sample.empty_world)
  = Raise (Exn UnicodeEncodeError "'ascii' codec can't encode character") /\
  fst (Sample.send_on Sample.ascii_only Sample.transport_ok "a@x.com"
         (RList ["b@y.com"]) "Hi" "body" None Sample.empty_world)
  = Raise (Exn UnicodeEncodeError "'ascii' codec can't encode character").
Proof. split; vm_compute; reflexivity. Qed.

Example send_email_sent :
  fst (Sample.send Sample.transport_ok "a@x.com" (RStr "b@y.com") "Hi" "body" None
         Sample.empty_world) = Ok true.
Proof. vm_compute. reflexivity. Qed.

Example send_email_refused :
  fst (Sample.send Sample.transport_refused "a@x.com" (RStr "b@y.com") "Hi" "body" None
         Sample.empty_world) = Ok false.
Proof. vm_compute. reflexivity. Qed.

Example send_email_invalid_recipient :
  fst (Sample.send Sample.transport_ok "a@x.com" (RList ["b@y.com"; "nobody"]) "Hi" "body"
         None Sample.empty_world) = Ok false.
Proof. vm_compute. reflexivity. Qed.

(** ** Listing a mailbox *)

Section Listing.

Lemma ascii_compare_refl (a : ascii) : Ascii.compare a a = Eq.
Proof. unfold Ascii.compare. apply N.compare_refl. Qed.

Lemma string_compare_refl (s : string) : String.compare s s = Eq.
Proof.
  induction s as [|a s IH]; [reflexivity|].
  simpl. rewrite ascii_compare_refl. exact IH.
Qed.

Lemma string_ltb_irrefl (s : string) : String.ltb s s = false.
Proof. unfold String.ltb. rewrite string_compare_refl. reflexivity. Qed.

Lemma string_ltb_leb (s t : string) : String.ltb s t = true -> String.leb s t = true.
Proof. unfold String.ltb, String.leb. destruct (String.compare s t); easy. Qed.

Lemma string_not_ltb_leb (s t : string) :
  String.ltb s t = false -> String.leb t s = true.
Proof.
  unfold String.ltb, String.leb. rewrite (String.compare_antisym t s).
  destruct (String.compare s t); simpl; easy.
Qed.

Lemma string_compare_trans (s t u : string) :
  String.compare s t <> Gt -> String.compare t u <> Gt -> String.compare s u <> Gt.
Proof.
  revert t u. induction s as [|x s IH]; intros [|y t] [|z u]; simpl; try easy.
  unfold Ascii.compare.
  destruct (N.compare_spec (N_of_ascii x) (N_of_ascii y)) as [E1|L1|G1];
    destruct (N.compare_spec (N_of_ascii y) (N_of_ascii z)) as [E2|L2|G2];
    destruct (N.compare_spec (N_of_ascii x) (N_of_ascii z)) as [E3|L3|G3];
    try easy; try lia.
  apply IH.
Qed.

Lemma string_leb_trans (s t u : string) :
  String.leb s t = true -> String.leb t u = true -> String.leb s u = true.
Proof.
  unfold String.leb. intros H1 H2.
  pose proof (string_compare_trans s t u) as H.
  destruct (String.compare s t), (String.compare t u), (String.compare s u);
    try easy; exfalso; apply H; easy.
Qed.

Context {A : Type} (key : A -> string).

Let ge (a b : A) : Prop := String.leb (key b) (key a) = true.

Lemma insert_desc_perm (x : A) (l : list A) :
  Permutation (insert_desc key x l) (x :: l).
Proof.
  induction l as [|y l IH]; simpl; [reflexivity|].
  destruct (String.ltb (key x) (key y)); [|reflexivity].
  rewrite IH. apply perm_swap.
Qed.

Lemma sort_reverse_perm (l : list A) : Permutation (sort_reverse key l) l.
Proof.
  induction l as [|x l IH]; simpl; [reflexivity|].
  rewrite insert_desc_perm, IH. reflexivity.
Qed.

Lemma insert_desc_Forall (P : A -> Prop) (x : A) (l : list A) :
  P x -> Forall P l -> Forall P (insert_desc key x l).
Proof.
  intros Hx Hl. induction Hl as [|y l Hy Hl IH]; simpl.
  - constructor; [exact Hx | constructor].
  - destruct (String.ltb (key x) (key y)); repeat constructor; assumption.
Qed.

Lemma insert_desc_sorted (x : A) (l : list A) :
  StronglySorted ge l -> StronglySorted ge (insert_desc key x l).
Proof.
  induction 1 as [|y l Hs IH Hy]; simpl.
  - repeat constructor.
  - destruct (String.ltb (key x) (key y)) eqn:Hlt.
    + constructor; [exact IH|].
      apply insert_desc_Forall; [apply string_ltb_leb, Hlt | exact Hy].
    + apply string_not_ltb_leb in Hlt.
      constructor; [constructor; assumption|].
      constructor; [exact Hlt|].
      eapply Forall_impl; [exact Hy|].
      intros z Hz. unfold ge in *. eapply string_leb_trans; eassumption.
Qed.

Lemma sort_reverse_sorted (l : list A) : StronglySorted ge (sort_reverse key l).
Proof.
  induction l as [|x l IH]; simpl; [constructor | apply insert_desc_sorted, IH].
Qed.

(** The element inserted never passes one with its own key. *)
Lemma insert_desc_stable (k : string) (x : A) (l : list A) :
  List.filter (fun a => String.eqb (key a) k) (insert_desc key x l)
  = List.filter (fun a => String.eqb (key a) k) (x :: l).
Proof.
  induction l as [|y l IH]; [reflexivity|].
  cbn [insert_desc].
  destruct (String.ltb (key x) (key y)) eqn:Hlt; [|reflexivity].
  cbn [List.filter] in *. rewrite IH.
  destruct (String.eqb_spec (key x) k) as [Hx|_]; [|reflexivity].
  destruct (String.eqb_spec (key y) k) as [Hy|_]; [|reflexivity].
  rewrite Hx, Hy, string_ltb_irrefl in Hlt. discriminate.
Qed.

Lemma sort_reverse_stable (k : string) (l : list A) :
  List.filter (fun a => String.eqb (key a) k) (sort_reverse key l)
  = List.filter (fun a => String.eqb (key a) k) l.
Proof.
  induction l as [|x l IH]; [reflexivity|].
  cbn [sort_reverse]. rewrite insert_desc_stable.
  cbn [List.filter]. rewrite IH. reflexivity.
Qed.

End Listing.

Section Records.

Variable json_loads : string -> result dict.

(** The loop of [load_emails] collects the records in the order of the
    listing. *)
Lemma read_metadata_order (entries : list (string * node)) (emails : list dict) :
  read_metadata json_loads entries = Ok emails ->
  emails = listed_records json_loads entries.
Proof.
  revert emails. induction entries as [|[file n] rest IH]; intros emails H.
  - injection H as <-. reflexivity.
  - cbn [read_metadata] in H. unfold listed_records. cbn [omap list_omap fst snd].
    fold (listed_records json_loads rest).
    destruct (PyStr.endswith ".json" file); [|apply IH, H].
    destruct n as [|c]; [discriminate|].
    destruct (json_load json_loads c) as [d|e]; [|discriminate].
    cbn [bind_result] in H.
    destruct (read_metadata json_loads rest) as [l|e]; [|discriminate].
    injection H as <-. rewrite (IH l eq_refl). reflexivity.
Qed.

(** C6, as the code has it: the records come out by timestamp, newest
    first, and records with equal timestamps keep the order in which the
    directory listing gave them (the sort is stable; no other key is used). *)
Theorem load_emails_newest_first (entries : list (string * node)) (emails : list dict) :
  read_metadata json_loads entries = Ok emails ->
  exists records,
    load_emails json_loads entries = Ok records /\
    StronglySorted newer_first records /\
    Permutation records (listed_records json_loads entries) /\
    forall t, List.filter (stamped t) records
              = List.filter (stamped t) (listed_records json_loads entries).
Proof.
  intros H. unfold load_emails. rewrite H. cbn [bind_result].
  apply read_metadata_order in H. subst emails.
  eexists. split; [reflexivity|]. split; [|split].
  - apply (sort_reverse_sorted timestamp_key).
  - apply sort_reverse_perm.
  - intros t. apply (sort_reverse_stable timestamp_key).
Qed.

End Records.

Lemma load_emails_newest_first_witness :
  exists records,
    load_emails Sample.json_loads Sample.listing = Ok records /\
    StronglySorted newer_first records /\
    Permutation records [Sample.record_b; Sample.record_a; Sample.record_c].
Proof.
  destruct (load_emails_newest_first Sample.json_loads Sample.listing
              [Sample.record_b; Sample.record_a; Sample.record_c] eq_refl)
    as (records & Hrun & Hsorted & Hperm & _).
  exists records. split; [exact Hrun|]. split; [exact Hsorted | exact Hperm].
Defined.

(** C6, as stated, fails: two records with one timestamp are shown in the
    order of the directory listing, here against the order of their
    filenames, and the other listing order gives the other result. *)
Lemma load_emails_ties_follow_listing :
  let b := ("metadata_b.json", File (Json Sample.record_b)) in
  let a := ("metadata_a.json", File (Json Sample.record_a)) in
  timestamp_key Sample.record_a = timestamp_key Sample.record_b /\
  String.ltb (dict_get Sample.record_a "filename" "")
             (dict_get Sample.record_b "filename" "") = true /\
  load_emails Sample.json_loads [b; a] = Ok [Sample.record_b; Sample.record_a] /\
  load_emails Sample.json_loads [a; b] = Ok [Sample.record_a; Sample.record_b].
Proof. repeat split. Qed.

(** * Further properties of the code *)

(** ** The address codec, beyond the round trip *)

Section CodecMore.

Lemma encode_app (s t : string) : encode (s +:+ t) = encode s +:+ encode t.
Proof.
  induction s as [|c s IH]; [reflexivity|].
  cbn [String.append]. rewrite !encode_cons, IH. apply append_assoc.
Qed.

Lemma enc_char_count (x c : ascii) :
  x <> "_"%char -> x <> "a"%char -> x <> "t"%char ->
  PyStr.count x (enc_char c) = if Ascii.eqb c x then
                                 if Ascii.eqb c "@" then 0
                                 else if Ascii.eqb c "." then 0 else 1
                               else 0.
Proof.
  intros Hu Ha Ht. unfold enc_char.
  destruct (Ascii.eqb_spec c "@") as [->|Hat].
  { cbn [PyStr.count].
    apply not_eq_sym, Ascii.eqb_neq in Hu, Ha, Ht. rewrite Hu, Ha, Ht.
    destruct (Ascii.eqb "@" x); reflexivity. }
  destruct (Ascii.eqb_spec c ".") as [->|Hdot].
  { cbn [PyStr.count]. apply not_eq_sym, Ascii.eqb_neq in Hu. rewrite Hu.
    destruct (Ascii.eqb "." x); reflexivity. }
  cbn [PyStr.count]. destruct (Ascii.eqb c x); reflexivity.
Qed.

Lemma encode_has_no_at (a : string) : PyStr.count "@" (encode a) = 0.
Proof.
  induction a as [|c s IH]; [reflexivity|].
  rewrite encode_cons, count_app, IH, enc_char_count by discriminate.
  destruct (Ascii.eqb_spec c "@") as [->|]; reflexivity.
Qed.

Lemma encode_has_no_dot (a : string) : PyStr.count "." (encode a) = 0.
Proof.
  induction a as [|c s IH]; [reflexivity|].
  rewrite encode_cons, count_app, IH, enc_char_count by discriminate.
  destruct (Ascii.eqb_spec c ".") as [->|]; [reflexivity|].
  destruct (Ascii.eqb c "@"); reflexivity.
Qed.

(** A match of the token at the head of a string, made explicit. *)
Lemma token_at_head (d : string) :
  PyStr.startswith "_at_" d = true ->
  exists d', d = "_at_" +:+ d' /\
             PyStr.replace "_at_" "@" d = "@" +:+ PyStr.replace "_at_" "@" d'.
Proof.
  destruct d as [|c1 d]; [discriminate|]. cbn [PyStr.startswith].
  destruct (Ascii.eqb_spec "_" c1) as [<-|]; [|discriminate].
  destruct d as [|c2 d]; [discriminate|].
  destruct (Ascii.eqb_spec "a" c2) as [<-|]; [|discriminate].
  destruct d as [|c3 d]; [discriminate|].
  destruct (Ascii.eqb_spec "t" c3) as [<-|]; [|discriminate].
  destruct d as [|c4 d']; [discriminate|].
  destruct (Ascii.eqb_spec "_" c4) as [<-|]; [|discriminate].
  intros _. exists d'. split; reflexivity.
Qed.

(** Putting the tokens back undoes the first stage of [decode] on a name
    without ['@'], and that stage brings in no dot. *)
Lemma retoken (n : nat) (d : string) :
  String.length d <= n -> PyStr.count "@" d = 0 ->
  PyStr.replace "@" "_at_" (PyStr.replace "_at_" "@" d) = d /\
  PyStr.count "." (PyStr.replace "_at_" "@" d) = PyStr.count "." d.
Proof.
  revert d. induction n as [|n IH]; intros d Hlen Hat.
  { destruct d; [split; reflexivity | simpl in Hlen; lia]. }
  destruct d as [|c s]; [split; reflexivity|].
  destruct (PyStr.startswith "_at_" (String c s)) eqn:Hhit.
  - destruct (token_at_head _ Hhit) as (d' & Hd & Hrep).
    rewrite Hrep, Hd.
    assert (Hlen' : String.length d' <= n).
    { rewrite Hd in Hlen. simpl in Hlen. lia. }
    assert (Hat' : PyStr.count "@" d' = 0).
    { rewrite Hd in Hat. simpl in Hat. exact Hat. }
    destruct (IH d' Hlen' Hat') as [IH1 IH2].
    cbn [String.append]. split.
    + rewrite replace_char_cons, Ascii.eqb_refl, IH1. reflexivity.
    + cbn [PyStr.count]. rewrite IH2. reflexivity.
  - assert (Hc : Ascii.eqb c "@" = false).
    { cbn [PyStr.count] in Hat. destruct (Ascii.eqb c "@"); [discriminate | reflexivity]. }
    assert (Hat' : PyStr.count "@" s = 0).
    { cbn [PyStr.count] in Hat. rewrite Hc in Hat. exact Hat. }
    assert (Hlen' : String.length s <= n) by (simpl in Hlen; lia).
    destruct (IH s Hlen' Hat') as [IH1 IH2].
    assert (Hmiss : PyStr.replace "_at_" "@" (String c s)
                    = String c (PyStr.replace "_at_" "@" s)).
    { unfold PyStr.replace. apply replace_from_miss, Hhit. }
    rewrite Hmiss. split.
    + rewrite replace_char_cons, (Ascii.eqb_sym "@" c), Hc, IH1. reflexivity.
    + cbn [PyStr.count]. rewrite IH2. reflexivity.
Qed.

(** On a string without dots, dotting the underscores and encoding again
    only puts the tokens back. *)
Lemma encode_undot (s : string) :
  PyStr.count "." s = 0 ->
  encode (PyStr.replace "_" "." s) = PyStr.replace "@" "_at_" s.
Proof.
  induction s as [|c s IH]; [reflexivity|]. cbn [PyStr.count]. intros Hdot.
  destruct (Ascii.eqb_spec c ".") as [->|Hc]; [discriminate|].
  rewrite !replace_char_cons, encode_app, IH by exact Hdot. f_equal.
  destruct (Ascii.eqb_spec "_" c) as [<-|Hus]; [reflexivity|].
  rewrite encode_cons. unfold enc_char. rewrite (Ascii.eqb_sym "@" c).
  destruct (Ascii.eqb c "@"); [reflexivity|].
  apply Ascii.eqb_neq in Hc. rewrite Hc. reflexivity.
Qed.

Lemma encode_decode_name (d : string) :
  PyStr.count "@" d = 0 -> PyStr.count "." d = 0 -> encode (decode d) = d.
Proof.
  intros Hat Hdot. unfold decode.
  destruct (retoken (String.length d) d (le_n _) Hat) as [H1 H2].
  rewrite encode_undot by (rewrite H2; exact Hdot). exact H1.
Qed.

End CodecMore.

(** X1: an encoded address contains neither ['@'] nor ['.'], and exactly
    the ['/'] of the address: the encoding removes the two characters it
    targets and leaves path separators in place. *)
Theorem encode_alphabet (a : string) :
  PyStr.count "@" (encode a) = 0 /\
  PyStr.count "." (encode a) = 0 /\
  PyStr.count "/" (encode a) = PyStr.count "/" a.
Proof.
  split; [apply encode_has_no_at|]. split; [apply encode_has_no_dot|].
  induction a as [|c s IH]; [reflexivity|].
  rewrite encode_cons, count_app, IH, enc_char_count by discriminate.
  cbn [PyStr.count].
  destruct (Ascii.eqb_spec c "/") as [->|]; reflexivity.
Qed.

(** X2: a directory name without ['@'] and ['.'] is found again: encoding
    the mailbox name the GUI shows for it gives the directory name back. *)
Theorem encode_decode (d : string) :
  PyStr.count "@" d = 0 -> PyStr.count "." d = 0 -> encode (decode d) = d.
Proof. apply encode_decode_name. Qed.

Lemma encode_decode_witness : encode (decode "a_b_at_x_com") = "a_b_at_x_com".
Proof. apply (encode_decode "a_b_at_x_com"); reflexivity. Defined.

(** X3: whatever the address, the mailbox name shown for its directory
    encodes to that same directory, so the GUI opens the directory the
    server wrote to even when the name shown differs from the address. *)
Theorem encode_decode_encode (a : string) : encode (decode (encode a)) = encode a.
Proof. apply encode_decode_name; [apply encode_has_no_at | apply encode_has_no_dot]. Qed.

(** X4: an address and the one obtained by writing ['_'] for its dots share
    a mailbox: the encoding is not injective. *)
Theorem encode_dots_alias (a : string) : encode (PyStr.replace "." "_" a) = encode a.
Proof.
  induction a as [|c s IH]; [reflexivity|].
  rewrite replace_char_cons, encode_app, IH, (encode_cons c s). f_equal.
  destruct (Ascii.eqb_spec "." c) as [<-|Hne]; [reflexivity|].
  rewrite encode_cons. apply append_empty.
Qed.

(** X5: on the addresses without ['_'] and without [".at"] before ['.']
    or ['@'], distinct addresses get distinct mailbox identifiers. *)
Theorem encode_injective (a b : string) :
  codec_safe a -> codec_safe b -> encode a = encode b -> a = b.
Proof.
  intros Ha Hb Heq.
  assert (Hd : forall x, codec_safe x -> decode (encode x) = x).
  { intros x Hx. unfold decode. rewrite decode_tokens by exact Hx.
    apply decode_dots, Hx. }
  rewrite <- (Hd a Ha), <- (Hd b Hb), Heq. reflexivity.
Qed.

Lemma encode_injective_witness :
  PyStr.replace "," "." "bob,smith@x,com" = "bob.smith@x.com".
Proof.
  apply (encode_injective (PyStr.replace "," "." "bob,smith@x,com") "bob.smith@x.com");
    repeat split; reflexivity.
Defined.

(** ** Paths *)

Section Paths.

Lemma length_append (s t : string) :
  String.length (s +:+ t) = String.length s + String.length t.
Proof. induction s as [|c s IH]; simpl; [reflexivity | rewrite IH; reflexivity]. Qed.

(** Strings that end in different characters differ. *)
Lemma ends_differ (a b : ascii) (s s' : string) :
  a <> b -> s +:+ String a EmptyString <> s' +:+ String b EmptyString.
Proof.
  intros Hab. revert s'. induction s as [|c s IH]; intros [|c' s']; simpl.
  - congruence.
  - intros [= _ H]. destruct s'; discriminate.
  - intros [= _ H]. destruct s; discriminate.
  - intros [= _ H]. exact (IH _ H).
Qed.

Lemma path_join_shape (d x : string) :
  PyStr.startswith "/" x = false -> exists P, path_join d x = P +:+ x.
Proof.
  intros Hx. unfold path_join. rewrite Hx.
  destruct (String.eqb d "" || PyStr.endswith "/" d).
  - exists d. reflexivity.
  - exists (d +:+ "/"). apply append_assoc.
Qed.

(** An entry of a directory is not the directory. *)
Lemma path_join_longer (d x : string) :
  PyStr.startswith "/" x = false -> x <> EmptyString -> path_join d x <> d.
Proof.
  intros Hx Hne Heq. apply (f_equal String.length) in Heq.
  unfold path_join in Heq. rewrite Hx in Heq.
  destruct x as [|c x]; [congruence|].
  destruct (String.eqb d "" || PyStr.endswith "/" d);
    rewrite ?length_append in Heq; simpl in Heq; lia.
Qed.

(** A content file and a metadata file never share a path. *)
Lemma eml_not_json (d1 d2 t1 t2 : string) :
  path_join d1 ("email_" +:+ t1 +:+ ".eml")
  <> path_join d2 ("metadata_" +:+ t2 +:+ ".json").
Proof.
  destruct (path_join_shape d1 ("email_" +:+ t1 +:+ ".eml") eq_refl) as [P1 ->].
  destruct (path_join_shape d2 ("metadata_" +:+ t2 +:+ ".json") eq_refl) as [P2 ->].
  replace (P1 +:+ "email_" +:+ t1 +:+ ".eml")
    with ((P1 +:+ "email_" +:+ t1 +:+ ".em") +:+ "l").
  2:{ rewrite <- !append_assoc. reflexivity. }
  replace (P2 +:+ "metadata_" +:+ t2 +:+ ".json")
    with ((P2 +:+ "metadata_" +:+ t2 +:+ ".jso") +:+ "n").
  2:{ rewrite <- !append_assoc. reflexivity. }
  apply ends_differ. discriminate.
Qed.

End Paths.

(** ** The delivery engine: what an answer means *)

Section DeliveryMore.

Variable datetime : Type.
Variable clock : nat -> datetime.
Variable strftime : string -> datetime -> string.
Variable isoformat : datetime -> string.
Variable message : Type.
Variable decode_utf8 : string -> string.
Variable parsestr : string -> result message.
Variable msg_get : message -> string -> string -> result string.
Variable str_of_list : list string -> string.
Variable mailbox_dir : string.

Let deliver_to_mailbox := Smtp.deliver_to_mailbox datetime clock strftime isoformat mailbox_dir.
Let deliver_or_warn := Smtp.deliver_or_warn datetime clock strftime isoformat mailbox_dir.
Let deliver_all := Smtp.deliver_all datetime clock strftime isoformat mailbox_dir.
Let receive :=
  Smtp.receive datetime clock strftime message decode_utf8 parsestr msg_get str_of_list.
Let handle_DATA :=
  Smtp.handle_DATA datetime clock strftime isoformat message decode_utf8 parsestr msg_get
                   str_of_list mailbox_dir.

(** The mailbox directory [d] holds a content file with the bytes [data]. *)
Let stored (d data : string) (m : gmap string node) : Prop :=
  exists ts, m !! path_join d ("email_" +:+ ts +:+ ".eml") = Some (File (Bytes data)).

(** What one turn of the loop leaves of the store, when it returns. *)
Lemma deliver_or_warn_ok (mailfrom subject data r : string) (w w' : world) :
  deliver_or_warn mailfrom subject data r w = (Ok tt, w') ->
  (validate_email r = Ok false /\ fs w' = fs w) \/
  (validate_email r = Ok true /\
   exists w1, deliver_to_mailbox r mailfrom subject data w = (Ok tt, w1) /\
              fs w' = fs w1).
Proof.
  intros H. destruct (validate_email r) as [[|]|e] eqn:Hv.
  - right. split; [reflexivity|].
    rewrite (deliver_or_warn_valid datetime clock strftime isoformat mailbox_dir) in H
      by exact Hv.
    fold deliver_to_mailbox in H.
    destruct (deliver_to_mailbox r mailfrom subject data w) as [[[]|e] w1];
      [|discriminate].
    exists w1. split; [reflexivity|].
    unfold bind, log_at, _gui_log in H. simpl in H.
    destruct (gui_log_queue w1); injection H as <-; reflexivity.
  - left. split; [reflexivity|].
    destruct (deliver_or_warn_invalid datetime clock strftime isoformat mailbox_dir
                mailfrom subject data r w Hv) as (w2 & E & F).
    fold deliver_or_warn in E. rewrite E in H. injection H as <-. exact F.
  - unfold deliver_or_warn, Smtp.deliver_or_warn, bind, lift in H.
    rewrite Hv in H. discriminate.
Qed.

(** A delivery of the same bytes keeps every stored copy. *)
Lemma deliver_keeps_stored (d data r mailfrom subject : string) (w w1 : world) :
  deliver_to_mailbox r mailfrom subject data w = (Ok tt, w1) ->
  stored d data (fs w) -> stored d data (fs w1).
Proof.
  intros H [ts Hts].
  apply (deliver_to_mailbox_ok datetime clock strftime isoformat mailbox_dir) in H.
  cbv zeta in H. destruct H as (base & Hbase & _ & _ & _ & _ & Hfs).
  exists ts. rewrite Hfs.
  rewrite lookup_insert_ne by (apply not_eq_sym, eml_not_json).
  match goal with
  | |- <[?ep := _]> _ !! ?p = _ => destruct (decide (ep = p)) as [->|Hne]
  end.
  - apply lookup_insert_eq.
  - rewrite lookup_insert_ne by exact Hne.
    exact (dirs_added_some _ _ _ _ Hbase Hts).
Qed.

Lemma deliver_stores (data r mailfrom subject : string) (w w1 : world) :
  deliver_to_mailbox r mailfrom subject data w = (Ok tt, w1) ->
  stored (path_join mailbox_dir (encode r)) data (fs w1).
Proof.
  intros H.
  apply (deliver_to_mailbox_ok datetime clock strftime isoformat mailbox_dir) in H.
  cbv zeta in H. destruct H as (base & _ & _ & _ & _ & _ & Hfs).
  eexists. rewrite Hfs.
  rewrite lookup_insert_ne by (apply not_eq_sym, eml_not_json).
  apply lookup_insert_eq.
Qed.

Lemma loop_stores (mailfrom subject data : string) (l : list string) (w w' : world) :
  for_each l (deliver_or_warn mailfrom subject data) w = (Ok tt, w') ->
  (forall d, stored d data (fs w) -> stored d data (fs w')) /\
  (forall r, r ∈ l -> validate_email r = Ok true ->
             stored (path_join mailbox_dir (encode r)) data (fs w')).
Proof.
  revert w. induction l as [|x l IH]; intros w H.
  - injection H as <-. split; [auto|]. intros r Hr. inversion Hr.
  - cbn [for_each] in H. unfold bind at 1 in H.
    destruct (deliver_or_warn mailfrom subject data x w) as [[[]|e] w1] eqn:Hx;
      [|discriminate].
    destruct (IH w1 H) as [Hkeep Hall].
    assert (Hstep : forall d, stored d data (fs w) -> stored d data (fs w1)).
    { intros d Hd. destruct (deliver_or_warn_ok _ _ _ _ _ _ Hx)
        as [[_ F]|(_ & w2 & Hdel & F)]; rewrite F; [exact Hd|].
      eapply deliver_keeps_stored; eassumption. }
    split; [auto|].
    intros r Hr Hv. apply elem_of_cons in Hr as [->|Hr]; [|auto].
    apply Hkeep.
    destruct (deliver_or_warn_ok _ _ _ _ _ _ Hx) as [[Hinv _]|(_ & w2 & Hdel & F)].
    + congruence.
    + rewrite F. eapply deliver_stores, Hdel.
Qed.

(** X6: [handle_DATA] never raises: whatever the envelope, the parser and
    the store do, it returns one of its two answer lines. *)
Theorem handle_DATA_answers (peer : string) (env : envelope) (w : world) :
  exists line w',
    handle_DATA peer env w = (Ok line, w') /\ (line = accepted \/ line = rejected).
Proof.
  unfold handle_DATA.
  rewrite (handle_DATA_steps datetime clock strftime isoformat message decode_utf8
             parsestr msg_get str_of_list mailbox_dir).
  destruct (Smtp.receive _ _ _ _ _ _ _ _ _ _ _) as [[subject|e] w0].
  - destruct (Smtp.deliver_all _ _ _ _ _ _ _ _) as [[[]|e] w1];
      unfold bind, log_at, _gui_log, ret; simpl.
    + destruct (gui_log_queue w1); eauto.
    + eauto.
  - unfold bind, log_at, ret; simpl. eauto.
Qed.

(** X7: the acceptance line is a promise kept: when [handle_DATA] answers
    ['250 Message accepted for delivery'], the mailbox directory of every
    valid recipient holds a content file with the raw bytes of the message. *)
Theorem handle_DATA_accepted_stored (peer : string) (env : envelope) (w w' : world)
    (r : string) :
  handle_DATA peer env w = (Ok accepted, w') ->
  r ∈ rcpt_tos env ->
  validate_email r = Ok true ->
  exists ts,
    fs w' !! path_join (path_join mailbox_dir (encode r)) ("email_" +:+ ts +:+ ".eml")
    = Some (File (Bytes (env_content env))).
Proof.
  unfold handle_DATA.
  rewrite (handle_DATA_steps datetime clock strftime isoformat message decode_utf8
             parsestr msg_get str_of_list mailbox_dir).
  intros H Hr Hv.
  destruct (Smtp.receive _ _ _ _ _ _ _ _ _ _ _) as [[subject|e] w0];
    [|unfold bind, log_at, ret in H; simpl in H; discriminate].
  destruct (Smtp.deliver_all _ _ _ _ _ _ _ _) as [[[]|e] w1] eqn:Hloop;
    [|unfold bind, log_at, ret in H; simpl in H; discriminate].
  destruct (loop_stores _ _ _ _ _ _ Hloop) as [_ Hall].
  specialize (Hall r Hr Hv).
  assert (Hfs : fs w' = fs w1).
  { unfold bind, log_at, _gui_log, ret in H. simpl in H.
    destruct (gui_log_queue w1); injection H as <-; reflexivity. }
  rewrite Hfs. exact Hall.
Qed.

End DeliveryMore.

Lemma handle_DATA_accepted_stored_witness :
  exists ts,
    fs (snd (Sample.handle Sample.ticking "peer"
               (Envelope "s@x.com" ["a@x.com"; "nobody"; "b@y.com"] "hello")
               Sample.empty_world))
    !! path_join (path_join "mailboxes" (encode "b@y.com")) ("email_" +:+ ts +:+ ".eml")
    = Some (File (Bytes "hello")).
Proof.
  apply (handle_DATA_accepted_stored nat Sample.ticking Sample.strftime Sample.isoformat
           dict (fun b => b) Sample.parsestr Sample.msg_get Sample.str_of_list
           "mailboxes" "peer"
           (Envelope "s@x.com" ["a@x.com"; "nobody"; "b@y.com"] "hello")
           Sample.empty_world _ "b@y.com").
  - vm_compute. reflexivity.
  - simpl. set_solver.
  - reflexivity.
Defined.

(** ** The mailbox store: what a delivery touches, failures and start-up *)

Section StoreMore.

Variable datetime : Type.
Variable clock : nat -> datetime.
Variable strftime : string -> datetime -> string.
Variable isoformat : datetime -> string.
Variable mailbox_dir : string.

Let deliver_to_mailbox := Smtp.deliver_to_mailbox datetime clock strftime isoformat mailbox_dir.





End StoreMore.



(** A recipient with a NUL byte passes [validate_email]; [os.makedirs]
    refuses the path with a [ValueError], which the delivery logs and
    raises. *)
Example deliver_to_mailbox_nul :
  let r := "a" +:+ String "000" "@x.com" in
  validate_email r = Ok true /\
  fst (Sample.deliver Sample.ticking r "s@x.com" "hi" "raw" Sample.empty_world)
  = Raise (Exn ValueError "embedded null byte").
Proof. split; vm_compute; reflexivity. Qed.

(** A regular file in the place of the mailbox directory: the path exists,
    no directory is made, and opening the content file fails. *)
Example deliver_to_mailbox_file_in_the_way :
  let w := World {[ "mailboxes" := Dir; "mailboxes/a_at_x_com" := File (Bytes "") ]}
                 ∅ 0 [] None [] in
  fst (Sample.deliver Sample.ticking "a@x.com" "s@x.com" "hi" "raw" w)
  = Raise (Exn OSError "[Errno 20] Not a directory: mailboxes/a_at_x_com/email_0.eml").
Proof. vm_compute. reflexivity. Qed.


(** With an empty path [os.makedirs] raises, and so does [__init__]. *)
Example handler_init_empty_path :
  fst (CustomSMTPHandler_init "" Sample.empty_world)
  = Raise (Exn OSError "[Errno 2] No such file or directory: ").
Proof. vm_compute. reflexivity. Qed.

Lemma deliver_to_mailbox_collision_witness :
  let w1 := snd (Sample.deliver Sample.frozen "a@x.com" "s@x.com" "one" "first"
                   Sample.empty_world) in
  let w2 := snd (Sample.deliver Sample.frozen "a@x.com" "s@x.com" "two" "second" w1) in
  fs w2 !! "mailboxes/a_at_x_com/email_0.eml" = Some (File (Bytes "second")).
Proof.
  intros w1 w2.
  destruct (deliver_to_mailbox_collision nat Sample.frozen Sample.strftime
              Sample.isoformat "mailboxes" "a@x.com" "s@x.com" "one" "first"
              "s@x.com" "two" "second" Sample.empty_world w1 w2) as (_ & H2 & _).
  - vm_compute. reflexivity.
  - vm_compute. reflexivity.
  - reflexivity.
  - exact H2.
Defined.

(** ** Sending: what comes back, and what does not *)

Section SendMore.

Variable datetime : Type.
Variable clock : nat -> datetime.
Variable strftime : string -> datetime -> string.
Variable str_of_list : list string -> string.
Variable b64encode : string -> string.
Variable as_string : mime -> result string.
Variable json_dumps : dict -> string.
Variable smtp_connect : string -> nat -> result unit.
Variable smtp_sendmail : string -> nat -> string -> list string -> string -> result unit.
Variable smtp_quit : string -> nat -> result unit.
Variable stdout_encoding : encoding.
Variable server_host : string.
Variable server_port : nat.

Let attach_all := Smtp.attach_all b64encode json_dumps.
Let create_email := Smtp.create_email datetime clock strftime str_of_list b64encode json_dumps.
Let send_email :=
  Smtp.send_email datetime clock strftime str_of_list b64encode as_string json_dumps
                  smtp_connect smtp_sendmail smtp_quit stdout_encoding
                  server_host server_port.





Lemma check_recipients_world (l : list string) (w : world) :
  snd (for_each l check_recipient w) = w.
Proof.
  induction l as [|r l IH]; [reflexivity|].
  cbn [for_each]. unfold bind at 1, check_recipient at 1, bind, lift.
  destruct (validate_email r) as [[|]|e]; [exact IH | reflexivity..].
Qed.



(** Every way through [send_email]: [True] after the transport took the
    message and the success mark was printed; [False] after a handler
    printed its line; an exception when the terminal cannot encode the line
    of the handler, which prints outside any [try]. *)
Lemma send_email_cases (sender : string) (recipients : recipients_arg)
    (subject body : string) (attachments : option (list string)) (w : world) :
  (exists w' msg w1 text,
      send_email sender recipients subject body attachments w = (Ok true, w') /\
      validate_email sender = Ok true /\
      Forall (fun r => validate_email r = Ok true) (recipient_list recipients) /\
      create_email sender (RList (recipient_list recipients)) subject body attachments w
      = (Ok msg, w1) /\
      smtp_connect server_host server_port = Ok tt /\
      as_string msg = Ok text /\
      smtp_sendmail server_host server_port sender (recipient_list recipients) text
      = Ok tt /\
      smtp_quit server_host server_port = Ok tt /\
      encodes stdout_encoding (nl +:+ "✓ Email sent successfully!") = true) \/
  (exists w' line,
      send_email sender recipients subject body attachments w = (Ok false, w') /\
      PyStr.contains "✗" line = true /\
      encodes stdout_encoding line = true) \/
  (exists e w' line,
      send_email sender recipients subject body attachments w = (Raise e, w') /\
      exn_cls e = UnicodeEncodeError /\
      PyStr.contains "✗" line = true /\
      encodes stdout_encoding line = false).
Proof.
  unfold send_email, Smtp.send_email, try_except.
  match goal with
  | |- context [match ?body w with _ => _ end] =>
      destruct (body w) as [[b|e] w5] eqn:Hbody
  end.
  - left. cbv zeta in Hbody. unfold bind at 1, lift at 1 in Hbody.
    destruct (validate_email sender) as [[|]|e] eqn:Hs; try discriminate.
    unfold bind at 1, ret at 1 in Hbody. unfold bind at 1 in Hbody.
    pose proof (check_recipients_world (recipient_list recipients) w) as Hw.
    destruct (for_each (recipient_list recipients) check_recipient w)
      as [[[]|e] w2] eqn:Hloop; try discriminate.
    cbn [snd] in Hw. subst w2.
    apply check_recipients_ok in Hloop.
    unfold bind at 1 in Hbody. fold create_email in Hbody.
    destruct (create_email sender (RList (recipient_list recipients)) subject body
                attachments w) as [[msg|e] w3] eqn:Hmsg; try discriminate.
    unfold bind at 1, log_at at 1 in Hbody. unfold bind at 1, lift at 1 in Hbody.
    destruct (smtp_connect server_host server_port) as [[]|e] eqn:Hc; try discriminate.
    unfold bind at 1, leaving at 1, bind at 1, lift at 1 in Hbody.
    destruct (as_string msg) as [text|e] eqn:Ha.
    2:{ destruct (smtp_quit server_host server_port); discriminate. }
    unfold lift at 1 in Hbody.
    destruct (smtp_sendmail server_host server_port sender (recipient_list recipients)
                text) as [[]|e] eqn:Ht.
    2:{ destruct (smtp_quit server_host server_port); discriminate. }
    destruct (smtp_quit server_host server_port) as [[]|e] eqn:Hq; try discriminate.
    unfold bind at 1, log_at at 1 in Hbody. unfold bind at 1, print at 1 in Hbody.
    destruct (encodes stdout_encoding (nl +:+ "✓ Email sent successfully!")) eqn:E1;
      try discriminate.
    unfold bind, print, ret in Hbody.
    repeat match type of Hbody with
           | context [encodes stdout_encoding ?l] =>
               destruct (encodes stdout_encoding l); try discriminate
           end.
    injection Hbody as <- <-.
    eexists _, msg, w3, text. repeat split; auto.
  - right.
    assert (Hh : forall msg line,
               PyStr.contains "✗" line = true ->
               (exists w' line',
                   (log_at ERROR msg ;;; print stdout_encoding line ;;; ret false) w5
                   = (Ok false, w') /\
                   PyStr.contains "✗" line' = true /\
                   encodes stdout_encoding line' = true) \/
               (exists e' w' line',
                   (log_at ERROR msg ;;; print stdout_encoding line ;;; ret false) w5
                   = (Raise e', w') /\
                   exn_cls e' = UnicodeEncodeError /\
                   PyStr.contains "✗" line' = true /\
                   encodes stdout_encoding line' = false)).
    { intros msg line Hmark. unfold bind, log_at, print, ret. cbn [encodes].
      destruct (encodes stdout_encoding line) eqn:E.
      - left. eexists _, line. repeat split; auto.
      - right. eexists _, _, line. repeat split; auto. }
    destruct (exn_cls e); apply Hh; reflexivity.
Qed.





(** X27: on a terminal that can encode neither of the two marks the code
    prints, every call of [send_email] raises [UnicodeEncodeError], also
    the one that sent its message. *)
Theorem send_email_raises_without_marks (sender : string) (recipients : recipients_arg)
    (subject body : string) (attachments : option (list string)) (w : world) :
  (forall line, PyStr.contains "✓" line = true -> encodes stdout_encoding line = false) ->
  (forall line, PyStr.contains "✗" line = true -> encodes stdout_encoding line = false) ->
  exists e w',
    send_email sender recipients subject body attachments w = (Raise e, w') /\
    exn_cls e = UnicodeEncodeError.
Proof.
  intros Hok Hko.
  destruct (send_email_cases sender recipients subject body attachments w)
    as [(w' & msg & w1 & text & _ & _ & _ & _ & _ & _ & _ & _ & Hyes)
       |[(w' & line & _ & Hmark & Hyes)|(e & w' & line & Hrun & Hcls & _)]].
  - rewrite Hok in Hyes by reflexivity. discriminate.
  - rewrite (Hko _ Hmark) in Hyes. discriminate.
  - eauto.
Qed.

End SendMore.





Lemma send_email_raises_without_marks_witness :
  exists e w',
    Sample.send_on Sample.no_marks Sample.transport_ok "a@x.com" (RList ["b@y.com"])
      "Hi" "body" None Sample.empty_world = (Raise e, w') /\
    exn_cls e = UnicodeEncodeError.
Proof.
  apply (send_email_raises_without_marks nat Sample.ticking Sample.strftime
           Sample.str_of_list (fun b => b) Sample.as_string (fun d => "")
           (fun _ _ => Ok tt) Sample.transport_ok (fun _ _ => Ok tt) Sample.no_marks
           "127.0.0.1" 1025 "a@x.com" (RList ["b@y.com"]) "Hi" "body" None
           Sample.empty_world).
  - intros line H. cbn [encodes Sample.no_marks]. rewrite H. reflexivity.
  - intros line H. cbn [encodes Sample.no_marks]. rewrite H, orb_true_r. reflexivity.
Defined.

(** ** The compose form of the GUI *)

Section ComposeForm.

Lemma add_file_keeps (f : Gui.form) (file : string) :
  Gui.in_sync f -> NoDup (Gui.attachments f) ->
  Gui.in_sync (Gui.add_file f file) /\
  NoDup (Gui.attachments (Gui.add_file f file)) /\
  forall x, x ∈ Gui.attachments (Gui.add_file f file)
            <-> x ∈ Gui.attachments f \/ x = file.
Proof.
  intros Hsync Hnd. unfold Gui.add_file.
  destruct (bool_decide (file ∈ Gui.attachments f)) eqn:Hin.
  - apply bool_decide_eq_true in Hin. repeat split; auto.
    intros [H| ->]; assumption.
  - apply bool_decide_eq_false in Hin. cbn [Gui.attachments Gui.attachment_listbox].
    split; [|split].
    + unfold Gui.in_sync in *. cbn [Gui.attachments Gui.attachment_listbox].
      rewrite Hsync, map_app. reflexivity.
    + apply NoDup_app. split; [exact Hnd|]. split; [|apply NoDup_singleton].
      intros x Hx Hx'. apply list_elem_of_singleton in Hx'. congruence.
    + intros x. rewrite elem_of_app, list_elem_of_singleton. reflexivity.
Qed.

(** X14: adding attachments keeps the listbox showing the attachment list
    and keeps the list free of repetitions; afterwards the list holds what it
    held before and the chosen files, the old entries first. *)
Theorem add_attachment_keeps (files : list string) (f : Gui.form) :
  Gui.in_sync f -> NoDup (Gui.attachments f) ->
  Gui.in_sync (Gui.add_attachment files f) /\
  NoDup (Gui.attachments (Gui.add_attachment files f)) /\
  (forall x, x ∈ Gui.attachments (Gui.add_attachment files f)
             <-> x ∈ Gui.attachments f \/ x ∈ files) /\
  exists added, Gui.attachments (Gui.add_attachment files f)
                = Gui.attachments f ++ added.
Proof.
  unfold Gui.add_attachment. revert f.
  induction files as [|file files IH]; intros f Hsync Hnd.
  - cbn [fold_left]. repeat split; auto.
    + intros [H|H]; [exact H | inversion H].
    + exists []. symmetry. apply app_nil_r.
  - cbn [fold_left].
    destruct (add_file_keeps f file Hsync Hnd) as (Hs1 & Hn1 & Hm1).
    destruct (IH _ Hs1 Hn1) as (Hs2 & Hn2 & Hm2 & added & Hpre).
    split; [exact Hs2|]. split; [exact Hn2|]. split.
    + intros x. rewrite Hm2, Hm1, elem_of_cons. tauto.
    + rewrite Hpre. unfold Gui.add_file.
      destruct (bool_decide (file ∈ Gui.attachments f)).
      * exists added. reflexivity.
      * cbn [Gui.attachments]. exists (file :: added).
        rewrite <- app_assoc. reflexivity.
Qed.

(** X15: removing the selected row never raises when the listbox shows the
    attachment list: the selected index is then an index of the list, the
    entry at that index is dropped from both, and they stay in step. *)
Theorem remove_attachment_keeps (index : nat) (rest : list nat) (f : Gui.form) :
  Gui.in_sync f ->
  index < length (Gui.attachment_listbox f) ->
  exists f',
    Gui.remove_attachment (index :: rest) f = Ok f' /\
    Gui.attachments f' = delete index (Gui.attachments f) /\
    Gui.in_sync f' /\
    (NoDup (Gui.attachments f) -> NoDup (Gui.attachments f')).
Proof.
  intros Hsync Hidx. unfold Gui.in_sync in Hsync.
  rewrite Hsync, length_map in Hidx.
  unfold Gui.remove_attachment.
  replace (Nat.ltb index (length (Gui.attachments f))) with true
    by (symmetry; apply Nat.ltb_lt; exact Hidx).
  eexists. split; [reflexivity|]. cbn [Gui.attachments Gui.attachment_listbox].
  split; [reflexivity|]. split.
  - unfold Gui.in_sync. cbn [Gui.attachments Gui.attachment_listbox].
    rewrite Hsync. symmetry. apply (list_fmap_delete basename).
  - intros Hnd. eapply sublist_NoDup; [exact Hnd | apply sublist_delete].
Qed.

End ComposeForm.

Lemma add_attachment_keeps_witness :
  Gui.attachments (Gui.add_attachment ["/a/x.txt"; "/b/y.txt"; "/a/x.txt"] (Gui.Form [] []))
  = [] ++ ["/a/x.txt"; "/b/y.txt"] /\
  Gui.in_sync (Gui.add_attachment ["/a/x.txt"; "/b/y.txt"; "/a/x.txt"] (Gui.Form [] [])).
Proof.
  destruct (add_attachment_keeps ["/a/x.txt"; "/b/y.txt"; "/a/x.txt"] (Gui.Form [] []))
    as (Hsync & _ & _ & _).
  - reflexivity.
  - constructor.
  - split; [vm_compute; reflexivity | exact Hsync].
Defined.

Lemma remove_attachment_keeps_witness :
  exists f',
    Gui.remove_attachment [1] (Gui.Form ["/a/x.txt"; "/b/y.txt"] ["x.txt"; "y.txt"]) = Ok f' /\
    Gui.attachments f' = ["/a/x.txt"].
Proof.
  destruct (remove_attachment_keeps 1 [] (Gui.Form ["/a/x.txt"; "/b/y.txt"] ["x.txt"; "y.txt"]))
    as (f' & Hrun & Hatt & _).
  - reflexivity.
  - simpl. lia.
  - exists f'. split; [exact Hrun | exact Hatt].
Defined.

(** ** The recipient field *)

Section RecipientField.

Lemma split_from_not_nil (sep : string) (k : nat) (s : string) :
  PyStr.split_from sep k s <> [].
Proof.
  revert k. induction s as [|c s IH]; intros k; simpl; [discriminate|].
  destruct k as [|k]; [|apply IH].
  destruct (PyStr.startswith sep (String c s)); [discriminate|].
  destruct (PyStr.split_from sep 0 s); discriminate.
Qed.

Lemma strip_leading_space (c : ascii) (s : string) :
  PyStr.isspace c = true -> PyStr.strip (String c s) = PyStr.strip s.
Proof.
  intros Hc. unfold PyStr.strip, PyStr.lstrip. cbn [PyStr.drop_space].
  rewrite Hc. reflexivity.
Qed.

Lemma split_comma_space (s : string) :
  map PyStr.strip (PyStr.split_from "," 0 (String " " s))
  = map PyStr.strip (PyStr.split_from "," 0 s).
Proof.
  cbn [PyStr.split_from PyStr.startswith Ascii.eqb Bool.eqb].
  destruct (PyStr.split_from "," 0 s) as [|seg rest] eqn:Hs.
  - exfalso. exact (split_from_not_nil _ _ _ Hs).
  - cbn [map]. rewrite strip_leading_space by reflexivity. reflexivity.
Qed.

Lemma parse_join (l : list string) :
  l <> [] ->
  Forall (fun x => PyStr.count "," x = 0 /\ PyStr.strip x = x) l ->
  map PyStr.strip (PyStr.split_from "," 0 (PyStr.join ", " l)) = l.
Proof.
  intros Hne Hall. induction Hall as [|x l [Hx Hs] Hall IH]; [congruence|].
  destruct l as [|y l].
  - cbn [PyStr.join]. rewrite split_from_last by exact Hx.
    cbn [map]. rewrite Hs. reflexivity.
  - change (PyStr.join ", " (x :: y :: l))
      with (x +:+ String "," (String " " (PyStr.join ", " (y :: l)))).
    rewrite split_from_field by exact Hx.
    cbn [map]. rewrite Hs, split_comma_space, IH by discriminate. reflexivity.
Qed.

(** X16: the recipient field is parsed back into the list it was written
    from: joining addresses with [", "] and parsing the text gives the
    addresses, as long as none contains a comma or starts or ends with white
    space. *)
Theorem parse_recipients_join (l : list string) :
  l <> [] ->
  Forall (fun x => PyStr.count "," x = 0 /\ PyStr.strip x = x) l ->
  Gui.parse_recipients (PyStr.join ", " l) = Ok l.
Proof.
  intros Hne Hall. unfold Gui.parse_recipients. cbn [PyStr.split bind_result].
  rewrite parse_join by assumption. reflexivity.
Qed.

(** X17: the check for missing information of the GUI's [send_email] fires
    exactly when the sender or the subject is empty.  The recipient list is
    never empty, since [split] returns at least one field: an empty
    recipient field passes this check. *)
Theorem gui_send_email_missing (server_running : bool) (client_host : string)
    (port : nat) (email_from email_to email_subject email_body : string)
    (f : Gui.form) :
  Gui.send_email server_running client_host (Ok port) email_from email_to
    email_subject email_body f = Ok Gui.WarnMissing
  <-> email_from = EmptyString \/ email_subject = EmptyString.
Proof.
  unfold Gui.send_email, Gui.parse_recipients. cbn [bind_result PyStr.split].
  destruct (map PyStr.strip (PyStr.split_from "," 0 email_to)) as [|r rs] eqn:Hr.
  { exfalso. apply map_eq_nil in Hr. exact (split_from_not_nil _ _ _ Hr). }
  rewrite orb_false_r.
  destruct (String.eqb_spec email_from "") as [->|Hf]; [cbn; tauto|].
  destruct (String.eqb_spec email_subject "") as [->|Hs]; [cbn; tauto|].
  cbn [orb].
  destruct (negb server_running
            && (String.eqb client_host "127.0.0.1" || String.eqb client_host "localhost"));
    split; try discriminate; intros [?|?]; congruence.
Qed.

End RecipientField.

Lemma parse_recipients_join_witness :
  Gui.parse_recipients "b@y.com, c@z.org" = Ok ["b@y.com"; "c@z.org"].
Proof.
  apply (parse_recipients_join ["b@y.com"; "c@z.org"]);
    [discriminate | repeat constructor].
Defined.

(** White space is a matter of characters, not of bytes: an ideographic
    space (U+3000, three bytes) after an address is stripped, and the last
    byte of ["à"], which is the second byte of a no-break space, is not. *)
Example strip_ideographic_space :
  PyStr.strip ("c@z.org" +:+ String "227" (String "128" (String "128" "")))
  = "c@z.org".
Proof. reflexivity. Qed.

Example strip_keeps_accent :
  PyStr.strip (" voil" +:+ String "195" (String "160" " "))
  = "voil" +:+ String "195" (String "160" "").
Proof. reflexivity. Qed.

(** An empty recipient field reaches the client as one empty recipient. *)
Example gui_send_email_empty_to :
  Gui.send_email true "127.0.0.1" (Ok 1025) "a@x.com" "" "Hi" "body" (Gui.Form [] [])
  = Ok (Gui.StartThread "127.0.0.1" 1025 "a@x.com" [""] "Hi" "body" None).
Proof. reflexivity. Qed.

(** ** From delivery to the mailbox tab *)

Section Names.

Lemma after_last_none (c : ascii) (s : string) :
  PyStr.count c s = 0 -> PyStr.after_last c s = s.
Proof.
  induction s as [|a s IH]; [reflexivity|]. cbn [PyStr.count PyStr.after_last].
  destruct (Ascii.eqb_spec a c) as [->|Hne]; [discriminate|].
  intros Hs. simpl in Hs. rewrite Hs. reflexivity.
Qed.

Lemma after_last_sep (c : ascii) (y name : string) :
  PyStr.count c name = 0 ->
  PyStr.after_last c (y +:+ String c name) = name.
Proof.
  intros Hname. induction y as [|a y IH].
  - cbn [String.append PyStr.after_last]. rewrite Hname, Ascii.eqb_refl. reflexivity.
  - cbn [String.append PyStr.after_last].
    rewrite count_app. cbn [PyStr.count]. rewrite Ascii.eqb_refl.
    replace (Nat.ltb 0 (PyStr.count c y + (1 + PyStr.count c name))) with true
      by (symmetry; apply Nat.ltb_lt; lia).
    exact IH.
Qed.

Lemma endswith_char_cons (c a : ascii) (s : string) :
  PyStr.endswith (String c EmptyString) (String a s)
  = match s with
    | EmptyString => Ascii.eqb a c
    | String _ _ => PyStr.endswith (String c EmptyString) s
    end.
Proof.
  unfold PyStr.endswith. destruct s as [|b s]; simpl.
  - destruct (Ascii.eqb a c); reflexivity.
  - rewrite ?Nat.sub_0_r. reflexivity.
Qed.

Lemma endswith_char (c : ascii) (s : string) :
  PyStr.endswith (String c EmptyString) s = true ->
  exists y, s = y +:+ String c EmptyString.
Proof.
  induction s as [|a s IH]; [discriminate|].
  rewrite endswith_char_cons. destruct s as [|b s].
  - intros H. apply Ascii.eqb_eq in H as ->. exists EmptyString. reflexivity.
  - intros H. destruct (IH H) as [y Hy]. exists (String a y). rewrite Hy. reflexivity.
Qed.

Lemma no_sep_no_start (c : ascii) (s : string) :
  PyStr.count c s = 0 -> PyStr.startswith (String c EmptyString) s = false.
Proof.
  destruct s as [|a s]; [reflexivity|]. cbn [PyStr.count PyStr.startswith].
  rewrite (Ascii.eqb_sym c a). destruct (Ascii.eqb a c); [discriminate | reflexivity].
Qed.

(** The entry of a directory under a name without ['/'] has that name. *)
Lemma basename_path_join (dir name : string) :
  PyStr.count "/" name = 0 -> basename (path_join dir name) = name.
Proof.
  intros Hname. unfold basename, path_join.
  rewrite (no_sep_no_start "/" name Hname).
  destruct (String.eqb_spec dir "") as [->|Hdir].
  - cbn [orb String.append]. apply after_last_none, Hname.
  - cbn [orb]. destruct (PyStr.endswith "/" dir) eqn:Hend.
    + apply endswith_char in Hend as [y ->]. rewrite <- append_assoc.
      apply after_last_sep, Hname.
    + apply after_last_sep, Hname.
Qed.

Lemma substring_all (s : string) : substring 0 (String.length s) s = s.
Proof. induction s as [|c s IH]; simpl; [reflexivity | rewrite IH; reflexivity]. Qed.

Lemma substring_skip (x s : string) (k : nat) :
  substring (String.length x) k (x +:+ s) = substring 0 k s.
Proof. induction x as [|c x IH]; [reflexivity|]. simpl. exact IH. Qed.

Lemma endswith_append (x suffix : string) :
  PyStr.endswith suffix (x +:+ suffix) = true.
Proof.
  unfold PyStr.endswith. rewrite length_append.
  replace (Nat.leb (String.length suffix) (String.length x + String.length suffix))
    with true by (symmetry; apply Nat.leb_le; lia).
  replace (String.length x + String.length suffix - String.length suffix)
    with (String.length x) by lia.
  rewrite substring_skip, substring_all. apply String.eqb_refl.
Qed.

Lemma encode_not_empty (a : string) : a <> EmptyString -> encode a <> EmptyString.
Proof.
  destruct a as [|c s]; [congruence|]. intros _. rewrite encode_cons.
  unfold enc_char.
  destruct (Ascii.eqb c "@"); [discriminate|].
  destruct (Ascii.eqb c "."); discriminate.
Qed.

Lemma decode_not_empty (d : string) : d <> EmptyString -> decode d <> EmptyString.
Proof.
  intros Hd. unfold decode.
  assert (H1 : PyStr.replace "_at_" "@" d <> EmptyString).
  { destruct d as [|c s]; [congruence|].
    destruct (PyStr.startswith "_at_" (String c s)) eqn:Hhit.
    - destruct (token_at_head _ Hhit) as (d' & _ & ->). discriminate.
    - unfold PyStr.replace. rewrite replace_from_miss by exact Hhit. discriminate. }
  destruct (PyStr.replace "_at_" "@" d) as [|c s]; [congruence|].
  rewrite replace_char_cons. destruct (Ascii.eqb "_" c); discriminate.
Qed.

End Names.

Section MailboxTab.

Variable datetime : Type.
Variable clock : nat -> datetime.
Variable strftime : string -> datetime -> string.
Variable isoformat : datetime -> string.
Variable enumerate : gmap string node -> list (string * node).
Variable json_dumps : dict -> string.
Variable json_loads : string -> result dict.
Variable message : Type.
Variable parsestr : string -> result message.
Variable render : message -> result string.

(** Whatever the order, the operating system enumerates the whole store. *)
Hypothesis enumerate_all : forall m, Permutation (enumerate m) (map_to_list m).

Let deliver_to_mailbox :=
  Smtp.deliver_to_mailbox datetime clock strftime isoformat "mailboxes".

Lemma listdir_lists (dir name : string) (n : node) (w : world) :
  dir ∉ denied w -> fs w !! dir = Some Dir ->
  name <> EmptyString -> PyStr.count "/" name = 0 ->
  fs w !! path_join dir name = Some n ->
  exists names, Gui.listdir enumerate dir w = (Ok names, w) /\ name ∈ names.
Proof.
  intros Hden Hdir Hne Hslash Hn. unfold Gui.listdir.
  rewrite bool_decide_eq_false_2 by exact Hden. rewrite Hdir.
  eexists. split; [reflexivity|].
  apply list_elem_of_omap. exists (path_join dir name, n). split.
  - rewrite enumerate_all. apply elem_of_map_to_list, Hn.
  - cbn [fst]. unfold Gui.entry_name. rewrite basename_path_join by exact Hslash.
    rewrite String.eqb_refl. apply String.eqb_neq in Hne. rewrite Hne. reflexivity.
Qed.

Lemma read_json_world (p : string) (w : world) : snd (Gui.read_json json_loads p w) = w.
Proof. unfold Gui.read_json. repeat case_match; reflexivity. Qed.

Lemma read_metadata_files_world (path : string) (names : list string) (w : world) :
  snd (Gui.read_metadata_files json_loads path names w) = w.
Proof.
  induction names as [|file rest IH]; [reflexivity|].
  cbn [Gui.read_metadata_files].
  destruct (PyStr.endswith ".json" file); [|exact IH].
  unfold bind at 1.
  pose proof (read_json_world (path_join path file) w) as Hj.
  destruct (Gui.read_json json_loads (path_join path file) w) as [[md|e] w1];
    cbn [snd] in Hj; subst w1; [|reflexivity].
  unfold bind at 1.
  destruct (Gui.read_metadata_files json_loads path rest w) as [[l|e] w2];
    cbn [snd] in IH; subst w2; reflexivity.
Qed.

(** A loaded listing holds the record of every metadata file it names. *)
Lemma read_metadata_files_holds (path file : string) (md : dict)
    (names : list string) (emails : list dict) (w : world) :
  fst (Gui.read_metadata_files json_loads path names w) = Ok emails ->
  file ∈ names -> PyStr.endswith ".json" file = true ->
  fs w !! path_join path file = Some (File (Json md)) ->
  md ∈ emails.
Proof.
  intros H Hin Hjson Hfile. revert emails H.
  induction names as [|x rest IH]; intros emails H; [inversion Hin|].
  cbn [Gui.read_metadata_files] in H.
  destruct (decide (file = x)) as [<-|Hne].
  - rewrite Hjson in H. unfold bind at 1 in H.
    destruct (Gui.read_json json_loads (path_join path file) w) as [[md'|e] w1] eqn:Hj;
      [|discriminate].
    assert (md' = md).
    { unfold Gui.read_json in Hj. rewrite Hfile in Hj.
      destruct (bool_decide _); [discriminate|]. cbn in Hj. congruence. }
    subst md'. unfold bind at 1 in H.
    destruct (Gui.read_metadata_files json_loads path rest w1) as [[l|e] w2]; [|discriminate].
    cbn in H. injection H as <-. left.
  - apply elem_of_cons in Hin as [?|Hin]; [congruence|].
    destruct (PyStr.endswith ".json" x); [|exact (IH Hin _ H)].
    unfold bind at 1 in H.
    pose proof (read_json_world (path_join path x) w) as Hw.
    destruct (Gui.read_json json_loads (path_join path x) w) as [[md'|e] w1];
      [|discriminate].
    cbn [snd] in Hw. subst w1. unfold bind at 1 in H.
    destruct (Gui.read_metadata_files json_loads path rest w) as [[l|e] w2] eqn:Hrest;
      [|discriminate].
    cbn in H. injection H as <-. right. exact (IH Hin _ eq_refl).
Qed.

(** The mailbox paths of this store have no dot. *)
Lemma mailbox_path_no_dot (recipient : string) :
  PyStr.count "." (path_join "mailboxes" (encode recipient)) = 0.
Proof.
  unfold path_join.
  destruct (PyStr.startswith "/" (encode recipient)); [apply encode_has_no_dot|].
  change (String.eqb "mailboxes" "" || PyStr.endswith "/" "mailboxes") with false.
  cbv iota. rewrite !count_app, encode_has_no_dot. reflexivity.
Qed.

(** What a delivery that returns says about the store and its directory. *)
Lemma deliver_to_mailbox_dir (recipient sender subject raw : string) (w w' : world) :
  deliver_to_mailbox recipient sender subject raw w = (Ok tt, w') ->
  let d := path_join "mailboxes" (encode recipient) in
  let ts := strftime "%Y%m%d_%H%M%S_%f" (clock (ticks w)) in
  denied w' = denied w /\
  (path_join d ("email_" +:+ ts +:+ ".eml") ∉ denied w) /\
  (path_join d ("metadata_" +:+ ts +:+ ".json") ∉ denied w) /\
  is_Some (fs w' !! d) /\
  (fs w !! d = None -> fs w' !! d = Some Dir) /\
  (forall n, fs w !! d = Some n -> fs w' !! d = Some n).
Proof.
  intros H. cbv zeta.
  apply (deliver_to_mailbox_ok datetime clock strftime isoformat "mailboxes") in H.
  cbv zeta in H.
  set (d := path_join "mailboxes" (encode recipient)) in *.
  set (ts := strftime "%Y%m%d_%H%M%S_%f" (clock (ticks w))) in *.
  destruct H as (base & Hbase & Hwhy & Hden & Hep & Hmp & Hfs).
  pose proof (path_join_longer d ("metadata_" +:+ ts +:+ ".json")
                eq_refl ltac:(discriminate)) as Hmd.
  pose proof (path_join_longer d ("email_" +:+ ts +:+ ".eml")
                eq_refl ltac:(discriminate)) as Hed.
  assert (Hlook : fs w' !! d = base !! d).
  { rewrite Hfs, !lookup_insert_ne by congruence. reflexivity. }
  assert (Hmade : fs w !! d = None -> base !! d = Some Dir).
  { intros Hnone. destruct Hwhy as [[n Hn]|(w1 & Hmk & <-)]; [congruence|].
    eapply makedirs_rec_ok; [|exact Hmk].
    apply no_dot_last, mailbox_path_no_dot. }
  split; [exact Hden|]. split; [exact Hep|]. split; [exact Hmp|].
  rewrite Hlook. split; [|split].
  - destruct (fs w !! d) as [n|] eqn:Hn.
    + rewrite (dirs_added_some _ _ _ _ Hbase Hn). eauto.
    + rewrite Hmade by reflexivity. eauto.
  - exact Hmade.
  - intros n Hn. exact (dirs_added_some _ _ _ _ Hbase Hn).
Qed.

Lemma listdir_ok (dir : string) (names : list string) (w w' : world) :
  Gui.listdir enumerate dir w = (Ok names, w') ->
  (dir ∉ denied w) /\ fs w !! dir = Some Dir /\ w' = w.
Proof.
  unfold Gui.listdir. intros H.
  destruct (bool_decide (dir ∈ denied w)) eqn:Hden; [discriminate|].
  apply bool_decide_eq_false in Hden.
  destruct (fs w !! dir) as [[|c]|]; try discriminate.
  injection H as _ <-. auto.
Qed.

Lemma load_emails_values (tab tab' : Gui.mailbox_tab) (w w' : world) :
  Gui.load_emails enumerate json_loads tab w = (Ok tab', w') ->
  Gui.combo_values tab' = Gui.combo_values tab.
Proof.
  unfold Gui.load_emails, bind, path_exists, ret. intros H.
  destruct (String.eqb (Gui.mailbox_var tab) ""); [injection H as <- _; reflexivity|].
  destruct (negb _); [injection H as <- _; reflexivity|].
  destruct (Gui.listdir _ _ _) as [[names|e] w1]; [|discriminate].
  destruct (Gui.read_metadata_files _ _ _) as [[emails|e] w2]; [|discriminate].
  injection H as <- _. reflexivity.
Qed.

Lemma path_join_grows (d x : string) :
  PyStr.startswith "/" x = false -> x <> EmptyString ->
  String.length d < String.length (path_join d x).
Proof.
  intros Hx Hne. unfold path_join. rewrite Hx.
  destruct x as [|c x]; [congruence|].
  destruct (String.eqb d "" || PyStr.endswith "/" d);
    rewrite ?length_append; simpl; lia.
Qed.

(** X18: a delivered message cannot be viewed.  With the mailbox name the
    GUI shows for the recipient selected, [view_email] finds the content file
    the delivery wrote and opens it in binary mode; unless the message has no
    byte at all, the parser raises [TypeError] on the bytes it is fed, and
    [view_email] ends in its error branch, showing the error instead of the
    message. *)
Theorem delivered_mail_is_viewed (recipient sender subject raw : string)
    (w w' : world) (tab : Gui.mailbox_tab) :
  deliver_to_mailbox recipient sender subject raw w = (Ok tt, w') ->
  raw <> EmptyString ->
  Gui.mailbox_var tab = decode (encode recipient) ->
  Gui.view_email json_dumps message parsestr render tab
    (Some ("email_" +:+ strftime "%Y%m%d_%H%M%S_%f" (clock (ticks w)) +:+ ".eml")) w'
  = (Ok (Some (Raise (Exn TypeError "string argument expected, got 'bytes'"))), w').
Proof.
  intros H Hraw Hvar.
  destruct (deliver_to_mailbox_dir _ _ _ _ _ _ H) as (Hden & Hep & _).
  apply (deliver_to_mailbox_ok datetime clock strftime isoformat "mailboxes") in H.
  cbv zeta in H. destruct H as (base & _ & _ & _ & _ & _ & Hfs).
  set (ts := strftime "%Y%m%d_%H%M%S_%f" (clock (ticks w))) in *.
  set (d := path_join "mailboxes" (encode recipient)) in *.
  assert (Hlook : fs w' !! path_join d ("email_" +:+ ts +:+ ".eml")
                  = Some (File (Bytes raw))).
  { rewrite Hfs, lookup_insert_ne by (apply not_eq_sym, eml_not_json).
    apply lookup_insert_eq. }
  unfold Gui.view_email. cbn [String.append String.eqb].
  rewrite Hvar, encode_decode_name by (apply encode_has_no_at || apply encode_has_no_dot).
  fold d. change (String "e" (String "m" (String "a" (String "i" (String "l"
                   (String "_" (ts +:+ ".eml")))))))
    with ("email_" +:+ ts +:+ ".eml").
  unfold bind at 1, path_exists at 1. rewrite Hlook.
  rewrite bool_decide_eq_true_2 by eauto.
  unfold try_except, bind, read_bytes, lift, Gui.parse_binary. rewrite Hden, Hlook.
  rewrite bool_decide_eq_false_2 by exact Hep.
  apply String.eqb_neq in Hraw. rewrite Hraw. reflexivity.
Qed.

(** X19: a delivered message is listed: when [load_emails] returns for the
    mailbox name the GUI shows for the recipient, the tree holds a record of
    the delivery, naming its content file, its recipient, sender and subject
    (timestamps are taken to contain no ['/']). *)
Theorem delivered_mail_is_listed (recipient sender subject raw : string)
    (w w' w'' : world) (tab tab' : Gui.mailbox_tab) :
  deliver_to_mailbox recipient sender subject raw w = (Ok tt, w') ->
  recipient <> EmptyString ->
  PyStr.count "/" (strftime "%Y%m%d_%H%M%S_%f" (clock (ticks w))) = 0 ->
  Gui.mailbox_var tab = decode (encode recipient) ->
  Gui.load_emails enumerate json_loads tab w' = (Ok tab', w'') ->
  exists md,
    md ∈ Gui.email_tree tab' /\
    dict_get md "filename" ""
      = "email_" +:+ strftime "%Y%m%d_%H%M%S_%f" (clock (ticks w)) +:+ ".eml" /\
    dict_get md "to" "" = recipient /\
    dict_get md "from" "" = sender /\
    dict_get md "subject" "" = subject.
Proof.
  intros H Hne Hts Hvar Hload.
  destruct (deliver_to_mailbox_dir _ _ _ _ _ _ H) as (_ & _ & _ & Hdir & _).
  apply (deliver_to_mailbox_ok datetime clock strftime isoformat "mailboxes") in H.
  cbv zeta in H, Hdir. destruct H as (base & _ & _ & _ & _ & _ & Hfs).
  set (ts := strftime "%Y%m%d_%H%M%S_%f" (clock (ticks w))) in *.
  set (d := path_join "mailboxes" (encode recipient)) in *.
  set (file := "metadata_" +:+ ts +:+ ".json") in *.
  match type of Hfs with
  | _ = <[_ := File (Json ?m)]> _ => set (md := m) in *
  end.
  assert (Hlook : fs w' !! path_join d file = Some (File (Json md))).
  { rewrite Hfs. apply lookup_insert_eq. }
  unfold Gui.load_emails in Hload.
  assert (Hname : String.eqb (Gui.mailbox_var tab) "" = false).
  { rewrite Hvar. apply String.eqb_neq, decode_not_empty, encode_not_empty, Hne. }
  rewrite Hname, Hvar, encode_decode_name in Hload
    by (apply encode_has_no_at || apply encode_has_no_dot).
  fold d in Hload. unfold bind at 1, path_exists at 1 in Hload.
  rewrite bool_decide_eq_true_2 in Hload by exact Hdir. cbn [negb] in Hload.
  unfold bind at 1 in Hload.
  destruct (Gui.listdir enumerate d w') as [[names|e] w1] eqn:Hls; [|discriminate].
  destruct (listdir_ok _ _ _ _ Hls) as (Hden & Hd & ->).
  destruct (listdir_lists d file (File (Json md)) w' Hden Hd) as (names' & Hls' & Hin);
    [discriminate | | exact Hlook |].
  { unfold file. rewrite !count_app, Hts. reflexivity. }
  rewrite Hls in Hls'. injection Hls' as <-.
  unfold bind at 1 in Hload.
  destruct (Gui.read_metadata_files json_loads d names w') as [[emails|e] w2] eqn:Hread;
    [|discriminate].
  injection Hload as <- _. cbn [Gui.email_tree].
  exists md. split; [|repeat split].
  rewrite sort_reverse_perm.
  eapply (read_metadata_files_holds d file md names emails w');
    [rewrite Hread; reflexivity | exact Hin | | exact Hlook].
  unfold file. rewrite append_assoc. apply endswith_append.
Qed.

(** X20: a delivered mailbox is offered: when the mailbox directory of the
    store exists, the recipient has no ['/'] and its own directory was absent
    or a directory, then after the delivery [refresh_mailbox] puts the
    recipient's mailbox name among the values of the combo box. *)
Theorem delivered_mailbox_is_offered (recipient sender subject raw : string)
    (w w' w'' : world) (tab tab' : Gui.mailbox_tab) :
  deliver_to_mailbox recipient sender subject raw w = (Ok tt, w') ->
  recipient <> EmptyString -> PyStr.count "/" recipient = 0 ->
  fs w !! "mailboxes" = Some Dir ->
  (fs w !! path_join "mailboxes" (encode recipient) = None \/
   fs w !! path_join "mailboxes" (encode recipient) = Some Dir) ->
  Gui.refresh_mailbox enumerate json_loads tab w' = (Ok tab', w'') ->
  decode (encode recipient) ∈ Gui.combo_values tab'.
Proof.
  intros H Hne Hslash Hroot Hold Hrefresh.
  destruct (deliver_to_mailbox_dir _ _ _ _ _ _ H) as (_ & _ & _ & _ & Hnew & Hkeep).
  apply (deliver_to_mailbox_ok datetime clock strftime isoformat "mailboxes") in H.
  cbv zeta in H, Hnew, Hkeep. destruct H as (base & Hbase & _ & _ & _ & _ & Hfs).
  set (ts := strftime "%Y%m%d_%H%M%S_%f" (clock (ticks w))) in *.
  set (d := path_join "mailboxes" (encode recipient)) in *.
  assert (Hstart : PyStr.startswith "/" (encode recipient) = false).
  { apply no_sep_no_start. rewrite encode_keeps_slashes. exact Hslash. }
  assert (Hd : String.length "mailboxes" < String.length d)
    by (apply path_join_grows; [exact Hstart | apply encode_not_empty, Hne]).
  assert (Hdir : fs w' !! d = Some Dir)
    by (destruct Hold as [Hold|Hold]; auto).
  assert (Hroot' : fs w' !! "mailboxes" = Some Dir).
  { rewrite Hfs.
    rewrite !lookup_insert_ne.
    - exact (dirs_added_some _ _ _ _ Hbase Hroot).
    - intros Heq. apply (f_equal String.length) in Heq.
      pose proof (path_join_grows d ("email_" +:+ ts +:+ ".eml") eq_refl
                    ltac:(discriminate)). lia.
    - intros Heq. apply (f_equal String.length) in Heq.
      pose proof (path_join_grows d ("metadata_" +:+ ts +:+ ".json") eq_refl
                    ltac:(discriminate)). lia. }
  unfold Gui.refresh_mailbox in Hrefresh.
  unfold bind at 1, path_exists at 1 in Hrefresh.
  rewrite bool_decide_eq_true_2 in Hrefresh by (rewrite Hroot'; eauto).
  unfold bind at 1 in Hrefresh.
  destruct (Gui.listdir enumerate "mailboxes" w') as [[names|e] w1] eqn:Hls;
    [|discriminate].
  destruct (listdir_ok _ _ _ _ Hls) as (Hden & _ & ->).
  destruct (listdir_lists "mailboxes" (encode recipient) Dir w' Hden Hroot')
    as (names' & Hls' & Hin);
    [apply encode_not_empty, Hne | rewrite encode_keeps_slashes; exact Hslash
    | exact Hdir |].
  rewrite Hls in Hls'. injection Hls' as <-.
  unfold bind at 1 in Hrefresh.
  set (mailboxes := map decode (List.filter _ names)) in Hrefresh.
  assert (Hmem : decode (encode recipient) ∈ mailboxes).
  { apply list_elem_of_In, in_map, filter_In. split.
    - apply list_elem_of_In, Hin.
    - unfold Gui.isdir. fold d. rewrite Hdir. reflexivity. }
  destruct mailboxes as [|first rest] eqn:Hm; [inversion Hmem|].
  apply load_emails_values in Hrefresh. rewrite Hrefresh. exact Hmem.
Qed.

End MailboxTab.

Lemma delivered_mail_is_viewed_witness :
  Gui.view_email (fun d => "") dict Sample.parsestr (fun m => Ok "") Sample.tab
    (Some "email_0.eml") Sample.served
  = (Ok (Some (Raise (Exn TypeError "string argument expected, got 'bytes'"))),
     Sample.served).
Proof.
  apply (delivered_mail_is_viewed nat Sample.ticking Sample.strftime Sample.isoformat
           (fun d => "") dict Sample.parsestr (fun m => Ok "")
           "a_b@x.com" "s@x.com" "Hi" "raw"
           (snd (CustomSMTPHandler_init "mailboxes" Sample.empty_world))
           Sample.served Sample.tab).
  - vm_compute. reflexivity.
  - discriminate.
  - reflexivity.
Defined.

Lemma delivered_mail_is_listed_witness :
  exists md,
    md ∈ Gui.email_tree
           (Sample.loaded Sample.tab (Gui.load_emails map_to_list Sample.json_loads Sample.tab Sample.served)) /\
    dict_get md "filename" "" = "email_0.eml" /\
    dict_get md "to" "" = "a_b@x.com".
Proof.
  destruct (delivered_mail_is_listed nat Sample.ticking Sample.strftime Sample.isoformat
              map_to_list Sample.json_loads (fun m => Permutation_refl _)
              "a_b@x.com" "s@x.com" "Hi" "raw"
              (snd (CustomSMTPHandler_init "mailboxes" Sample.empty_world))
              Sample.served Sample.served Sample.tab
              (Sample.loaded Sample.tab
                 (Gui.load_emails map_to_list Sample.json_loads Sample.tab Sample.served)))
    as (md & Hin & Hfile & Hto & _).
  - vm_compute. reflexivity.
  - discriminate.
  - reflexivity.
  - reflexivity.
  - vm_compute. reflexivity.
  - exists md. split; [exact Hin|]. split; [exact Hfile | exact Hto].
Defined.

Lemma delivered_mailbox_is_offered_witness :
  "a.b@x.com"
  ∈ Gui.combo_values
      (Sample.loaded Sample.tab (Gui.refresh_mailbox map_to_list Sample.json_loads Sample.tab Sample.served)).
Proof.
  apply (delivered_mailbox_is_offered nat Sample.ticking Sample.strftime Sample.isoformat
           map_to_list Sample.json_loads (fun m => Permutation_refl _)
           "a_b@x.com" "s@x.com" "Hi" "raw"
           (snd (CustomSMTPHandler_init "mailboxes" Sample.empty_world))
           Sample.served Sample.served Sample.tab).
  - vm_compute. reflexivity.
  - discriminate.
  - reflexivity.
  - vm_compute. reflexivity.
  - left. vm_compute. reflexivity.
  - vm_compute. reflexivity.
Defined.

(** ** Listings with other files and with files that do not load *)

Section ListingMore.

Variable json_loads : string -> result dict.

Let is_json (e : string * node) : bool := PyStr.endswith ".json" (fst e).

Lemma read_metadata_filter (entries : list (string * node)) :
  read_metadata json_loads (List.filter is_json entries)
  = read_metadata json_loads entries.
Proof.
  induction entries as [|[file n] rest IH]; [reflexivity|].
  cbn [List.filter read_metadata]. unfold is_json at 1. cbn [fst].
  destruct (PyStr.endswith ".json" file) eqn:Hj; [|exact IH].
  cbn [read_metadata]. rewrite Hj, IH. reflexivity.
Qed.

(** X23: files whose name does not end in [.json] play no part in the
    listing: the content files and any foreign file can be taken out of the
    directory without changing what [load_emails] shows. *)
Theorem load_emails_ignores_other_files (entries : list (string * node)) :
  load_emails json_loads
    (List.filter (fun e => PyStr.endswith ".json" (fst e)) entries)
  = load_emails json_loads entries.
Proof. unfold load_emails. fold is_json. rewrite read_metadata_filter. reflexivity. Qed.

(** X24: one [.json] entry that does not load, a directory or a file on
    which [json.load] raises, makes the whole listing fail: [load_emails]
    raises and shows no record at all. *)
Theorem load_emails_one_bad_file (entries : list (string * node)) (file : string)
    (n : node) :
  (file, n) ∈ entries ->
  PyStr.endswith ".json" file = true ->
  (forall c, n = File c -> exists e, json_load json_loads c = Raise e) ->
  exists e, load_emails json_loads entries = Raise e.
Proof.
  intros Hin Hjson Hbad. unfold load_emails.
  assert (H : exists e, read_metadata json_loads entries = Raise e).
  { induction entries as [|[x m] rest IH]; [inversion Hin|].
    cbn [read_metadata].
    apply elem_of_cons in Hin as [[= <- <-]|Hin].
    - rewrite Hjson. destruct n as [|c]; cbn; [eauto|].
      destruct (Hbad c eq_refl) as [e ->]. cbn. eauto.
    - destruct (IH Hin) as [e He]. rewrite He.
      destruct (PyStr.endswith ".json" x); [|eauto].
      destruct m as [|c]; cbn; [eauto|].
      destruct (json_load json_loads c); cbn; eauto. }
  destruct H as [e ->]. eauto.
Qed.

End ListingMore.

Lemma load_emails_one_bad_file_witness :
  exists e,
    load_emails Sample.json_loads
      (Sample.listing ++ [("notes.json", File (Bytes "not json"))]) = Raise e.
Proof.
  apply (load_emails_one_bad_file Sample.json_loads _ "notes.json"
           (File (Bytes "not json"))).
  - set_solver.
  - reflexivity.
  - intros c [= <-]. eexists. reflexivity.
Defined.

(** A file that [json.dump] did not write but that holds JSON is listed. *)
Example load_emails_foreign_json :
  load_emails Sample.json_loads [("x.json", File (Bytes "{}"))] = Ok [[]].
Proof. reflexivity. Qed.

(** ** The composed message *)

Section ComposeMore.

Variable datetime : Type.
Variable clock : nat -> datetime.
Variable strftime : string -> datetime -> string.
Variable str_of_list : list string -> string.
Variable b64encode : string -> string.
Variable json_dumps : dict -> string.

Let attach_all := Smtp.attach_all b64encode json_dumps.
Let create_email := Smtp.create_email datetime clock strftime str_of_list b64encode json_dumps.

(** Attaching only appends parts. *)
Lemma attach_all_appends (l : list string) (msg msg' : mime) (w w' : world) :
  attach_all msg l w = (Ok msg', w') ->
  headers msg' = headers msg /\ exists more, parts msg' = parts msg ++ more.
Proof.
  revert msg w. induction l as [|p l IH]; intros msg w H.
  - injection H as <- _. split; [reflexivity|]. exists []. symmetry. apply app_nil_r.
  - unfold attach_all in H. cbn [Smtp.attach_all] in H.
    unfold bind at 1, path_exists at 1 in H. unfold bind at 1 in H.
    destruct (bool_decide (is_Some (fs w !! p))).
    + destruct (Smtp._attach_file b64encode json_dumps msg p w) as [[m1|e] w1] eqn:Hone;
        [|discriminate].
      assert (Hm1 : headers m1 = headers msg /\ exists x, parts m1 = parts msg ++ [x]).
      { unfold Smtp._attach_file, try_except, bind, read_bytes, log_at, ret, raise in Hone.
        repeat (case_match; simplify_eq/=); eauto. }
      destruct Hm1 as (Hh & x & Hp).
      destruct (IH _ _ H) as (Hh' & more & Hp').
      split; [congruence|]. exists (x :: more).
      rewrite Hp', Hp, <- app_assoc. reflexivity.
    + unfold bind, log_at, ret in H. cbn in H. exact (IH _ _ H).
Qed.

(** X25: whatever the attachments, a message [create_email] returns carries
    the two headers [MIMEMultipart()] starts with, [Content-Type] and
    [MIME-Version], then [From], [To], [Subject] and [Date] in this order,
    the recipients of a list joined with [", "], and has the plain-text body
    as its first part; attachments only come after it. *)
Theorem create_email_shape (sender : string) (recipients : recipients_arg)
    (subject body : string) (attachments : option (list string))
    (msg : mime) (w w' : world) :
  create_email sender recipients subject body attachments w = (Ok msg, w') ->
  headers msg
  = [("Content-Type", "multipart/mixed"); ("MIME-Version", "1.0");
     ("From", sender);
     ("To", match recipients with RList l => PyStr.join ", " l | RStr r => r end);
     ("Subject", subject);
     ("Date", strftime "%a, %d %b %Y %H:%M:%S %z" (clock (ticks w)))] /\
  exists more, parts msg = MIMEText body "plain" :: more.
Proof.
  unfold create_email, Smtp.create_email, try_except.
  unfold bind at 1. unfold now at 1.
  set (w1 := World _ _ _ _ _ _). set (msg0 := Mime _ _). intros H.
  assert (Hgoal : forall m wm,
             (match attachments with
              | Some ((_ :: _) as l) => Smtp.attach_all b64encode json_dumps msg0 l
              | _ => ret msg0
              end) w1 = (Ok m, wm) ->
             headers m = headers msg0 /\ exists more, parts m = parts msg0 ++ more).
  { intros m wm Hm. destruct attachments as [[|p l]|].
    - injection Hm as <- _. split; [reflexivity|]. exists []. reflexivity.
    - exact (attach_all_appends _ _ _ _ _ Hm).
    - injection Hm as <- _. split; [reflexivity|]. exists []. reflexivity. }
  unfold bind at 1 in H.
  destruct (match attachments with
            | Some ((_ :: _) as l) => Smtp.attach_all b64encode json_dumps msg0 l
            | _ => ret msg0
            end w1) as [[m|e] wm] eqn:Hm.
  - destruct (Hgoal m wm eq_refl) as (Hh & more & Hp).
    unfold bind, log_at, ret in H. cbn in H. injection H as <- _.
    split; [exact Hh|]. exists more. exact Hp.
  - unfold bind, log_at, raise in H. cbn in H. discriminate.
Qed.

End ComposeMore.

Lemma create_email_shape_witness :
  exists more,
    parts (match fst (Sample.compose "a@x.com" (RList ["b@y.com"; "c@z.org"]) "Hi" "body"
                        (Some ["/home/u/note.txt"]) Sample.desk) with
           | Ok m => m
           | Raise _ => Mime [] []
           end) = MIMEText "body" "plain" :: more.
Proof.
  assert (Hrun : exists m w',
             Sample.compose "a@x.com" (RList ["b@y.com"; "c@z.org"]) "Hi" "body"
               (Some ["/home/u/note.txt"]) Sample.desk = (Ok m, w')).
  { vm_compute. eauto. }
  destruct Hrun as (m & w' & Hrun). unfold Sample.compose in *.
  destruct (create_email_shape nat Sample.ticking Sample.strftime Sample.str_of_list
              (fun b => b) (fun d => "") _ _ _ _ _ _ _ _ Hrun) as (_ & more & Hp).
  exists more. rewrite Hrun. exact Hp.
Defined.
